(** * Wooting analog rhythm test: telemetry decoder, sequence generator,
      attempt evaluator and running statistics

    Shallow embedding of
      - the hook [useWebSocket] (first part of src/unnamed/part_000),
      - the component [AnalogTypingTest] in its dwell variant, which resolves
        an attempt after a hold of 750 ms (last part of src/unnamed/part_000),
      - the same component in its peak-on-release variant, which resolves on
        release against the highest analog value seen
        (src/frontend/src/components/AnalogTypingTest.tsx).
    The first copy of the component (src/src/components), without hold,
    wrong-key test or cooldown, is [Instant]; [Connection] is the rest of
    the hook and [KeyboardKey] the key the components render.

    Numbers.  A JavaScript number is a binary64 float.  The model keeps the
    integer-valued ones (key codes, pressed flags, timestamps of [Date.now()])
    in [Z], counters and the sequence index in [nat], and the fractional ones
    (analog values, deviations, accuracy, average deviation) in [Q], that is,
    with exact arithmetic: rounding is not modelled.  The evaluators
    [Dwell], [Peak] and [Instant] take analog values that are finite numbers.
    The components taken whole, [DwellComponent], [PeakComponent] and
    [InstantComponent], take the numbers of [Js]: a finite value, an
    infinity or [NaN], which [parseFloat] can return and the hook passes on.

    Texts.  A message is a [string]; the expression of the hook tells apart
    only digits, the colon and the two parentheses, so the encoding of other
    characters does not matter.

    React.  A component's [useState] cells are the fields of a [State]
    record.  One run of the evaluation effect is one call of [effect], given
    the value of [Date.now()] (one instant per run) and the current value of
    the hook's [keyData] cell; React runs the effect again whenever one of
    its dependencies changed, which the environment does here by calling
    [effect] again.  A callback registered with [setTimeout] waits in a queue
    inside the state until the environment fires it. *)

From Stdlib Require Import String Ascii ZArith QArith Qround Qabs Qminmax List Bool Lia Lqa Arith.
From Stdlib Require Floats.PrimFloat.
From Equations Require Import Equations.
Import ListNotations.

(** ** Data shared by the hook and the components *)

(** [interface KeyData].  The type of [analogValue] is a parameter: the
    decoder produces whatever [parseFloat] returns, the evaluators read [Q]. *)
Record KeyData (num : Type) : Type := mkKeyData {
  keyCode : Z;
  analogValue : num;
  isPressed : Z
}.
Arguments mkKeyData {num} _ _ _.
Arguments keyCode {num} _.
Arguments analogValue {num} _.
Arguments isPressed {num} _.

(** * useWebSocket: the telemetry decoder *)
Module WebSocketHook.

Definition colon : ascii := ":"%char.
Definition lparen : ascii := "("%char.
Definition rparen : ascii := ")"%char.

(** [\d] : the ASCII digits. *)
Definition isDigit (c : ascii) : bool :=
  let n := nat_of_ascii c in (48 <=? n)%nat && (n <=? 57)%nat.

(** [[^:]] : any character but the colon. *)
Definition notColon (c : ascii) : bool := negb (Ascii.eqb c colon).

(** The longest prefix of [s] whose characters satisfy [p], and what follows
    it: a greedy [p*]. *)
Fixpoint span (p : ascii -> bool) (s : list ascii) : list ascii * list ascii :=
  match s with
  | c :: s' =>
      if p c then let (run, rest) := span p s' in (c :: run, rest)
      else ([], s)
  | [] => ([], [])
  end.

(** [p+] followed by the literal [c].  In the expression of the hook the
    literal never satisfies [p] (a colon is neither a digit nor a non-colon,
    a closing parenthesis is not a digit), so giving back characters of the
    greedy run cannot help and the engine's backtracking is not modelled. *)
Definition plusThen (p : ascii -> bool) (c : ascii) (s : list ascii)
  : option (list ascii * list ascii) :=
  match span p s with
  | (x :: run, d :: rest) =>
      if Ascii.eqb d c then Some (x :: run, rest) else None
  | _ => None
  end.

(** The three captures of [/\((\d+):([^:]+):(\d+)\)/]. *)
Definition Captures : Type := (list ascii * list ascii * list ascii)%type.

(** The text matched by a group with captures [g]. *)
Definition groupText (g : Captures) : list ascii :=
  let '(k, a, p) := g in
  lparen :: k ++ colon :: a ++ colon :: p ++ [rparen].

(** A match of [/\((\d+):([^:]+):(\d+)\)/] anchored at the head of [s]:
    the captures and the text after the match. *)
Definition matchGroup (s : list ascii) : option (Captures * list ascii) :=
  match s with
  | c :: s1 =>
      if Ascii.eqb c lparen then
        match plusThen isDigit colon s1 with
        | Some (k, s2) =>
            match plusThen notColon colon s2 with
            | Some (a, s3) =>
                match plusThen isDigit rparen s3 with
                | Some (p, s4) => Some ((k, a, p), s4)
                | None => None
                end
            | None => None
            end
        | None => None
        end
      else None
  | [] => None
  end.

Lemma span_length (p : ascii -> bool) (s : list ascii) :
  (length (snd (span p s)) <= length s)%nat.
Proof.
  induction s as [|c s IH]; simpl; [lia|].
  destruct (p c); simpl; [|lia].
  destruct (span p s); simpl in *; lia.
Qed.

Lemma plusThen_length p c s r rest :
  plusThen p c s = Some (r, rest) -> (length rest < length s)%nat.
Proof.
  unfold plusThen. pose proof (span_length p s) as L.
  destruct (span p s) as [[|x run] [|d rest']]; try discriminate.
  destruct (Ascii.eqb d c); [|discriminate].
  intros [= <- <-]. simpl in L. lia.
Qed.

Lemma matchGroup_length s g rest :
  matchGroup s = Some (g, rest) -> (length rest < length s)%nat.
Proof.
  destruct s as [|c s1]; simpl; [discriminate|].
  destruct (Ascii.eqb c lparen); [|discriminate].
  destruct (plusThen isDigit colon s1) as [[k s2]|] eqn:E1; [|discriminate].
  destruct (plusThen notColon colon s2) as [[a s3]|] eqn:E2; [|discriminate].
  destruct (plusThen isDigit rparen s3) as [[p s4]|] eqn:E3; [|discriminate].
  intros [= <- <-].
  apply plusThen_length in E1, E2, E3. lia.
Qed.

Definition inspect {A : Type} (a : A) : {b : A | a = b} := exist _ a eq_refl.

(** [message.match(/.../g)]: every match, leftmost first, the search resuming
    where the previous match ended; a position where the expression does not
    match is skipped.  (JavaScript returns [null] for no match at all; that
    is the empty list here, see [onmessage].) *)
Equations? matchGlobal (s : list ascii) : list (list ascii) by wf (length s) lt :=
  matchGlobal [] := [];
  matchGlobal (c :: s') with inspect (matchGroup (c :: s')) => {
    | exist _ (Some (g, rest)) _ := groupText g :: matchGlobal rest;
    | exist _ None _ := matchGlobal s' }.
Proof.
  exact (matchGroup_length (c :: s') g rest e).
Qed.

(** [m.match(/.../)] without the [g] flag: the captures of the first match. *)
Fixpoint matchFirst (s : list ascii) : option Captures :=
  match matchGroup s with
  | Some (g, _) => Some g
  | None => match s with
            | _ :: s' => matchFirst s'
            | [] => None
            end
  end.

Definition digitValue (c : ascii) : Z := Z.of_nat (nat_of_ascii c - 48).

(** [parseInt] on a run of digits (the only texts it is given here), as an
    exact integer. *)
Definition parseInt (ds : list ascii) : Z :=
  fold_left (fun acc c => 10 * acc + digitValue c)%Z ds 0%Z.

Section Decoder.

(** [parseFloat] is a builtin; the decoder is modelled for any reading of
    the second capture. *)
Variable num : Type.
Variable parseFloat : list ascii -> num.

Definition toKeyData (g : Captures) : KeyData num :=
  let '(k, a, p) := g in
  mkKeyData (parseInt k) (parseFloat a) (parseInt p).

(** [keyMatches.map(match => ...)].  The fallback [|| []] of the source is
    for a text without a match; it would build a record of NaNs.  Every
    element of [keyMatches] matches again ([rematch]), so the fallback is
    dead and the model drops such an element instead. *)
Fixpoint parsedKeys (keyMatches : list (list ascii)) : list (KeyData num) :=
  match keyMatches with
  | m :: ms =>
      match matchFirst m with
      | Some g => toKeyData g :: parsedKeys ms
      | None => parsedKeys ms
      end
  | [] => []
  end.

(** [ws.current.onmessage]: the new value of the [keyData] cell.
    [if (message)] skips the empty text, [if (keyMatches)] skips a text
    without a match; in both cases [setKeyData] is not called. *)
Definition onmessage (message : string) (keyData : list (KeyData num))
  : list (KeyData num) :=
  match list_ascii_of_string message with
  | [] => keyData
  | s => match matchGlobal s with
         | [] => keyData
         | keyMatches => parsedKeys keyMatches
         end
  end.

End Decoder.

Arguments toKeyData {num} _ _.
Arguments parsedKeys {num} _ _.
Arguments onmessage {num} _ _%_string _.

End WebSocketHook.

(** * AnalogTypingTest: what the two variants share *)

(** [interface TestSequence]: one target of the sequence. *)
Module TestSequence.
Record t : Type := mk {
  key : string;
  keyCode : Z;
  targetPressure : Q
}.
End TestSequence.

(** [interface TestStats]. *)
Record TestStats : Type := mkTestStats {
  accuracy : Q;
  totalAttempts : nat;
  successfulHits : nat;
  averageDeviation : Q
}.

(** The arguments of one call of [handleAttempt]; [message] is the title of
    the toast. *)
Record Attempt : Type := mkAttempt {
  deviation : Q;
  isSuccess : bool;
  message : string
}.

Definition HOME_ROW_KEYS : list (string * Z) :=
  [("a", 4); ("s", 22); ("d", 7); ("f", 9); ("j", 13); ("k", 14); ("l", 15)]%string%Z.

(** A counter read as a number. *)
Definition ofNat (n : nat) : Q := inject_Z (Z.of_nat n).

(** The initial value of the [testStats] cell, also set by [resetTest]. *)
Definition zeroStats : TestStats := mkTestStats 0 0 0 0.

(** The updater that [handleAttempt] passes to [setTestStats]. *)
Definition updateStats (deviation : Q) (isSuccess : bool) (prev : TestStats)
  : TestStats :=
  let newTotalAttempts := (totalAttempts prev + 1)%nat in
  let newSuccessfulHits :=
    (successfulHits prev + (if isSuccess then 1 else 0))%nat in
  let newAccuracy := (ofNat newSuccessfulHits / ofNat newTotalAttempts) * 100 in
  let newAverageDeviation :=
    (averageDeviation prev * ofNat (totalAttempts prev) + deviation)
    / ofNat newTotalAttempts in
  mkTestStats newAccuracy newTotalAttempts newSuccessfulHits newAverageDeviation.

(** Truthiness of a [number | null] cell: [null] and [0] are falsy. *)
Definition truthy (o : option Z) : bool :=
  match o with
  | Some t => negb (t =? 0)%Z
  | None => false
  end.

(** A [number | null] cell read in arithmetic: [null] counts as 0. *)
Definition valueOf (o : option Z) : Z :=
  match o with
  | Some t => t
  | None => 0%Z
  end.

(** [cooldownUntil && Date.now() < cooldownUntil]. *)
Definition cooling (now : Z) (cooldownUntil : option Z) : bool :=
  truthy cooldownUntil && (now <? valueOf cooldownUntil)%Z.

(** [arr[Math.floor(r * arr.length)]] for a value [r] of [Math.random()];
    [None] is [undefined], an index outside the array. *)
Definition pick {A : Type} (arr : list A) (r : Q) : option A :=
  let i := Qfloor (r * ofNat (length arr)) in
  if (i <? 0)%Z then None else nth_error arr (Z.to_nat i).

(** The loop of [generateTestSequence]: [n] iterations, the first of them
    being iteration [i]; [rand j] is the value of the [j]-th call of
    [Math.random()] (two calls per iteration).  [None] when an index leaves
    its array (the source then reads a field of [undefined], or stores an
    [undefined] pressure), which [Math.random()] in [0, 1) excludes. *)
Fixpoint generateFrom (levels : list Q) (rand : nat -> Q) (i n : nat)
  : option (list TestSequence.t) :=
  match n with
  | O => Some []
  | S n' =>
      match pick HOME_ROW_KEYS (rand (2 * i)%nat),
            pick levels (rand (2 * i + 1)%nat),
            generateFrom levels rand (S i) n' with
      | Some randomKey, Some randomPressure, Some sequence =>
          Some (TestSequence.mk (fst randomKey) (snd randomKey) randomPressure
                  :: sequence)
      | _, _, _ => None
      end
  end.

(** * The dwell variant (src/unnamed/part_000) *)
Module Dwell.

Definition PRESSURE_LEVELS : list Q := [30; 60; 100].

Record State : Type := mkState {
  testSequence : list TestSequence.t;
  currentIndex : nat;
  isTestActive : bool;
  holdStartTime : option Z;
  cooldownUntil : option Z;
  testStats : TestStats;
  (** due times of the pending [setTimeout] callbacks, oldest first *)
  timers : list Z
}.

Definition setTestSequence v s :=
  mkState v (currentIndex s) (isTestActive s) (holdStartTime s)
          (cooldownUntil s) (testStats s) (timers s).
Definition setCurrentIndex v s :=
  mkState (testSequence s) v (isTestActive s) (holdStartTime s)
          (cooldownUntil s) (testStats s) (timers s).
Definition setIsTestActive v s :=
  mkState (testSequence s) (currentIndex s) v (holdStartTime s)
          (cooldownUntil s) (testStats s) (timers s).
Definition setHoldStartTime v s :=
  mkState (testSequence s) (currentIndex s) (isTestActive s) v
          (cooldownUntil s) (testStats s) (timers s).
Definition setCooldownUntil v s :=
  mkState (testSequence s) (currentIndex s) (isTestActive s) (holdStartTime s)
          v (testStats s) (timers s).
Definition setTestStats v s :=
  mkState (testSequence s) (currentIndex s) (isTestActive s) (holdStartTime s)
          (cooldownUntil s) v (timers s).
(** [setTimeout(callback, delay)] at time [now]. *)
Definition setTimeout (now delay : Z) s :=
  mkState (testSequence s) (currentIndex s) (isTestActive s) (holdStartTime s)
          (cooldownUntil s) (testStats s) (timers s ++ [now + delay]%Z).

Definition generateTestSequence (rand : nat -> Q) (s : State) : State :=
  match generateFrom PRESSURE_LEVELS rand 0 20 with
  | Some sequence => setCurrentIndex 0%nat (setTestSequence sequence s)
  | None => s
  end.

(** The initial values of the cells. *)
Definition initial : State := mkState [] 0 false None None zeroStats [].

(** The component after its first render: the mount effect has generated
    the sequence. *)
Definition mount (rand : nat -> Q) : State := generateTestSequence rand initial.

Definition handleAttempt (now : Z) (deviation : Q) (isSuccess : bool)
  (message : string) (s : State) : State * option Attempt :=
  let s := setTestStats (updateStats deviation isSuccess (testStats s)) s in
  let s := setHoldStartTime None s in
  let s := setCooldownUntil (Some (now + 3000)%Z) s in
  let s := setTimeout now 3000 s in
  (s, Some (mkAttempt deviation isSuccess message)).

Definition correctKeyPress (currentTarget : TestSequence.t)
  (keyData : list (KeyData Q)) : option (KeyData Q) :=
  find (fun k => (keyCode k =? TestSequence.keyCode currentTarget)%Z
                 && (isPressed k =? 1)%Z) keyData.

Definition wrongKeyPress (currentTarget : TestSequence.t)
  (keyData : list (KeyData Q)) : option (KeyData Q) :=
  find (fun k => negb (keyCode k =? TestSequence.keyCode currentTarget)%Z
                 && (isPressed k =? 1)%Z) keyData.

(** One run of the evaluation effect at time [now]; the result carries the
    call of [handleAttempt] the run made, if any. *)
Definition effect (now : Z) (keyData : list (KeyData Q)) (s : State)
  : State * option Attempt :=
  if negb (isTestActive s)
     || (length (testSequence s) <=? currentIndex s)%nat then (s, None)
  else if cooling now (cooldownUntil s) then (s, None)
  else
    match nth_error (testSequence s) (currentIndex s) with
    | None => (s, None)
    | Some currentTarget =>
        let tolerance := 10 in
        match wrongKeyPress currentTarget keyData with
        | Some _ => handleAttempt now 100 false "Wrong key!" s
        | None =>
            match correctKeyPress currentTarget keyData with
            | Some k =>
                let pressurePercent := analogValue k * 100 in
                let deviation :=
                  Qabs (pressurePercent
                        - TestSequence.targetPressure currentTarget) in
                let withinRange := Qle_bool deviation tolerance in
                if withinRange then
                  if negb (truthy (holdStartTime s))
                  then (setHoldStartTime (Some now) s, None)
                  else if (750 <=? now - valueOf (holdStartTime s))%Z
                       then handleAttempt now deviation true "Perfect!" s
                       else (s, None)
                else
                  if negb (truthy (holdStartTime s))
                  then (setHoldStartTime (Some now) s, None)
                  else if (750 <=? now - valueOf (holdStartTime s))%Z
                       then handleAttempt now deviation false
                              "Wrong pressure!" s
                       else (s, None)
            | None => (setHoldStartTime None s, None)
            end
        end
    end.

(** The callback given to [setTimeout] by [handleAttempt]. *)
Definition advance (s : State) : State :=
  setCooldownUntil None (setCurrentIndex (S (currentIndex s)) s).

(** The oldest pending timer fires (all delays are equal, so timers fire in
    the order they were set). *)
Definition fireTimer (s : State) : State :=
  match timers s with
  | _ :: pending =>
      advance (mkState (testSequence s) (currentIndex s) (isTestActive s)
                 (holdStartTime s) (cooldownUntil s) (testStats s) pending)
  | [] => s
  end.

(** The effect that ends the test when the sequence is exhausted. *)
Definition completionEffect (s : State) : State :=
  if (length (testSequence s) <=? currentIndex s)%nat && isTestActive s
  then setIsTestActive false s else s.

(** [startTest]; [connected] is [connectionStatus === 'connected'].  When it
    is false the component only asks the hook to connect. *)
Definition startTest (connected : bool) (s : State) : State :=
  if connected then setIsTestActive true s else s.

Definition pauseTest (s : State) : State := setIsTestActive false s.

Definition resetTest (rand : nat -> Q) (s : State) : State :=
  let s := setIsTestActive false s in
  let s := setCurrentIndex 0%nat s in
  let s := setTestStats zeroStats s in
  let s := setHoldStartTime None s in
  let s := setCooldownUntil None s in
  generateTestSequence rand s.

(** Successive runs of the evaluation effect, with the attempts they
    resolved. *)
Fixpoint run (ticks : list (Z * list (KeyData Q))) (s : State)
  : State * list Attempt :=
  match ticks with
  | [] => (s, [])
  | (now, keyData) :: ticks' =>
      let (s1, out) := effect now keyData s in
      let (s2, outs) := run ticks' s1 in
      (s2, match out with Some a => a :: outs | None => outs end)
  end.

End Dwell.

(** * The peak-on-release variant
      (src/frontend/src/components/AnalogTypingTest.tsx) *)
Module Peak.

(** [PRESSURE_LEVELS_MAP[levelCount]]; [None] is [undefined]. *)
Definition PRESSURE_LEVELS_MAP (levelCount : Z) : option (list Q) :=
  if (levelCount =? 2)%Z then Some [50; 100]
  else if (levelCount =? 3)%Z then Some [30; 60; 100]
  else None.

(** [PRESSURE_LEVELS_MAP[levelCount] || [30, 60, 100]]. *)
Definition levels (levelCount : Z) : list Q :=
  match PRESSURE_LEVELS_MAP levelCount with
  | Some l => l
  | None => [30; 60; 100]
  end.

Record State : Type := mkState {
  levelCount : Z;
  testSequence : list TestSequence.t;
  currentIndex : nat;
  isTestActive : bool;
  cooldownUntil : option Z;
  maxAnalog : Q;
  keyHeld : bool;
  testStats : TestStats;
  (** due times of the pending [setTimeout] callbacks, oldest first *)
  timers : list Z
}.

Definition setTestSequence v s :=
  mkState (levelCount s) v (currentIndex s) (isTestActive s) (cooldownUntil s)
          (maxAnalog s) (keyHeld s) (testStats s) (timers s).
Definition setCurrentIndex v s :=
  mkState (levelCount s) (testSequence s) v (isTestActive s) (cooldownUntil s)
          (maxAnalog s) (keyHeld s) (testStats s) (timers s).
Definition setIsTestActive v s :=
  mkState (levelCount s) (testSequence s) (currentIndex s) v (cooldownUntil s)
          (maxAnalog s) (keyHeld s) (testStats s) (timers s).
Definition setCooldownUntil v s :=
  mkState (levelCount s) (testSequence s) (currentIndex s) (isTestActive s) v
          (maxAnalog s) (keyHeld s) (testStats s) (timers s).
Definition setMaxAnalog v s :=
  mkState (levelCount s) (testSequence s) (currentIndex s) (isTestActive s)
          (cooldownUntil s) v (keyHeld s) (testStats s) (timers s).
Definition setKeyHeld v s :=
  mkState (levelCount s) (testSequence s) (currentIndex s) (isTestActive s)
          (cooldownUntil s) (maxAnalog s) v (testStats s) (timers s).
Definition setTestStats v s :=
  mkState (levelCount s) (testSequence s) (currentIndex s) (isTestActive s)
          (cooldownUntil s) (maxAnalog s) (keyHeld s) v (timers s).
(** [setTimeout(callback, delay)] at time [now]. *)
Definition setTimeout (now delay : Z) s :=
  mkState (levelCount s) (testSequence s) (currentIndex s) (isTestActive s)
          (cooldownUntil s) (maxAnalog s) (keyHeld s) (testStats s)
          (timers s ++ [now + delay]%Z).

Definition generateTestSequence (rand : nat -> Q) (s : State) : State :=
  match generateFrom (levels (levelCount s)) rand 0 20 with
  | Some sequence => setCurrentIndex 0%nat (setTestSequence sequence s)
  | None => s
  end.

(** The initial values of the cells. *)
Definition initial : State := mkState 3 [] 0 false None 0 false zeroStats [].

(** The component after its first render: the mount effect has generated
    the sequence. *)
Definition mount (rand : nat -> Q) : State := generateTestSequence rand initial.

Definition handleAttempt (now : Z) (deviation : Q) (isSuccess : bool)
  (message : string) (s : State) : State * option Attempt :=
  let s := setTestStats (updateStats deviation isSuccess (testStats s)) s in
  let s := setCooldownUntil (Some (now + 3000)%Z) s in
  let s := setTimeout now 3000 s in
  (s, Some (mkAttempt deviation isSuccess message)).

Definition keyEvent (currentTarget : TestSequence.t)
  (keyData : list (KeyData Q)) : option (KeyData Q) :=
  find (fun k => (keyCode k =? TestSequence.keyCode currentTarget)%Z) keyData.

(** [k.isPressed] read as a condition: any flag but 0. *)
Definition otherPressed (currentTarget : TestSequence.t)
  (keyData : list (KeyData Q)) : option (KeyData Q) :=
  find (fun k => negb (keyCode k =? TestSequence.keyCode currentTarget)%Z
                 && negb (isPressed k =? 0)%Z) keyData.

(** One run of the evaluation effect at time [now]; [release] is the branch
    [else if (keyHeld)], taken when [keyEvent?.isPressed] is falsy. *)
Definition effect (now : Z) (keyData : list (KeyData Q)) (s : State)
  : State * option Attempt :=
  if negb (isTestActive s)
     || (length (testSequence s) <=? currentIndex s)%nat then (s, None)
  else if cooling now (cooldownUntil s) then (s, None)
  else
    match nth_error (testSequence s) (currentIndex s) with
    | None => (s, None)
    | Some currentTarget =>
        let release :=
          if keyHeld s then
            let percent := maxAnalog s * 100 in
            let deviation :=
              Qabs (percent - TestSequence.targetPressure currentTarget) in
            let success := Qle_bool deviation 10 in
            let (s', a) :=
              handleAttempt now deviation success
                (if success then "Good!" else "Missed target") s in
            (setMaxAnalog 0 (setKeyHeld false s'), a)
          else (s, None) in
        match otherPressed currentTarget keyData with
        | Some _ => handleAttempt now 100 false "Wrong key!" s
        | None =>
            match keyEvent currentTarget keyData with
            | Some k =>
                if negb (isPressed k =? 0)%Z then
                  (setMaxAnalog (Qmax (maxAnalog s) (analogValue k))
                     (setKeyHeld true s), None)
                else release
            | None => release
            end
        end
    end.

(** The callback given to [setTimeout] by [handleAttempt]. *)
Definition advance (s : State) : State :=
  setCooldownUntil None (setCurrentIndex (S (currentIndex s)) s).

(** The oldest pending timer fires. *)
Definition fireTimer (s : State) : State :=
  match timers s with
  | _ :: pending =>
      advance (mkState (levelCount s) (testSequence s) (currentIndex s)
                 (isTestActive s) (cooldownUntil s) (maxAnalog s) (keyHeld s)
                 (testStats s) pending)
  | [] => s
  end.

(** The effect that ends the test when the sequence is exhausted. *)
Definition completionEffect (s : State) : State :=
  if (length (testSequence s) <=? currentIndex s)%nat && isTestActive s
  then setIsTestActive false s else s.

Definition startTest (connected : bool) (s : State) : State :=
  if connected then setIsTestActive true s else s.

Definition pauseTest (s : State) : State := setIsTestActive false s.

Definition resetTest (rand : nat -> Q) (s : State) : State :=
  let s := setIsTestActive false s in
  let s := setCurrentIndex 0%nat s in
  let s := setTestStats zeroStats s in
  let s := setCooldownUntil None s in
  let s := setMaxAnalog 0 s in
  let s := setKeyHeld false s in
  generateTestSequence rand s.

End Peak.

(** * Events

    A component driven by a list of events, oldest first: each event is
    handled by [step], which tells the attempt it resolved, if any. *)
Fixpoint runEvents {State Event Out : Type}
  (step : Event -> State -> State * option Out)
  (events : list Event) (s : State) : State * list Out :=
  match events with
  | [] => (s, [])
  | e :: events' =>
      let (s1, out) := step e s in
      let (s2, outs) := runEvents step events' s1 in
      (s2, match out with Some a => a :: outs | None => outs end)
  end.

(** * The first variant of the component (src/src/components): an attempt
      is scored as soon as the target key is seen pressed *)
Module Instant.

Definition PRESSURE_LEVELS : list Q := [30; 60; 100].

Record State : Type := mkState {
  testSequence : list TestSequence.t;
  currentIndex : nat;
  isTestActive : bool;
  testStats : TestStats;
  (** the deviations recorded so far, oldest first *)
  attempts : list Q;
  (** due times of the pending [setTimeout] callbacks, oldest first *)
  timers : list Z
}.

Definition generateTestSequence (rand : nat -> Q) (s : State) : State :=
  match generateFrom PRESSURE_LEVELS rand 0 20 with
  | Some sequence =>
      mkState sequence 0 (isTestActive s) (testStats s) (attempts s) (timers s)
  | None => s
  end.

(** The initial values of the cells. *)
Definition initial : State := mkState [] 0 false zeroStats [] [].

Definition mount (rand : nat -> Q) : State := generateTestSequence rand initial.

(** One run of the key-press effect at time [now]. *)
Definition effect (now : Z) (keyData : list (KeyData Q)) (s : State)
  : State * option Attempt :=
  if negb (isTestActive s)
     || (length (testSequence s) <=? currentIndex s)%nat then (s, None)
  else
    match nth_error (testSequence s) (currentIndex s) with
    | None => (s, None)
    | Some currentTarget =>
        match find (fun k => (keyCode k =? TestSequence.keyCode currentTarget)%Z
                             && (isPressed k =? 1)%Z) keyData with
        | Some keyPress =>
            let pressurePercent := analogValue keyPress * 100 in
            let targetPercent := TestSequence.targetPressure currentTarget in
            let deviation := Qabs (pressurePercent - targetPercent) in
            let tolerance := 10 in
            let isSuccess := Qle_bool deviation tolerance in
            (mkState (testSequence s) (currentIndex s) (isTestActive s)
                     (updateStats deviation isSuccess (testStats s))
                     (attempts s ++ [deviation])
                     (timers s ++ [now + 500]%Z),
             Some (mkAttempt deviation isSuccess
                     (if isSuccess then "Perfect!" else "Miss")))
        | None => (s, None)
        end
    end.

(** The oldest pending timer fires: [setCurrentIndex(prev => prev + 1)]. *)
Definition fireTimer (s : State) : State :=
  match timers s with
  | _ :: pending =>
      mkState (testSequence s) (S (currentIndex s)) (isTestActive s)
              (testStats s) (attempts s) pending
  | [] => s
  end.

Definition completionEffect (s : State) : State :=
  if (length (testSequence s) <=? currentIndex s)%nat && isTestActive s
  then mkState (testSequence s) (currentIndex s) false (testStats s)
               (attempts s) (timers s)
  else s.

Definition startTest (connected : bool) (s : State) : State :=
  if connected
  then mkState (testSequence s) (currentIndex s) true (testStats s)
               (attempts s) (timers s)
  else s.

Definition pauseTest (s : State) : State :=
  mkState (testSequence s) (currentIndex s) false (testStats s) (attempts s)
          (timers s).

Definition resetTest (rand : nat -> Q) (s : State) : State :=
  generateTestSequence rand
    (mkState (testSequence s) 0 false zeroStats [] (timers s)).

(** Successive runs of the key-press effect. *)
Definition run (ticks : list (Z * list (KeyData Q))) (s : State)
  : State * list Attempt :=
  runEvents (fun tick => effect (fst tick) (snd tick)) ticks s.

End Instant.

(** * useWebSocket: the connection

    The [WebSocket] objects the hook creates are kept in a list, each with
    its [readyState]; [ws.current] is an index into it.  The browser is the
    environment: it opens and closes sockets, delivers messages and fires
    timers, and each such event runs the handler the hook attached. *)
Module Connection.

Inductive ReadyState : Type := CONNECTING | OPEN | CLOSING | CLOSED.

Inductive Status : Type := connecting | connected | disconnected | error.

(** [l] with its element [i] replaced by [x] ([l] itself when there is no
    such element). *)
Fixpoint update {A : Type} (i : nat) (x : A) (l : list A) : list A :=
  match l, i with
  | [], _ => []
  | _ :: l', O => x :: l'
  | y :: l', S i' => y :: update i' x l'
  end.

Section Hook.

Variable num : Type.
Variable parseFloat : list ascii -> num.

Record State : Type := mkState {
  keyData : list (KeyData num);
  connectionStatus : Status;
  (** every socket created so far, oldest first *)
  sockets : list ReadyState;
  (** [ws.current] *)
  ws : option nat;
  (** [reconnectTimeoutRef.current], a timer handle *)
  reconnectTimeoutRef : option nat;
  (** handles of the timers that are set and have neither fired nor been
      cleared *)
  pending : list nat;
  (** the handle the next [setTimeout] returns; handles start at 1 *)
  nextHandle : nat
}.

(** The hook before any call. *)
Definition initial : State := mkState [] disconnected [] None None [] 1.

(** [ws.current?.readyState]; [None] is [undefined]. *)
Definition readyState (h : State) : option ReadyState :=
  match ws h with
  | Some i => nth_error (sockets h) i
  | None => None
  end.

Definition isOpen (r : option ReadyState) : bool :=
  match r with
  | Some OPEN => true
  | _ => false
  end.

(** [connect]; [constructs] tells whether [new WebSocket(url)] returns (it
    throws on a malformed URL, which the [catch] turns into the status
    [error]). *)
Definition connect (constructs : bool) (h : State) : State :=
  if isOpen (readyState h) then h
  else if constructs then
    mkState (keyData h) connecting (sockets h ++ [CONNECTING])
            (Some (length (sockets h))) (reconnectTimeoutRef h) (pending h)
            (nextHandle h)
  else
    mkState (keyData h) error (sockets h) (ws h) (reconnectTimeoutRef h)
            (pending h) (nextHandle h).

(** Socket [i] opens: [onopen]. *)
Definition opened (i : nat) (h : State) : State :=
  match nth_error (sockets h) i with
  | Some CONNECTING =>
      mkState (keyData h) connected (update i OPEN (sockets h)) (ws h)
              (reconnectTimeoutRef h) (pending h) (nextHandle h)
  | _ => h
  end.

(** Socket [i] is closed: [onclose] sets the status and arms the reconnect
    timer, keeping its handle in [reconnectTimeoutRef]. *)
Definition closed (i : nat) (h : State) : State :=
  match nth_error (sockets h) i with
  | Some CLOSED | None => h
  | Some _ =>
      mkState (keyData h) disconnected (update i CLOSED (sockets h)) (ws h)
              (Some (nextHandle h)) (pending h ++ [nextHandle h])
              (S (nextHandle h))
  end.

(** Socket [i] reports an error: [onerror]. *)
Definition errored (i : nat) (h : State) : State :=
  match nth_error (sockets h) i with
  | Some _ =>
      mkState (keyData h) error (sockets h) (ws h) (reconnectTimeoutRef h)
              (pending h) (nextHandle h)
  | None => h
  end.

(** Socket [i], open, delivers a message: [onmessage]. *)
Definition received (i : nat) (message : string) (h : State) : State :=
  match nth_error (sockets h) i with
  | Some OPEN =>
      mkState (WebSocketHook.onmessage parseFloat message (keyData h))
              (connectionStatus h) (sockets h) (ws h) (reconnectTimeoutRef h)
              (pending h) (nextHandle h)
  | _ => h
  end.

(** The timer with handle [t] fires: the callback set by [onclose]. *)
Definition timeout (t : nat) (constructs : bool) (h : State) : State :=
  if in_dec Nat.eq_dec t (pending h) then
    let h' := mkState (keyData h) (connectionStatus h) (sockets h) (ws h)
                      (reconnectTimeoutRef h)
                      (remove Nat.eq_dec t (pending h)) (nextHandle h) in
    if isOpen (readyState h') then h' else connect constructs h'
  else h.

(** [socket.close()]: a socket that is connecting or open starts closing. *)
Definition close (r : ReadyState) : ReadyState :=
  match r with
  | CONNECTING | OPEN => CLOSING
  | CLOSING | CLOSED => r
  end.

(** [disconnect]. *)
Definition disconnect (h : State) : State :=
  let pending' :=
    match reconnectTimeoutRef h with
    | Some t => if (t =? 0)%nat then pending h
                else remove Nat.eq_dec t (pending h)
    | None => pending h
    end in
  let sockets' :=
    match ws h with
    | Some i => match nth_error (sockets h) i with
                | Some r => update i (close r) (sockets h)
                | None => sockets h
                end
    | None => sockets h
    end in
  mkState [] disconnected sockets' None (reconnectTimeoutRef h) pending'
          (nextHandle h).

End Hook.

Arguments mkState {num} _ _ _ _ _ _ _.
Arguments keyData {num} _.
Arguments connectionStatus {num} _.
Arguments sockets {num} _.
Arguments ws {num} _.
Arguments reconnectTimeoutRef {num} _.
Arguments pending {num} _.
Arguments nextHandle {num} _.
Arguments initial {num}.
Arguments readyState {num} _.
Arguments connect {num} _ _.
Arguments opened {num} _ _.
Arguments closed {num} _ _.
Arguments errored {num} _ _.
Arguments received {num} _ _ _%_string _.
Arguments timeout {num} _ _ _.
Arguments disconnect {num} _.

End Connection.

(** * KeyboardKey and what the components show *)
Module KeyboardKey.

(** [getKeyState], with the props it reads as arguments. *)
Definition getKeyState (isTarget isPressed : bool)
  (currentPressure targetPressure : Q) : string :=
  if negb isTarget then "idle"
  else if negb isPressed then "target"
  else
    let tolerance := 10 in
    let diff := Qabs (currentPressure * 100 - targetPressure) in
    if Qle_bool diff tolerance then "success" else "error".

(** [getPressureColor]. *)
Definition getPressureColor (pressure : Q) : string :=
  if negb (Qle_bool 0.3 pressure) then "hsl(var(--analog-low))"
  else if negb (Qle_bool 0.7 pressure) then "hsl(var(--analog-mid))"
  else "hsl(var(--analog-high))".

(** [getCurrentKeyPress] of the components. *)
Definition getCurrentKeyPress (code : Z) (keyData : list (KeyData Q))
  : option (KeyData Q) :=
  find (fun k => (keyCode k =? code)%Z) keyData.

(** The state of the key the components render for the current target:
    [currentPressure] is [getCurrentKeyPress(...)?.analogValue || 0] and
    [isPressed] is [getCurrentKeyPress(...)?.isPressed === 1]. *)
Definition targetKeyState (currentTarget : TestSequence.t)
  (keyData : list (KeyData Q)) : string :=
  let keyPress := getCurrentKeyPress (TestSequence.keyCode currentTarget)
                                     keyData in
  getKeyState true
    (match keyPress with Some k => (isPressed k =? 1)%Z | None => false end)
    (match keyPress with Some k => analogValue k | None => 0 end)
    (TestSequence.targetPressure currentTarget).

End KeyboardKey.

(** * Runs of the peak evaluator *)
Module PeakSession.

(** Successive runs of the evaluation effect. *)
Definition run (ticks : list (Z * list (KeyData Q))) (s : Peak.State)
  : Peak.State * list Attempt :=
  runEvents (fun tick => Peak.effect (fst tick) (snd tick)) ticks s.

End PeakSession.

(** * The level buttons of the peak variant
      (src/frontend/src/components/AnalogTypingTest.tsx) *)
Module PeakLevels.

Definition setLevelCount (v : Z) (s : Peak.State) : Peak.State :=
  Peak.mkState v (Peak.testSequence s) (Peak.currentIndex s)
    (Peak.isTestActive s) (Peak.cooldownUntil s) (Peak.maxAnalog s)
    (Peak.keyHeld s) (Peak.testStats s) (Peak.timers s).

(** A click on the button [count]: [setLevelCount(count)].  Setting the
    value the cell already holds renders nothing.  Otherwise the callback
    [generateTestSequence], which depends on [levelCount], is a new one, and
    the effect that depends on it runs it. *)
Definition selectLevels (count : Z) (rand : nat -> Q) (s : Peak.State)
  : Peak.State :=
  if (count =? Peak.levelCount s)%Z then s
  else Peak.generateTestSequence rand (setLevelCount count s).

End PeakLevels.

(** * JavaScript numbers that need not be finite

    [parseFloat] gives [NaN] for a text that does not start with a number,
    and an infinity for [Infinity] or for a number too large; the
    arithmetic of the components carries them on.  Finite values are exact
    rationals, as elsewhere, and the two zeros are one. *)
Module Js.

Inductive Number : Type :=
| Finite (q : Q)
| Infinity
| NegInfinity
| NaN.

Definition sign (q : Q) : comparison := q ?= 0.

(** [-x]. *)
Definition neg (x : Number) : Number :=
  match x with
  | Finite q => Finite (- q)
  | Infinity => NegInfinity
  | NegInfinity => Infinity
  | NaN => NaN
  end.

(** [x + y]. *)
Definition add (x y : Number) : Number :=
  match x, y with
  | Finite a, Finite b => Finite (a + b)
  | NaN, _ | _, NaN => NaN
  | Infinity, NegInfinity | NegInfinity, Infinity => NaN
  | Infinity, _ | _, Infinity => Infinity
  | NegInfinity, _ | _, NegInfinity => NegInfinity
  end.

(** [x - y]. *)
Definition sub (x y : Number) : Number := add x (neg y).

(** [x * y]: an infinity times zero is [NaN]. *)
Definition mul (x y : Number) : Number :=
  match x, y with
  | Finite a, Finite b => Finite (a * b)
  | NaN, _ | _, NaN => NaN
  | Finite a, Infinity | Infinity, Finite a =>
      match sign a with Gt => Infinity | Lt => NegInfinity | Eq => NaN end
  | Finite a, NegInfinity | NegInfinity, Finite a =>
      match sign a with Gt => NegInfinity | Lt => Infinity | Eq => NaN end
  | Infinity, Infinity | NegInfinity, NegInfinity => Infinity
  | Infinity, NegInfinity | NegInfinity, Infinity => NegInfinity
  end.

(** [x / y]; a zero divisor is taken as the positive zero (the components
    divide by a count plus one only). *)
Definition div (x y : Number) : Number :=
  match x, y with
  | Finite a, Finite b =>
      if Qeq_bool b 0
      then match sign a with Gt => Infinity | Lt => NegInfinity | Eq => NaN end
      else Finite (a / b)
  | NaN, _ | _, NaN => NaN
  | Finite _, _ => Finite 0
  | Infinity, Finite b =>
      match sign b with Lt => NegInfinity | _ => Infinity end
  | NegInfinity, Finite b =>
      match sign b with Lt => Infinity | _ => NegInfinity end
  | _, _ => NaN
  end.

(** [Math.abs]. *)
Definition abs (x : Number) : Number :=
  match x with
  | Finite q => Finite (Qabs q)
  | Infinity | NegInfinity => Infinity
  | NaN => NaN
  end.

(** [x <= y]: false when either is [NaN]. *)
Definition leb (x y : Number) : bool :=
  match x, y with
  | Finite a, Finite b => Qle_bool a b
  | NaN, _ | _, NaN => false
  | NegInfinity, _ | _, Infinity => true
  | _, _ => false
  end.

(** [Math.max(x, y)]: [NaN] when either is [NaN]. *)
Definition max (x y : Number) : Number :=
  match x, y with
  | Finite a, Finite b => Finite (Qmax a b)
  | NaN, _ | _, NaN => NaN
  | Infinity, _ | _, Infinity => Infinity
  | NegInfinity, z | z, NegInfinity => z
  end.

(** [Math.round]: the nearest integer, halves going up; an infinity and
    [NaN] are returned as they are. *)
Definition round (x : Number) : Number :=
  match x with
  | Finite q => Finite (inject_Z (Qfloor (q + (1 # 2))))
  | _ => x
  end.

(** A counter read as a number. *)
Definition ofNat (n : nat) : Number := Finite (ofNat n).

(** [interface TestStats]. *)
Record TestStats : Type := mkTestStats {
  accuracy : Number;
  totalAttempts : nat;
  successfulHits : nat;
  averageDeviation : Number
}.

(** The arguments of one call of [handleAttempt]; [message] is the title of
    the toast. *)
Record Attempt : Type := mkAttempt {
  deviation : Number;
  isSuccess : bool;
  message : string
}.

(** The initial value of the [testStats] cell, also set by [resetTest]. *)
Definition zeroStats : TestStats :=
  mkTestStats (Finite 0) 0 0 (Finite 0).

(** The updater that [handleAttempt] passes to [setTestStats]. *)
Definition updateStats (deviation : Number) (isSuccess : bool)
  (prev : TestStats) : TestStats :=
  let newTotalAttempts := (totalAttempts prev + 1)%nat in
  let newSuccessfulHits :=
    (successfulHits prev + (if isSuccess then 1 else 0))%nat in
  let newAccuracy :=
    mul (div (ofNat newSuccessfulHits) (ofNat newTotalAttempts))
        (Finite 100) in
  let newAverageDeviation :=
    div (add (mul (averageDeviation prev) (ofNat (totalAttempts prev)))
             deviation)
        (ofNat newTotalAttempts) in
  mkTestStats newAccuracy newTotalAttempts newSuccessfulHits
              newAverageDeviation.

End Js.

(** * The components on the numbers the hook can deliver

    The evaluators above take the analog values as exact rationals.  Here
    each component is taken whole, with the cells it keeps, on JavaScript
    numbers: a snapshot may carry [NaN] or an infinity, which the hook
    passes on for a group such as [(9:abc:1)].  What can happen to a
    component is an event: a run of its evaluation effect, the oldest timer
    firing, or a button; after each of them the completion effect runs. *)

(** ** The dwell component (src/unnamed/part_000) *)
Module DwellComponent.

Definition PRESSURE_LEVELS : list Q := [30; 60; 100].

Record State : Type := mkState {
  testSequence : list TestSequence.t;
  currentIndex : nat;
  isTestActive : bool;
  holdStartTime : option Z;
  cooldownUntil : option Z;
  testStats : Js.TestStats;
  (** due times of the pending [setTimeout] callbacks, oldest first *)
  timers : list Z
}.

Definition setTestSequence v s :=
  mkState v (currentIndex s) (isTestActive s) (holdStartTime s)
          (cooldownUntil s) (testStats s) (timers s).
Definition setCurrentIndex v s :=
  mkState (testSequence s) v (isTestActive s) (holdStartTime s)
          (cooldownUntil s) (testStats s) (timers s).
Definition setIsTestActive v s :=
  mkState (testSequence s) (currentIndex s) v (holdStartTime s)
          (cooldownUntil s) (testStats s) (timers s).
Definition setHoldStartTime v s :=
  mkState (testSequence s) (currentIndex s) (isTestActive s) v
          (cooldownUntil s) (testStats s) (timers s).
Definition setCooldownUntil v s :=
  mkState (testSequence s) (currentIndex s) (isTestActive s) (holdStartTime s)
          v (testStats s) (timers s).
Definition setTestStats v s :=
  mkState (testSequence s) (currentIndex s) (isTestActive s) (holdStartTime s)
          (cooldownUntil s) v (timers s).
(** [setTimeout(callback, delay)] at time [now]. *)
Definition setTimeout (now delay : Z) s :=
  mkState (testSequence s) (currentIndex s) (isTestActive s) (holdStartTime s)
          (cooldownUntil s) (testStats s) (timers s ++ [now + delay]%Z).

Definition generateTestSequence (rand : nat -> Q) (s : State) : State :=
  match generateFrom PRESSURE_LEVELS rand 0 20 with
  | Some sequence => setCurrentIndex 0%nat (setTestSequence sequence s)
  | None => s
  end.

(** The initial values of the cells. *)
Definition initial : State := mkState [] 0 false None None Js.zeroStats [].

(** The component after its first render: the mount effect has generated
    the sequence. *)
Definition mount (rand : nat -> Q) : State := generateTestSequence rand initial.

Definition handleAttempt (now : Z) (deviation : Js.Number) (isSuccess : bool)
  (message : string) (s : State) : State * option Js.Attempt :=
  let s := setTestStats (Js.updateStats deviation isSuccess (testStats s)) s in
  let s := setHoldStartTime None s in
  let s := setCooldownUntil (Some (now + 3000)%Z) s in
  let s := setTimeout now 3000 s in
  (s, Some (Js.mkAttempt deviation isSuccess message)).

Definition correctKeyPress (currentTarget : TestSequence.t)
  (keyData : list (KeyData Js.Number)) : option (KeyData Js.Number) :=
  find (fun k => (keyCode k =? TestSequence.keyCode currentTarget)%Z
                 && (isPressed k =? 1)%Z) keyData.

Definition wrongKeyPress (currentTarget : TestSequence.t)
  (keyData : list (KeyData Js.Number)) : option (KeyData Js.Number) :=
  find (fun k => negb (keyCode k =? TestSequence.keyCode currentTarget)%Z
                 && (isPressed k =? 1)%Z) keyData.

(** One run of the evaluation effect at time [now]; the result carries the
    call of [handleAttempt] the run made, if any. *)
Definition effect (now : Z) (keyData : list (KeyData Js.Number)) (s : State)
  : State * option Js.Attempt :=
  if negb (isTestActive s)
     || (length (testSequence s) <=? currentIndex s)%nat then (s, None)
  else if cooling now (cooldownUntil s) then (s, None)
  else
    match nth_error (testSequence s) (currentIndex s) with
    | None => (s, None)
    | Some currentTarget =>
        let tolerance := Js.Finite 10 in
        match wrongKeyPress currentTarget keyData with
        | Some _ => handleAttempt now (Js.Finite 100) false "Wrong key!" s
        | None =>
            match correctKeyPress currentTarget keyData with
            | Some k =>
                let pressurePercent := Js.mul (analogValue k) (Js.Finite 100) in
                let deviation :=
                  Js.abs (Js.sub pressurePercent
                            (Js.Finite
                               (TestSequence.targetPressure currentTarget))) in
                let withinRange := Js.leb deviation tolerance in
                if withinRange then
                  if negb (truthy (holdStartTime s))
                  then (setHoldStartTime (Some now) s, None)
                  else if (750 <=? now - valueOf (holdStartTime s))%Z
                       then handleAttempt now deviation true "Perfect!" s
                       else (s, None)
                else
                  if negb (truthy (holdStartTime s))
                  then (setHoldStartTime (Some now) s, None)
                  else if (750 <=? now - valueOf (holdStartTime s))%Z
                       then handleAttempt now deviation false
                              "Wrong pressure!" s
                       else (s, None)
            | None => (setHoldStartTime None s, None)
            end
        end
    end.

(** The callback given to [setTimeout] by [handleAttempt]. *)
Definition advance (s : State) : State :=
  setCooldownUntil None (setCurrentIndex (S (currentIndex s)) s).

(** The oldest pending timer fires (all delays are equal, so timers fire in
    the order they were set). *)
Definition fireTimer (s : State) : State :=
  match timers s with
  | _ :: pending =>
      advance (mkState (testSequence s) (currentIndex s) (isTestActive s)
                 (holdStartTime s) (cooldownUntil s) (testStats s) pending)
  | [] => s
  end.

(** The effect that ends the test when the sequence is exhausted. *)
Definition completionEffect (s : State) : State :=
  if (length (testSequence s) <=? currentIndex s)%nat && isTestActive s
  then setIsTestActive false s else s.

(** [startTest]; [connected] is [connectionStatus === 'connected'].  When it
    is false the component only asks the hook to connect. *)
Definition startTest (connected : bool) (s : State) : State :=
  if connected then setIsTestActive true s else s.

Definition pauseTest (s : State) : State := setIsTestActive false s.

Definition resetTest (rand : nat -> Q) (s : State) : State :=
  let s := setIsTestActive false s in
  let s := setCurrentIndex 0%nat s in
  let s := setTestStats Js.zeroStats s in
  let s := setHoldStartTime None s in
  let s := setCooldownUntil None s in
  generateTestSequence rand s.

Inductive Event : Type :=
| Run (now : Z) (keyData : list (KeyData Js.Number))
| TimerFires
| Start (connected : bool)
| Pause
| Reset (rand : nat -> Q).

Definition isReset (e : Event) : bool :=
  match e with
  | Reset _ => true
  | _ => false
  end.

Definition step (e : Event) (s : State) : State * option Js.Attempt :=
  match e with
  | Run now keyData =>
      let (s', a) := effect now keyData s in (completionEffect s', a)
  | TimerFires => (completionEffect (fireTimer s), None)
  | Start connected => (completionEffect (startTest connected s), None)
  | Pause => (completionEffect (pauseTest s), None)
  | Reset rand => (completionEffect (resetTest rand s), None)
  end.

(** A list of events, with the attempts resolved on the way. *)
Definition session (events : list Event) (s : State)
  : State * list Js.Attempt :=
  runEvents step events s.

End DwellComponent.

(** ** The peak-on-release component
       (src/frontend/src/components/AnalogTypingTest.tsx) *)
Module PeakComponent.

Record State : Type := mkState {
  levelCount : Z;
  testSequence : list TestSequence.t;
  currentIndex : nat;
  isTestActive : bool;
  cooldownUntil : option Z;
  maxAnalog : Js.Number;
  keyHeld : bool;
  testStats : Js.TestStats;
  (** due times of the pending [setTimeout] callbacks, oldest first *)
  timers : list Z
}.

Definition setLevelCount v s :=
  mkState v (testSequence s) (currentIndex s) (isTestActive s)
          (cooldownUntil s) (maxAnalog s) (keyHeld s) (testStats s) (timers s).
Definition setTestSequence v s :=
  mkState (levelCount s) v (currentIndex s) (isTestActive s) (cooldownUntil s)
          (maxAnalog s) (keyHeld s) (testStats s) (timers s).
Definition setCurrentIndex v s :=
  mkState (levelCount s) (testSequence s) v (isTestActive s) (cooldownUntil s)
          (maxAnalog s) (keyHeld s) (testStats s) (timers s).
Definition setIsTestActive v s :=
  mkState (levelCount s) (testSequence s) (currentIndex s) v (cooldownUntil s)
          (maxAnalog s) (keyHeld s) (testStats s) (timers s).
Definition setCooldownUntil v s :=
  mkState (levelCount s) (testSequence s) (currentIndex s) (isTestActive s) v
          (maxAnalog s) (keyHeld s) (testStats s) (timers s).
Definition setMaxAnalog v s :=
  mkState (levelCount s) (testSequence s) (currentIndex s) (isTestActive s)
          (cooldownUntil s) v (keyHeld s) (testStats s) (timers s).
Definition setKeyHeld v s :=
  mkState (levelCount s) (testSequence s) (currentIndex s) (isTestActive s)
          (cooldownUntil s) (maxAnalog s) v (testStats s) (timers s).
Definition setTestStats v s :=
  mkState (levelCount s) (testSequence s) (currentIndex s) (isTestActive s)
          (cooldownUntil s) (maxAnalog s) (keyHeld s) v (timers s).
(** [setTimeout(callback, delay)] at time [now]. *)
Definition setTimeout (now delay : Z) s :=
  mkState (levelCount s) (testSequence s) (currentIndex s) (isTestActive s)
          (cooldownUntil s) (maxAnalog s) (keyHeld s) (testStats s)
          (timers s ++ [now + delay]%Z).

Definition generateTestSequence (rand : nat -> Q) (s : State) : State :=
  match generateFrom (Peak.levels (levelCount s)) rand 0 20 with
  | Some sequence => setCurrentIndex 0%nat (setTestSequence sequence s)
  | None => s
  end.

(** The initial values of the cells. *)
Definition initial : State :=
  mkState 3 [] 0 false None (Js.Finite 0) false Js.zeroStats [].

(** The component after its first render: the mount effect has generated
    the sequence. *)
Definition mount (rand : nat -> Q) : State := generateTestSequence rand initial.

Definition handleAttempt (now : Z) (deviation : Js.Number) (isSuccess : bool)
  (message : string) (s : State) : State * option Js.Attempt :=
  let s := setTestStats (Js.updateStats deviation isSuccess (testStats s)) s in
  let s := setCooldownUntil (Some (now + 3000)%Z) s in
  let s := setTimeout now 3000 s in
  (s, Some (Js.mkAttempt deviation isSuccess message)).

Definition keyEvent (currentTarget : TestSequence.t)
  (keyData : list (KeyData Js.Number)) : option (KeyData Js.Number) :=
  find (fun k => (keyCode k =? TestSequence.keyCode currentTarget)%Z) keyData.

(** [k.isPressed] read as a condition: any flag but 0. *)
Definition otherPressed (currentTarget : TestSequence.t)
  (keyData : list (KeyData Js.Number)) : option (KeyData Js.Number) :=
  find (fun k => negb (keyCode k =? TestSequence.keyCode currentTarget)%Z
                 && negb (isPressed k =? 0)%Z) keyData.

(** One run of the evaluation effect at time [now]; [release] is the branch
    [else if (keyHeld)], taken when [keyEvent?.isPressed] is falsy. *)
Definition effect (now : Z) (keyData : list (KeyData Js.Number)) (s : State)
  : State * option Js.Attempt :=
  if negb (isTestActive s)
     || (length (testSequence s) <=? currentIndex s)%nat then (s, None)
  else if cooling now (cooldownUntil s) then (s, None)
  else
    match nth_error (testSequence s) (currentIndex s) with
    | None => (s, None)
    | Some currentTarget =>
        let release :=
          if keyHeld s then
            let percent := Js.mul (maxAnalog s) (Js.Finite 100) in
            let deviation :=
              Js.abs (Js.sub percent
                        (Js.Finite
                           (TestSequence.targetPressure currentTarget))) in
            let success := Js.leb deviation (Js.Finite 10) in
            let (s', a) :=
              handleAttempt now deviation success
                (if success then "Good!" else "Missed target") s in
            (setMaxAnalog (Js.Finite 0) (setKeyHeld false s'), a)
          else (s, None) in
        match otherPressed currentTarget keyData with
        | Some _ => handleAttempt now (Js.Finite 100) false "Wrong key!" s
        | None =>
            match keyEvent currentTarget keyData with
            | Some k =>
                if negb (isPressed k =? 0)%Z then
                  (setMaxAnalog (Js.max (maxAnalog s) (analogValue k))
                     (setKeyHeld true s), None)
                else release
            | None => release
            end
        end
    end.

(** The callback given to [setTimeout] by [handleAttempt]. *)
Definition advance (s : State) : State :=
  setCooldownUntil None (setCurrentIndex (S (currentIndex s)) s).

(** The oldest pending timer fires. *)
Definition fireTimer (s : State) : State :=
  match timers s with
  | _ :: pending =>
      advance (mkState (levelCount s) (testSequence s) (currentIndex s)
                 (isTestActive s) (cooldownUntil s) (maxAnalog s) (keyHeld s)
                 (testStats s) pending)
  | [] => s
  end.

(** The effect that ends the test when the sequence is exhausted. *)
Definition completionEffect (s : State) : State :=
  if (length (testSequence s) <=? currentIndex s)%nat && isTestActive s
  then setIsTestActive false s else s.

Definition startTest (connected : bool) (s : State) : State :=
  if connected then setIsTestActive true s else s.

Definition pauseTest (s : State) : State := setIsTestActive false s.

Definition resetTest (rand : nat -> Q) (s : State) : State :=
  let s := setIsTestActive false s in
  let s := setCurrentIndex 0%nat s in
  let s := setTestStats Js.zeroStats s in
  let s := setCooldownUntil None s in
  let s := setMaxAnalog (Js.Finite 0) s in
  let s := setKeyHeld false s in
  generateTestSequence rand s.

(** A click on the level button [count]: [setLevelCount(count)].  Setting
    the value the cell already holds renders nothing.  Otherwise the
    callback [generateTestSequence], which depends on [levelCount], is a new
    one, and the effect that depends on it runs it. *)
Definition selectLevels (count : Z) (rand : nat -> Q) (s : State) : State :=
  if (count =? levelCount s)%Z then s
  else generateTestSequence rand (setLevelCount count s).

Inductive Event : Type :=
| Run (now : Z) (keyData : list (KeyData Js.Number))
| TimerFires
| Start (connected : bool)
| Pause
| Reset (rand : nat -> Q)
| Levels (count : Z) (rand : nat -> Q).

Definition isReset (e : Event) : bool :=
  match e with
  | Reset _ => true
  | _ => false
  end.

(** The events that put the index back to 0: a reset and a click on a
    level button. *)
Definition restarts (e : Event) : bool :=
  match e with
  | Reset _ | Levels _ _ => true
  | _ => false
  end.

Definition step (e : Event) (s : State) : State * option Js.Attempt :=
  match e with
  | Run now keyData =>
      let (s', a) := effect now keyData s in (completionEffect s', a)
  | TimerFires => (completionEffect (fireTimer s), None)
  | Start connected => (completionEffect (startTest connected s), None)
  | Pause => (completionEffect (pauseTest s), None)
  | Reset rand => (completionEffect (resetTest rand s), None)
  | Levels count rand => (completionEffect (selectLevels count rand s), None)
  end.

(** A list of events, with the attempts resolved on the way. *)
Definition session (events : list Event) (s : State)
  : State * list Js.Attempt :=
  runEvents step events s.

End PeakComponent.

(** ** The first component (src/src/components/AnalogTypingTest.tsx) *)
Module InstantComponent.

Definition PRESSURE_LEVELS : list Q := [30; 60; 100].

Record State : Type := mkState {
  testSequence : list TestSequence.t;
  currentIndex : nat;
  isTestActive : bool;
  testStats : Js.TestStats;
  (** the deviations recorded so far, oldest first *)
  attempts : list Js.Number;
  (** due times of the pending [setTimeout] callbacks, oldest first *)
  timers : list Z
}.

Definition generateTestSequence (rand : nat -> Q) (s : State) : State :=
  match generateFrom PRESSURE_LEVELS rand 0 20 with
  | Some sequence =>
      mkState sequence 0 (isTestActive s) (testStats s) (attempts s) (timers s)
  | None => s
  end.

(** The initial values of the cells. *)
Definition initial : State := mkState [] 0 false Js.zeroStats [] [].

Definition mount (rand : nat -> Q) : State := generateTestSequence rand initial.

(** One run of the key-press effect at time [now]. *)
Definition effect (now : Z) (keyData : list (KeyData Js.Number)) (s : State)
  : State * option Js.Attempt :=
  if negb (isTestActive s)
     || (length (testSequence s) <=? currentIndex s)%nat then (s, None)
  else
    match nth_error (testSequence s) (currentIndex s) with
    | None => (s, None)
    | Some currentTarget =>
        match find (fun k => (keyCode k =? TestSequence.keyCode currentTarget)%Z
                             && (isPressed k =? 1)%Z) keyData with
        | Some keyPress =>
            let pressurePercent :=
              Js.mul (analogValue keyPress) (Js.Finite 100) in
            let targetPercent :=
              Js.Finite (TestSequence.targetPressure currentTarget) in
            let deviation := Js.abs (Js.sub pressurePercent targetPercent) in
            let tolerance := Js.Finite 10 in
            let isSuccess := Js.leb deviation tolerance in
            (mkState (testSequence s) (currentIndex s) (isTestActive s)
                     (Js.updateStats deviation isSuccess (testStats s))
                     (attempts s ++ [deviation])
                     (timers s ++ [now + 500]%Z),
             Some (Js.mkAttempt deviation isSuccess
                     (if isSuccess then "Perfect!" else "Miss")))
        | None => (s, None)
        end
    end.

(** The oldest pending timer fires: [setCurrentIndex(prev => prev + 1)]. *)
Definition fireTimer (s : State) : State :=
  match timers s with
  | _ :: pending =>
      mkState (testSequence s) (S (currentIndex s)) (isTestActive s)
              (testStats s) (attempts s) pending
  | [] => s
  end.

Definition completionEffect (s : State) : State :=
  if (length (testSequence s) <=? currentIndex s)%nat && isTestActive s
  then mkState (testSequence s) (currentIndex s) false (testStats s)
               (attempts s) (timers s)
  else s.

Definition startTest (connected : bool) (s : State) : State :=
  if connected
  then mkState (testSequence s) (currentIndex s) true (testStats s)
               (attempts s) (timers s)
  else s.

Definition pauseTest (s : State) : State :=
  mkState (testSequence s) (currentIndex s) false (testStats s) (attempts s)
          (timers s).

Definition resetTest (rand : nat -> Q) (s : State) : State :=
  generateTestSequence rand
    (mkState (testSequence s) 0 false Js.zeroStats [] (timers s)).

Inductive Event : Type :=
| Run (now : Z) (keyData : list (KeyData Js.Number))
| TimerFires
| Start (connected : bool)
| Pause
| Reset (rand : nat -> Q).

Definition isReset (e : Event) : bool :=
  match e with
  | Reset _ => true
  | _ => false
  end.

Definition step (e : Event) (s : State) : State * option Js.Attempt :=
  match e with
  | Run now keyData =>
      let (s', a) := effect now keyData s in (completionEffect s', a)
  | TimerFires => (completionEffect (fireTimer s), None)
  | Start connected => (completionEffect (startTest connected s), None)
  | Pause => (completionEffect (pauseTest s), None)
  | Reset rand => (completionEffect (resetTest rand s), None)
  end.

(** A list of events, with the attempts resolved on the way. *)
Definition session (events : list Event) (s : State)
  : State * list Js.Attempt :=
  runEvents step events s.

End InstantComponent.

(** * The wire format as the specification words it

    A group is [(keyCode:analogValue:pressedFlag)] with [keyCode] and
    [pressedFlag] non-negative integers and [analogValue] a decimal in
    [0, 1].  These definitions follow the specification, not the hook; they
    are what the hook is compared with. *)
Module WireFormat.
Import WebSocketHook.

Definition dot : ascii := "."%char.

Definition nonEmpty (s : list ascii) : bool :=
  match s with [] => false | _ :: _ => true end.

(** The value of an unsigned decimal numeral, digits with an optional
    fraction; [None] for any other text.  On such numerals this is what
    [parseFloat] reads, up to rounding; the examples use it as the reading
    of the analog field. *)
Definition decimalValue (a : list ascii) : option Q :=
  match span isDigit a with
  | (d :: ds, []) => Some (inject_Z (parseInt (d :: ds)))
  | (d :: ds, c :: fs) =>
      if Ascii.eqb c dot && nonEmpty fs && forallb isDigit fs
      then Some (inject_Z (parseInt (d :: ds))
                 + inject_Z (parseInt fs) / inject_Z (10 ^ Z.of_nat (length fs)))
      else None
  | ([], _) => None
  end.

Definition isDecimal01 (a : list ascii) : bool :=
  match decimalValue a with
  | Some q => Qle_bool 0 q && Qle_bool q 1
  | None => false
  end.

(** Does a valid group start at the head of [s]? *)
Definition validGroupAt (s : list ascii) : bool :=
  match s with
  | c :: s1 =>
      let (k, r1) := span isDigit s1 in
      let (a, r2) := span notColon (tl r1) in
      let (p, r3) := span isDigit (tl r2) in
      Ascii.eqb c lparen
      && nonEmpty k && Ascii.eqb (hd rparen r1) colon
      && isDecimal01 a && Ascii.eqb (hd rparen r2) colon
      && nonEmpty p && Ascii.eqb (hd colon r3) rparen
  | [] => false
  end.

(** The number of valid groups in a payload: the positions where one
    starts (a valid group holds one opening parenthesis, so two of them
    never overlap). *)
Fixpoint validGroupCount (s : list ascii) : nat :=
  match s with
  | [] => 0
  | _ :: s' => (if validGroupAt s then 1 else 0) + validGroupCount s'
  end.

End WireFormat.

(** * Vocabulary of the properties *)

Import WebSocketHook WireFormat.

(** Captures as the expression of the hook admits them: two non-empty runs
    of digits around a non-empty text without a colon. *)
Definition wellFormed (g : Captures) : bool :=
  let '(k, a, p) := g in
  nonEmpty k && forallb isDigit k
  && nonEmpty a && forallb notColon a
  && nonEmpty p && forallb isDigit p.

(** The payload made of the groups [gs], one after the other. *)
Definition payloadOf (gs : list Captures) : list ascii :=
  concat (map groupText gs).

(** The snapshots a payload encodes: what [onmessage] gives to
    [setKeyData] when there is a match. *)
Definition decode {num : Type} (parseFloat : list ascii -> num)
  (payload : list ascii) : list (KeyData num) :=
  parsedKeys parseFloat (matchGlobal payload).

(** A group as the specification words it: the analog field is a decimal
    in [0, 1]. *)
Definition specValid (g : Captures) : bool :=
  let '(k, a, p) := g in
  nonEmpty k && forallb isDigit k && isDecimal01 a
  && nonEmpty p && forallb isDigit p.

(** Any character but the opening parenthesis. *)
Definition notLparen (c : ascii) : bool := negb (Ascii.eqb c lparen).

(** The characters of a message. *)
Definition chars : string -> list ascii := list_ascii_of_string.

(** The statistics after recording [attempts], oldest first, from zero. *)
Definition recordAll (attempts : list Attempt) : TestStats :=
  fold_left (fun st a => updateStats (deviation a) (isSuccess a) st)
            attempts zeroStats.

(** The number of successes among [attempts]. *)
Definition hits (attempts : list Attempt) : nat :=
  length (filter isSuccess attempts).

(** The sum of the deviations of [attempts]. *)
Definition sumDeviations (attempts : list Attempt) : Q :=
  fold_right Qplus 0 (map deviation attempts).

(** A value that [Math.random()] can return. *)
Definition unitInterval (r : Q) : Prop := 0 <= r /\ r < 1.

(** A target built from a home-row key and one of [levels]. *)
Definition validTarget (levels : list Q) (t : TestSequence.t) : Prop :=
  In (TestSequence.key t, TestSequence.keyCode t) HOME_ROW_KEYS
  /\ In (TestSequence.targetPressure t) levels.

(** The evaluator is at work on [currentTarget] at time [now]: the test is
    active, the index is inside the sequence and no cooldown is running
    (the states Idle and Holding of the specification). *)
Definition dwellEvaluating (now : Z) (s : Dwell.State)
  (currentTarget : TestSequence.t) : Prop :=
  Dwell.isTestActive s = true
  /\ nth_error (Dwell.testSequence s) (Dwell.currentIndex s)
     = Some currentTarget
  /\ cooling now (Dwell.cooldownUntil s) = false.

(** A snapshot list in which the target key is pressed and no other key. *)
Definition targetHeld (currentTarget : TestSequence.t)
  (keyData : list (KeyData Q)) : Prop :=
  Dwell.wrongKeyPress currentTarget keyData = None
  /\ Dwell.correctKeyPress currentTarget keyData <> None.

(** The deviation of a sampled analog value from the target, in points. *)
Definition deviationOf (currentTarget : TestSequence.t) (k : KeyData Q) : Q :=
  Qabs (analogValue k * 100 - TestSequence.targetPressure currentTarget).

(** The outcome of a hold that reached the dwell time with sample [k]. *)
Definition dwellOutcome (currentTarget : TestSequence.t) (k : KeyData Q)
  : Attempt :=
  let d := deviationOf currentTarget k in
  mkAttempt d (Qle_bool d 10)
            (if Qle_bool d 10 then "Perfect!" else "Wrong pressure!").

(** As [dwellEvaluating], for the peak variant. *)
Definition peakEvaluating (now : Z) (s : Peak.State)
  (currentTarget : TestSequence.t) : Prop :=
  Peak.isTestActive s = true
  /\ nth_error (Peak.testSequence s) (Peak.currentIndex s)
     = Some currentTarget
  /\ cooling now (Peak.cooldownUntil s) = false.

(** Values of [Math.random()] that make the sequence start with [f] at 60
    and [j] at 60 (every later target is [f] at 60). *)
Definition randFJ (j : nat) : Q :=
  match j with
  | 2%nat => 9 # 14
  | _ => 1 # 2
  end.

(** The dwell evaluator at rest after a reset: index 0, no hold start, no
    cooldown deadline, test inactive. *)
Definition dwellCleared (s : Dwell.State) : Prop :=
  Dwell.currentIndex s = 0%nat
  /\ Dwell.holdStartTime s = None
  /\ Dwell.cooldownUntil s = None
  /\ Dwell.isTestActive s = false.

(** The same for the peak evaluator: no key held, no peak tracked. *)
Definition peakCleared (s : Peak.State) : Prop :=
  Peak.currentIndex s = 0%nat
  /\ Peak.keyHeld s = false
  /\ Peak.maxAnalog s = 0
  /\ Peak.cooldownUntil s = None
  /\ Peak.isTestActive s = false.

(** A payload cut into a leading fragment and groups, each followed by a
    fragment. *)
Definition weave (j0 : list ascii) (rest : list (Captures * list ascii))
  : list ascii :=
  j0 ++ concat (map (fun gj => groupText (fst gj) ++ snd gj) rest).

(** The [keyData] cell after the messages [messages], oldest first. *)
Definition receiveAll {num : Type} (parseFloat : list ascii -> num)
  (messages : list string) (keyData : list (KeyData num))
  : list (KeyData num) :=
  fold_left (fun kd m => onmessage parseFloat m kd) messages keyData.

(** The statistics from [st] on, after recording [attempts], oldest first. *)
Definition recordFrom (st : Js.TestStats) (attempts : list Js.Attempt)
  : Js.TestStats :=
  fold_left (fun st a => Js.updateStats (Js.deviation a) (Js.isSuccess a) st)
            attempts st.

(** A number for which [x < 0] is false: a finite value that is not
    negative, the positive infinity, or [NaN]. *)
Definition notNegative (x : Js.Number) : Prop :=
  match x with
  | Js.Finite q => 0 <= q
  | Js.Infinity | Js.NaN => True
  | Js.NegInfinity => False
  end.

(** A finite number from [lo] to [hi]. *)
Definition within (lo hi : Q) (x : Js.Number) : Prop :=
  exists q, x = Js.Finite q /\ lo <= q /\ q <= hi.

(** The same number: the same finite value, the same infinity, or [NaN]
    twice. *)
Definition same (x y : Js.Number) : Prop :=
  match x, y with
  | Js.Finite a, Js.Finite b => a == b
  | Js.Infinity, Js.Infinity
  | Js.NegInfinity, Js.NegInfinity
  | Js.NaN, Js.NaN => True
  | _, _ => False
  end.

(** Statistics that are those of some recorded attempts, none with a
    negative deviation. *)
Definition recorded (st : Js.TestStats) : Prop :=
  exists attempts,
    st = recordFrom Js.zeroStats attempts
    /\ Forall (fun a => notNegative (Js.deviation a)) attempts.

(** What the statistics cards can show: no more successes than attempts, an
    accuracy that is a finite number from 0 to 100, also when rounded, and
    an average deviation that is not negative, also when rounded. *)
Definition inRange (st : Js.TestStats) : Prop :=
  (Js.successfulHits st <= Js.totalAttempts st)%nat
  /\ (exists a, Js.accuracy st = Js.Finite a /\ 0 <= a /\ a <= 100)
  /\ (exists z, Js.round (Js.accuracy st) = Js.Finite (inject_Z z)
                /\ (0 <= z <= 100)%Z)
  /\ notNegative (Js.averageDeviation st)
  /\ notNegative (Js.round (Js.averageDeviation st)).



(** Events none of which satisfies [p]. *)
Definition without {Event : Type} (p : Event -> bool) (events : list Event)
  : Prop :=
  forallb (fun e => negb (p e)) events = true.

(** Snapshots whose analog values are all numbers from 0 to 1, the range
    the keyboard reports. *)
Definition unitSnapshots (keyData : list (KeyData Js.Number)) : Prop :=
  Forall (fun k => within 0 1 (analogValue k)) keyData.

(** Events whose snapshots carry analog values from 0 to 1 only. *)
Definition dwellUnit (e : DwellComponent.Event) : Prop :=
  match e with
  | DwellComponent.Run _ keyData => unitSnapshots keyData
  | _ => True
  end.

Definition peakUnit (e : PeakComponent.Event) : Prop :=
  match e with
  | PeakComponent.Run _ keyData => unitSnapshots keyData
  | _ => True
  end.

Definition instantUnit (e : InstantComponent.Event) : Prop :=
  match e with
  | InstantComponent.Run _ keyData => unitSnapshots keyData
  | _ => True
  end.

(** Targets whose pressure is a percentage. *)
Definition targetsInRange (sequence : list TestSequence.t) : Prop :=
  Forall (fun t => 0 <= TestSequence.targetPressure t
                   /\ TestSequence.targetPressure t <= 100) sequence.

(** A state in which the average deviation is a finite percentage and the
    targets are percentages; in the peak component the tracked peak is
    a number from 0 to 1 as well. *)
Definition dwellPercentState (s : DwellComponent.State) : Prop :=
  within 0 100 (Js.averageDeviation (DwellComponent.testStats s))
  /\ targetsInRange (DwellComponent.testSequence s).

Definition peakPercentState (s : PeakComponent.State) : Prop :=
  within 0 100 (Js.averageDeviation (PeakComponent.testStats s))
  /\ targetsInRange (PeakComponent.testSequence s)
  /\ within 0 1 (PeakComponent.maxAnalog s).

Definition instantPercentState (s : InstantComponent.State) : Prop :=
  within 0 100 (Js.averageDeviation (InstantComponent.testStats s))
  /\ targetsInRange (InstantComponent.testSequence s).

(** A snapshot list in which no key is pressed, as the dwell evaluator
    reads it. *)
Definition allReleased (currentTarget : TestSequence.t)
  (keyData : list (KeyData Q)) : Prop :=
  Dwell.wrongKeyPress currentTarget keyData = None
  /\ Dwell.correctKeyPress currentTarget keyData = None.

(** The analog value the peak evaluator samples in a snapshot list. *)
Definition sampleOf (currentTarget : TestSequence.t)
  (keyData : list (KeyData Q)) : Q :=
  match Peak.keyEvent currentTarget keyData with
  | Some k => analogValue k
  | None => 0
  end.

(** A snapshot list in which the peak evaluator sees the target key pressed
    and no other key. *)
Definition peakHeld (currentTarget : TestSequence.t)
  (keyData : list (KeyData Q)) : Prop :=
  Peak.otherPressed currentTarget keyData = None
  /\ exists k, Peak.keyEvent currentTarget keyData = Some k
               /\ isPressed k <> 0%Z.

(** A snapshot list in which the peak evaluator sees no key pressed. *)
Definition peakReleased (currentTarget : TestSequence.t)
  (keyData : list (KeyData Q)) : Prop :=
  Peak.otherPressed currentTarget keyData = None
  /\ match Peak.keyEvent currentTarget keyData with
     | Some k => isPressed k = 0%Z
     | None => True
     end.

(** The highest of [m0] and the samples of the runs [holds]. *)
Definition peakOf (currentTarget : TestSequence.t) (m0 : Q)
  (holds : list (Z * list (KeyData Q))) : Q :=
  fold_left (fun m tick => Qmax m (sampleOf currentTarget (snd tick))) holds m0.

(** The draw [r], scaled to an array of [n] elements, falls in the band of
    index [k]. *)
Definition band (r : Q) (n k : nat) : Prop :=
  inject_Z (Z.of_nat k) <= r * ofNat n
  /\ r * ofNat n < inject_Z (Z.of_nat k + 1).

(** The dwell component resumed after a pause that began during a hold.
    The test is started on a sequence of targets [f] (key code 9) at 60; a
    run at 1000 ms sees key 9 held at 0.61; the test is paused; while it is
    paused, key 9 is reported released at 5000 ms and pressed again, at
    0.95, at 9990 ms; the test is started again. *)
Definition resumedHold : Dwell.State :=
  let s := Dwell.startTest true (Dwell.mount (fun _ => 1 # 2)) in
  let s := fst (Dwell.run [(1000%Z, [mkKeyData 9 0.61 1])] s) in
  let s := Dwell.pauseTest s in
  let s := fst (Dwell.run [(5000%Z, [mkKeyData 9 0 0]);
                           (9990%Z, [mkKeyData 9 0.95 1])] s) in
  Dwell.startTest true s.

(** What a result [r] of the peak effect must account for: the index and
    the sequence stay; an attempt resolved has a deviation that is not
    negative, is recorded in the statistics and sets one timer; with analog
    values from 0 to 1 and targets that are percentages, the tracked peak
    stays from 0 to 1 and the deviation is a percentage. *)
Definition peakAccounts (now : Z) (keyData : list (KeyData Js.Number))
  (s : PeakComponent.State) (r : PeakComponent.State * option Js.Attempt)
  : Prop :=
  PeakComponent.currentIndex (fst r) = PeakComponent.currentIndex s
  /\ PeakComponent.testSequence (fst r) = PeakComponent.testSequence s
  /\ (unitSnapshots keyData ->
      targetsInRange (PeakComponent.testSequence s) ->
      within 0 1 (PeakComponent.maxAnalog s) ->
      within 0 1 (PeakComponent.maxAnalog (fst r))
      /\ match snd r with
         | Some a => within 0 100 (Js.deviation a)
         | None => True
         end)
  /\ match snd r with
     | Some a =>
         notNegative (Js.deviation a)
         /\ PeakComponent.testStats (fst r)
            = Js.updateStats (Js.deviation a) (Js.isSuccess a)
                (PeakComponent.testStats s)
         /\ PeakComponent.timers (fst r)
            = PeakComponent.timers s ++ [(now + 3000)%Z]
     | None =>
         PeakComponent.testStats (fst r) = PeakComponent.testStats s
         /\ PeakComponent.timers (fst r) = PeakComponent.timers s
     end.

(** The evaluators' data among the data of the components: a rational is
    the finite number it is. *)
Definition liftKey (k : KeyData Q) : KeyData Js.Number :=
  mkKeyData (keyCode k) (Js.Finite (analogValue k)) (isPressed k).

Definition liftStats (st : TestStats) : Js.TestStats :=
  Js.mkTestStats (Js.Finite (accuracy st)) (totalAttempts st)
                 (successfulHits st) (Js.Finite (averageDeviation st)).

Definition liftAttempt (a : Attempt) : Js.Attempt :=
  Js.mkAttempt (Js.Finite (deviation a)) (isSuccess a) (message a).

Definition liftDwell (s : Dwell.State) : DwellComponent.State :=
  DwellComponent.mkState (Dwell.testSequence s) (Dwell.currentIndex s)
    (Dwell.isTestActive s) (Dwell.holdStartTime s) (Dwell.cooldownUntil s)
    (liftStats (Dwell.testStats s)) (Dwell.timers s).

Definition liftPeak (s : Peak.State) : PeakComponent.State :=
  PeakComponent.mkState (Peak.levelCount s) (Peak.testSequence s)
    (Peak.currentIndex s) (Peak.isTestActive s) (Peak.cooldownUntil s)
    (Js.Finite (Peak.maxAnalog s)) (Peak.keyHeld s)
    (liftStats (Peak.testStats s)) (Peak.timers s).

Definition liftInstant (s : Instant.State) : InstantComponent.State :=
  InstantComponent.mkState (Instant.testSequence s) (Instant.currentIndex s)
    (Instant.isTestActive s) (liftStats (Instant.testStats s))
    (map Js.Finite (Instant.attempts s)) (Instant.timers s).

(** A result of an evaluator as a result of its component. *)
Definition liftResult {S S' : Type} (lift : S -> S')
  (r : S * option Attempt) : S' * option Js.Attempt :=
  (lift (fst r), option_map liftAttempt (snd r)).

(** The deviation and the tolerance test of the evaluators, as the source
    computes them, on binary64 floats. *)
Module Binary64.
Import Floats.PrimFloat.

Definition deviation (analogValue targetPressure : PrimFloat.float)
  : PrimFloat.float :=
  PrimFloat.abs (PrimFloat.sub (PrimFloat.mul analogValue 100%float)
                               targetPressure).

Definition withinRange (analogValue targetPressure : PrimFloat.float) : bool :=
  PrimFloat.leb (deviation analogValue targetPressure) 10%float.

End Binary64.

(** * Properties of the decoder *)
Module DecoderFacts.
Import WebSocketHook WireFormat.

Lemma span_sound p s run rest :
  span p s = (run, rest) -> s = run ++ rest /\ forallb p run = true.
Proof.
  revert run rest. induction s as [|c s IH]; simpl; intros run rest.
  - intros [= <- <-]. auto.
  - destruct (p c) eqn:Pc.
    + destruct (span p s) as [r t]. intros [= <- <-].
      destruct (IH r t eq_refl) as [-> F]. simpl. rewrite Pc. auto.
    + intros [= <- <-]. auto.
Qed.

Lemma span_app p run rest :
  forallb p run = true ->
  match rest with [] => True | d :: _ => p d = false end ->
  span p (run ++ rest) = (run, rest).
Proof.
  intros F Hd. induction run as [|c run IH]; simpl in *.
  - destruct rest as [|d rest]; simpl; [reflexivity|]. now rewrite Hd.
  - apply andb_prop in F as [-> F]. now rewrite (IH F).
Qed.

Lemma plusThen_app p c run rest :
  nonEmpty run = true -> forallb p run = true -> p c = false ->
  plusThen p c (run ++ c :: rest) = Some (run, rest).
Proof.
  intros N F Pc. unfold plusThen. rewrite (span_app p run (c :: rest) F Pc).
  destruct run; [discriminate|]. now rewrite Ascii.eqb_refl.
Qed.

Lemma plusThen_sound p c s run rest :
  plusThen p c s = Some (run, rest) ->
  s = run ++ c :: rest /\ nonEmpty run = true /\ forallb p run = true.
Proof.
  unfold plusThen. destruct (span p s) as [r t] eqn:E.
  apply span_sound in E as [-> F].
  destruct r as [|x r]; [discriminate|]. destruct t as [|d t]; [discriminate|].
  destruct (Ascii.eqb_spec d c) as [->|]; [|discriminate].
  intros [= <- <-]. auto.
Qed.

Lemma groupText_app k a p rest :
  groupText (k, a, p) ++ rest
  = lparen :: k ++ colon :: a ++ colon :: p ++ rparen :: rest.
Proof.
  unfold groupText. simpl. f_equal.
  repeat (rewrite <- app_assoc; simpl). reflexivity.
Qed.

Lemma isDigit_colon : isDigit colon = false.
Proof. reflexivity. Qed.

Lemma isDigit_rparen : isDigit rparen = false.
Proof. reflexivity. Qed.

Lemma notColon_colon : notColon colon = false.
Proof. reflexivity. Qed.

(** A well-formed group at the head of a text is matched, whatever follows. *)
Lemma matchGroup_groupText g rest :
  wellFormed g = true -> matchGroup (groupText g ++ rest) = Some (g, rest).
Proof.
  destruct g as [[k a] p]. unfold wellFormed.
  rewrite !andb_true_iff. intros [[[[[Nk Fk] Na] Fa] Np] Fp].
  rewrite groupText_app. unfold matchGroup. rewrite Ascii.eqb_refl.
  rewrite (plusThen_app isDigit colon k _ Nk Fk isDigit_colon).
  rewrite (plusThen_app notColon colon a _ Na Fa notColon_colon).
  now rewrite (plusThen_app isDigit rparen p _ Np Fp isDigit_rparen).
Qed.

(** What is matched is a well-formed group, and the text starts with it. *)
Lemma matchGroup_sound s g rest :
  matchGroup s = Some (g, rest) ->
  wellFormed g = true /\ s = groupText g ++ rest.
Proof.
  destruct s as [|c s1]; simpl; [discriminate|].
  destruct (Ascii.eqb_spec c lparen) as [->|]; [|discriminate].
  destruct (plusThen isDigit colon s1) as [[k s2]|] eqn:E1; [|discriminate].
  destruct (plusThen notColon colon s2) as [[a s3]|] eqn:E2; [|discriminate].
  destruct (plusThen isDigit rparen s3) as [[p s4]|] eqn:E3; [|discriminate].
  intros [= <- <-].
  apply plusThen_sound in E1 as (-> & Nk & Fk).
  apply plusThen_sound in E2 as (-> & Na & Fa).
  apply plusThen_sound in E3 as (-> & Np & Fp).
  split.
  - unfold wellFormed. now rewrite Nk, Fk, Na, Fa, Np, Fp.
  - now rewrite groupText_app.
Qed.

Lemma matchGlobal_cons c s :
  matchGlobal (c :: s)
  = match matchGroup (c :: s) with
    | Some (g, rest) => groupText g :: matchGlobal rest
    | None => matchGlobal s
    end.
Proof.
  simp matchGlobal. unfold inspect.
  set (e := @eq_refl _ (matchGroup (c :: s))). clearbody e.
  revert e. generalize (matchGroup (c :: s)) at 2 4 5.
  intros [[g rest]|] e; reflexivity.
Qed.

Lemma matchFirst_unfold s :
  matchFirst s
  = match matchGroup s with
    | Some (g, _) => Some g
    | None => match s with _ :: s' => matchFirst s' | [] => None end
    end.
Proof. destruct s; reflexivity. Qed.

(** A matched text matches again, from its first character, with the same
    captures: the fallback of [parsedKeys] is never taken. *)
Lemma rematch g :
  wellFormed g = true -> matchFirst (groupText g) = Some g.
Proof.
  intros W. rewrite matchFirst_unfold.
  rewrite <- (app_nil_r (groupText g)) at 1.
  now rewrite (matchGroup_groupText g [] W).
Qed.

(** The matches of a text are the texts of well-formed groups. *)
Lemma matchGlobal_groups s :
  exists gs, Forall (fun g => wellFormed g = true) gs
             /\ matchGlobal s = map groupText gs.
Proof.
  remember (length s) as n eqn:Hn. revert s Hn.
  induction n as [n IH] using lt_wf_ind. intros [|c s] Hn.
  - exists []. split; [constructor | now simp matchGlobal].
  - rewrite matchGlobal_cons.
    destruct (matchGroup (c :: s)) as [[g rest]|] eqn:E.
    + pose proof (matchGroup_length _ _ _ E) as L.
      apply matchGroup_sound in E as [W _].
      destruct (IH (length rest)) with (s := rest) as (gs & F & ->);
        [lia | reflexivity |].
      exists (g :: gs). split; [now constructor | reflexivity].
    + destruct (IH (length s)) with (s := s) as (gs & F & ->);
        [simpl in Hn; lia | reflexivity |].
      now exists gs.
Qed.

Section Parsed.
Variable num : Type.
Variable parseFloat : list ascii -> num.

Lemma parsedKeys_groups gs :
  Forall (fun g => wellFormed g = true) gs ->
  parsedKeys parseFloat (map groupText gs) = map (toKeyData parseFloat) gs.
Proof.
  induction 1 as [|g gs W _ IH]; simpl; [reflexivity|].
  now rewrite (rematch g W), IH.
Qed.

Lemma decode_length payload :
  length (decode parseFloat payload) = length (matchGlobal payload).
Proof.
  unfold decode. destruct (matchGlobal_groups payload) as (gs & F & ->).
  now rewrite (parsedKeys_groups gs F), !length_map.
Qed.

Lemma onmessage_unfold message prev :
  onmessage parseFloat message prev
  = match matchGlobal (list_ascii_of_string message) with
    | [] => prev
    | _ :: _ => decode parseFloat (list_ascii_of_string message)
    end.
Proof.
  unfold onmessage, decode.
  destruct (list_ascii_of_string message) as [|c l]; [now simp matchGlobal|].
  destruct (matchGlobal (c :: l)); reflexivity.
Qed.
End Parsed.

Lemma groupText_cons g : exists s, groupText g = lparen :: s.
Proof. destruct g as [[k a] p]. simpl. eauto. Qed.

Lemma matchGlobal_groupText g rest :
  wellFormed g = true ->
  matchGlobal (groupText g ++ rest) = groupText g :: matchGlobal rest.
Proof.
  intros W. pose proof (matchGroup_groupText g rest W) as M.
  destruct (groupText_cons g) as [s E]. rewrite E in *.
  change ((lparen :: s) ++ rest) with (lparen :: s ++ rest) in *.
  now rewrite matchGlobal_cons, M, E.
Qed.

Lemma matchGlobal_payloadOf gs junk :
  Forall (fun g => wellFormed g = true) gs ->
  matchGlobal (payloadOf gs ++ junk) = map groupText gs ++ matchGlobal junk.
Proof.
  unfold payloadOf. induction 1 as [|g gs W _ IH]; simpl; [reflexivity|].
  now rewrite <- app_assoc, (matchGlobal_groupText g _ W), IH.
Qed.

Lemma groupText_rparen g rest : In rparen (groupText g ++ rest).
Proof.
  destruct g as [[k a] p]. rewrite groupText_app.
  right. apply in_or_app. right. right. apply in_or_app. right. right.
  apply in_or_app. right. now left.
Qed.

(** A text without a closing parenthesis holds no match. *)
Lemma matchGlobal_fragment junk :
  ~ In rparen junk -> matchGlobal junk = [].
Proof.
  induction junk as [|c s IH]; intros N; [now simp matchGlobal|].
  rewrite matchGlobal_cons.
  destruct (matchGroup (c :: s)) as [[g rest]|] eqn:E.
  - apply matchGroup_sound in E as [_ E]. exfalso. apply N. rewrite E.
    apply groupText_rparen.
  - apply IH. intros I. apply N. now right.
Qed.

Lemma isDigit_notColon c : isDigit c = true -> notColon c = true.
Proof.
  unfold notColon. destruct (Ascii.eqb_spec c colon) as [->|]; [|reflexivity].
  discriminate.
Qed.

Lemma forallb_isDigit_notColon s :
  forallb isDigit s = true -> forallb notColon s = true.
Proof.
  induction s as [|c s IH]; simpl; [reflexivity|].
  rewrite !andb_true_iff. intros [D F]. auto using isDigit_notColon.
Qed.

Lemma isDecimal01_notColon a :
  isDecimal01 a = true -> nonEmpty a = true /\ forallb notColon a = true.
Proof.
  unfold isDecimal01, decimalValue.
  destruct (span isDigit a) as [ip r] eqn:E.
  apply span_sound in E as [-> F].
  destruct ip as [|d ds]; [discriminate|].
  split; [reflexivity|]. rewrite forallb_app.
  rewrite (forallb_isDigit_notColon _ F). simpl.
  destruct r as [|c fs]; [reflexivity|].
  destruct (Ascii.eqb_spec c dot) as [->|]; [|discriminate].
  destruct (nonEmpty fs); [|discriminate].
  destruct (forallb isDigit fs) eqn:Ff; [|discriminate].
  simpl. now rewrite (forallb_isDigit_notColon _ Ff).
Qed.

Lemma specValid_wellFormed g : specValid g = true -> wellFormed g = true.
Proof.
  destruct g as [[k a] p]. unfold specValid, wellFormed.
  rewrite !andb_true_iff. intros [[[[Nk Fk] Da] Np] Fp].
  destruct (isDecimal01_notColon a Da) as [Na Fa]. auto 10.
Qed.

(** The characters of a decimal are digits and the dot. *)
Lemma isDecimal01_chars a :
  isDecimal01 a = true ->
  forallb (fun c => isDigit c || Ascii.eqb c dot) a = true.
Proof.
  unfold isDecimal01, decimalValue.
  destruct (span isDigit a) as [ip r] eqn:E.
  apply span_sound in E as [-> F].
  assert (D : forall l, forallb isDigit l = true ->
                        forallb (fun c => isDigit c || Ascii.eqb c dot) l = true).
  { induction l as [|c l IH]; simpl; [reflexivity|].
    rewrite !andb_true_iff. intros [-> Fl]. auto. }
  destruct ip as [|d ds]; [discriminate|].
  rewrite forallb_app, (D _ F). simpl.
  destruct r as [|c fs]; [reflexivity|].
  destruct (Ascii.eqb c dot) eqn:Ec; [|discriminate].
  destruct (nonEmpty fs); [|discriminate].
  destruct (forallb isDigit fs) eqn:Ff; [|discriminate].
  intros _. simpl. now rewrite Ec, orb_true_r, (D _ Ff).
Qed.

Lemma validGroupAt_notLparen c s :
  notLparen c = true -> validGroupAt (c :: s) = false.
Proof.
  unfold notLparen, validGroupAt. intros N. apply negb_true_iff in N.
  destruct (span isDigit s) as [k r1].
  destruct (span notColon (tl r1)) as [a r2].
  destruct (span isDigit (tl r2)) as [p r3].
  now rewrite N.
Qed.

(** No valid group starts inside a text without an opening parenthesis. *)
Lemma validGroupCount_skip t rest :
  forallb notLparen t = true ->
  validGroupCount (t ++ rest) = validGroupCount rest.
Proof.
  induction t as [|c t IH]; [reflexivity|].
  cbn [forallb]. rewrite andb_true_iff. intros [N F].
  change ((c :: t) ++ rest) with (c :: t ++ rest). cbn [validGroupCount].
  now rewrite (validGroupAt_notLparen c _ N), (IH F).
Qed.

Lemma isDigit_notLparen_all l :
  forallb isDigit l = true -> forallb notLparen l = true.
Proof.
  induction l as [|c l IH]; simpl; [reflexivity|].
  rewrite !andb_true_iff. intros [D F]. split; [|auto].
  unfold notLparen. destruct (Ascii.eqb_spec c lparen) as [->|]; [|reflexivity].
  discriminate.
Qed.

Lemma decimal_notLparen_all l :
  forallb (fun c => isDigit c || Ascii.eqb c dot) l = true ->
  forallb notLparen l = true.
Proof.
  induction l as [|c l IH]; simpl; [reflexivity|].
  rewrite !andb_true_iff. intros [D F]. split; [|auto].
  unfold notLparen. destruct (Ascii.eqb_spec c lparen) as [->|]; [|reflexivity].
  discriminate.
Qed.

(** A valid group of the specification is recognised at the head of a
    text, and no other valid group starts inside it. *)
Lemma validGroupCount_groupText g rest :
  specValid g = true ->
  validGroupCount (groupText g ++ rest) = S (validGroupCount rest).
Proof.
  destruct g as [[k a] p]. unfold specValid.
  rewrite !andb_true_iff. intros [[[[Nk Fk] Da] Np] Fp].
  destruct (isDecimal01_notColon a Da) as [Na Fa].
  pose proof (isDecimal01_chars a Da) as Ca.
  rewrite groupText_app. cbn [validGroupCount].
  assert (V : validGroupAt
                (lparen :: k ++ colon :: a ++ colon :: p ++ rparen :: rest)
              = true).
  { unfold validGroupAt.
    rewrite (span_app isDigit k (colon :: _) Fk isDigit_colon). cbn [tl hd].
    rewrite (span_app notColon a (colon :: _) Fa notColon_colon). cbn [tl hd].
    rewrite (span_app isDigit p (rparen :: _) Fp isDigit_rparen). cbn [hd].
    now rewrite Nk, Da, Np, !Ascii.eqb_refl. }
  rewrite V. cbn [Nat.add]. f_equal.
  rewrite (validGroupCount_skip k _ (isDigit_notLparen_all k Fk)).
  change (colon :: a ++ colon :: p ++ rparen :: rest)
    with ([colon] ++ a ++ [colon] ++ p ++ [rparen] ++ rest).
  rewrite (validGroupCount_skip [colon] _ eq_refl).
  rewrite (validGroupCount_skip a _ (decimal_notLparen_all a Ca)).
  rewrite (validGroupCount_skip [colon] _ eq_refl).
  rewrite (validGroupCount_skip p _ (isDigit_notLparen_all p Fp)).
  now rewrite (validGroupCount_skip [rparen] _ eq_refl).
Qed.

Lemma In_tl (A : Type) (x : A) (l : list A) : In x (tl l) -> In x l.
Proof. destruct l; simpl; auto. Qed.

(** A valid group ends with a closing parenthesis. *)
Lemma validGroupAt_rparen s : validGroupAt s = true -> In rparen s.
Proof.
  destruct s as [|c s1]; [discriminate|]. unfold validGroupAt.
  destruct (span isDigit s1) as [k r1] eqn:E1.
  destruct (span notColon (tl r1)) as [a r2] eqn:E2.
  destruct (span isDigit (tl r2)) as [p r3] eqn:E3.
  apply span_sound in E1 as [-> _].
  apply span_sound in E2 as [E2 _].
  apply span_sound in E3 as [E3 _].
  rewrite !andb_true_iff. intros [_ R].
  destruct r3 as [|d r3]; [vm_compute in R; discriminate R|].
  cbn [hd] in R. apply Ascii.eqb_eq in R. subst d.
  right. apply in_or_app. right. apply In_tl. rewrite E2.
  apply in_or_app. right. apply In_tl. rewrite E3.
  apply in_or_app. right. now left.
Qed.

Lemma validGroupCount_fragment junk :
  ~ In rparen junk -> validGroupCount junk = 0%nat.
Proof.
  induction junk as [|c s IH]; intros N; [reflexivity|].
  cbn [validGroupCount].
  destruct (validGroupAt (c :: s)) eqn:V.
  - exfalso. apply N. now apply validGroupAt_rparen.
  - apply IH. intros I. apply N. now right.
Qed.

(** On a payload made of valid groups and a fragment without a closing
    parenthesis, the count of the specification is the number of groups. *)
Lemma validGroupCount_payloadOf gs junk :
  Forall (fun g => specValid g = true) gs ->
  ~ In rparen junk ->
  validGroupCount (payloadOf gs ++ junk) = length gs.
Proof.
  intros F N. unfold payloadOf. induction F as [|g gs V _ IH]; simpl.
  - now apply validGroupCount_fragment.
  - now rewrite <- app_assoc, (validGroupCount_groupText g _ V), IH.
Qed.

End DecoderFacts.

(** ** What a message does to the snapshot list *)

Import WebSocketHook WireFormat DecoderFacts.

(** C6, as stated, fails: a payload without a valid group does not empty
    the snapshot list.  After a snapshot of key 9, the partial group
    [(9:0.61] leaves that snapshot in place. *)
Lemma C6_stale_snapshots_counterexample :
  ~ (forall (message : string) (prev : list (KeyData (option Q))),
        validGroupCount (chars message) = 0%nat ->
        onmessage decimalValue message prev = []).
Proof.
  intros H.
  specialize (H "(9:0.61"%string [mkKeyData 9 (Some 0.61) 1] eq_refl).
  vm_compute in H. discriminate H.
Qed.

(** C6 (amended): a message with at least one match of the expression
    replaces the snapshot list by the decoded matches, a non-empty list
    in which nothing of the previous list remains; a message without a match
    (the empty message included) leaves the previous list as it is.  The
    handler is a total function: no message raises an error. *)
Theorem C6_onmessage_replaces_or_keeps :
  forall (num : Type) (parseFloat : list ascii -> num)
         (message : string) (prev : list (KeyData num)),
    (matchGlobal (chars message) <> [] ->
       onmessage parseFloat message prev = decode parseFloat (chars message)
       /\ onmessage parseFloat message prev <> []
       /\ forall prev', onmessage parseFloat message prev'
                        = onmessage parseFloat message prev)
    /\ (matchGlobal (chars message) = [] ->
       onmessage parseFloat message prev = prev).
Proof.
  intros num parseFloat message prev. unfold chars. split.
  - intros NE. rewrite onmessage_unfold.
    pose proof (decode_length _ parseFloat (list_ascii_of_string message)) as L.
    destruct (matchGlobal (list_ascii_of_string message)) as [|m ms] eqn:E;
      [contradiction|].
    split; [reflexivity|]. split.
    + intros Z. rewrite Z in L. discriminate L.
    + intros prev'. rewrite onmessage_unfold. now rewrite E.
  - intros E. rewrite onmessage_unfold. now rewrite E.
Qed.

Lemma C6_onmessage_replaces_or_keeps_witness :
  (let prev := [mkKeyData 22 (Some 0.9) 1] in
   onmessage decimalValue "(9:0.61:1)" prev = [mkKeyData 9 (Some 0.61) 1])
  /\ (let prev := [mkKeyData 22 (Some 0.9) 1] in
      onmessage decimalValue "(9:0.61" prev = prev).
Proof.
  split; intros prev.
  - destruct (C6_onmessage_replaces_or_keeps _ decimalValue "(9:0.61:1)" prev)
      as [H _].
    destruct H as [H _]; [vm_compute; discriminate|].
    rewrite H. vm_compute. reflexivity.
  - destruct (C6_onmessage_replaces_or_keeps _ decimalValue "(9:0.61" prev)
      as [_ H].
    apply H. vm_compute. reflexivity.
Defined.

(** C7, as stated, fails: the hook emits a snapshot for a group whose
    analog field is not a decimal in [0, 1].  [(9:1.5:1)] holds no valid
    group and gives one snapshot. *)
Lemma C7_out_of_range_group_counterexample :
  ~ (forall payload : list ascii,
        length (decode decimalValue payload) = validGroupCount payload).
Proof.
  intros H. specialize (H (chars "(9:1.5:1)")).
  vm_compute in H. discriminate H.
Qed.

(** C7 (amended): the number of snapshots emitted is the number of matches
    of [(digits:text:digits)], where [text] is any non-empty text without a
    colon: the hook does not check that the analog field is a decimal in
    [0, 1].  A payload made of such groups, followed by a fragment that
    holds no closing parenthesis, decodes to exactly these groups, in
    order; every valid group of the specification is such a group, so on a
    payload made of valid groups and such a fragment the number of snapshots
    is the number of valid groups, as the claim has it.  Decoding is a total
    function: nothing raises an exception. *)
Theorem C7_one_snapshot_per_matched_group :
  forall (num : Type) (parseFloat : list ascii -> num),
    (forall payload,
        length (decode parseFloat payload) = length (matchGlobal payload))
    /\ (forall gs junk,
           Forall (fun g => wellFormed g = true) gs ->
           ~ In rparen junk ->
           decode parseFloat (payloadOf gs ++ junk)
           = map (toKeyData parseFloat) gs
           /\ length (decode parseFloat (payloadOf gs ++ junk)) = length gs)
    /\ (forall g, specValid g = true -> wellFormed g = true)
    /\ (forall gs junk,
           Forall (fun g => specValid g = true) gs ->
           ~ In rparen junk ->
           length (decode parseFloat (payloadOf gs ++ junk))
           = validGroupCount (payloadOf gs ++ junk)).
Proof.
  intros num parseFloat.
  assert (R : forall gs junk,
             Forall (fun g => wellFormed g = true) gs ->
             ~ In rparen junk ->
             decode parseFloat (payloadOf gs ++ junk)
             = map (toKeyData parseFloat) gs).
  { intros gs junk W N. unfold decode.
    rewrite (matchGlobal_payloadOf gs junk W), (matchGlobal_fragment junk N).
    rewrite app_nil_r. now apply parsedKeys_groups. }
  split; [|split; [|split]].
  - apply decode_length.
  - intros gs junk W N. split; [now apply R|].
    now rewrite (R gs junk W N), length_map.
  - apply specValid_wellFormed.
  - intros gs junk V N.
    rewrite (validGroupCount_payloadOf gs junk V N), R, ?length_map;
      [reflexivity| |exact N].
    eapply Forall_impl; [|exact V]. apply specValid_wellFormed.
Qed.

Lemma C7_one_snapshot_per_matched_group_witness :
  decode decimalValue (chars "(9:0.61:1)(22:abc:0)(7:0.5")
  = [mkKeyData 9 (Some 0.61) 1; mkKeyData 22 None 0].
Proof.
  pose (gs := [(chars "9", chars "0.61", chars "1");
               (chars "22", chars "abc", chars "0")]).
  change (chars "(9:0.61:1)(22:abc:0)(7:0.5")
    with (payloadOf gs ++ chars "(7:0.5").
  destruct (C7_one_snapshot_per_matched_group _ decimalValue) as (_ & H & _ & _).
  destruct (H gs (chars "(7:0.5")) as [E _].
  - repeat constructor.
  - vm_compute. intuition discriminate.
  - rewrite E. vm_compute. reflexivity.
Defined.

(** * Running statistics *)

Module StatsFacts.

Lemma recordAll_snoc attempts a :
  recordAll (attempts ++ [a])
  = updateStats (deviation a) (isSuccess a) (recordAll attempts).
Proof. unfold recordAll. now rewrite fold_left_app. Qed.

Lemma hits_snoc attempts a :
  hits (attempts ++ [a])
  = (hits attempts + (if isSuccess a then 1 else 0))%nat.
Proof.
  unfold hits. rewrite filter_app, length_app. simpl.
  now destruct (isSuccess a).
Qed.

Lemma sumDeviations_snoc attempts a :
  sumDeviations (attempts ++ [a]) == sumDeviations attempts + deviation a.
Proof.
  unfold sumDeviations. induction attempts as [|b l IH]; simpl.
  - ring.
  - rewrite IH. ring.
Qed.

Lemma ofNat_succ_nonzero n : ~ ofNat (n + 1) == 0.
Proof.
  unfold ofNat, Qeq. simpl. lia.
Qed.

Lemma totalAttempts_recordAll attempts :
  totalAttempts (recordAll attempts) = length attempts.
Proof.
  induction attempts as [|a l IH] using rev_ind; [reflexivity|].
  rewrite recordAll_snoc, length_app. simpl. now rewrite IH.
Qed.

Lemma successfulHits_recordAll attempts :
  successfulHits (recordAll attempts) = hits attempts.
Proof.
  induction attempts as [|a l IH] using rev_ind; [reflexivity|].
  rewrite recordAll_snoc, hits_snoc. simpl. now rewrite IH.
Qed.

(** The running mean times the count is the sum: the invariant behind the
    incremental update. *)
Lemma averageDeviation_recordAll attempts :
  averageDeviation (recordAll attempts) * ofNat (length attempts)
  == sumDeviations attempts.
Proof.
  induction attempts as [|a l IH] using rev_ind.
  - simpl. unfold sumDeviations. simpl. ring.
  - rewrite recordAll_snoc, sumDeviations_snoc, length_app. simpl.
    rewrite totalAttempts_recordAll, <- IH.
    field. apply ofNat_succ_nonzero.
Qed.

Lemma accuracy_recordAll attempts :
  attempts <> [] ->
  accuracy (recordAll attempts)
  = ofNat (successfulHits (recordAll attempts))
    / ofNat (totalAttempts (recordAll attempts)) * 100.
Proof.
  destruct attempts as [|a l] using rev_ind; [contradiction|]. intros _.
  rewrite recordAll_snoc. reflexivity.
Qed.

End StatsFacts.

Import StatsFacts.

(** C4: after any sequence of recorded attempts, starting from the zero
    statistics, [totalAttempts] counts the attempts and [successfulHits] the
    successes; [accuracy] is [successfulHits / totalAttempts * 100] when
    [totalAttempts > 0] and 0 otherwise; [averageDeviation] is the arithmetic
    mean of the recorded deviations, and recording one more attempt updates
    it as [(prevAvg * prevTotal + deviation) / newTotal], from the previous
    statistics alone.  Both variants of [handleAttempt] record an attempt
    with this update.  (Numbers are exact rationals here: the equalities
    hold up to rounding for the floats of the source.) *)
Theorem C4_running_stats_invariant :
  forall attempts : list Attempt,
    let st := recordAll attempts in
    totalAttempts st = length attempts
    /\ successfulHits st = hits attempts
    /\ ((0 < totalAttempts st)%nat ->
        accuracy st
        == ofNat (successfulHits st) / ofNat (totalAttempts st) * 100)
    /\ (totalAttempts st = 0%nat -> accuracy st == 0)
    /\ ((0 < totalAttempts st)%nat ->
        averageDeviation st
        == sumDeviations attempts / ofNat (length attempts))
    /\ (forall a,
           averageDeviation (recordAll (attempts ++ [a]))
           = (averageDeviation st * ofNat (totalAttempts st) + deviation a)
             / ofNat (totalAttempts st + 1))
    /\ (forall now d ok m s,
           Dwell.testStats (fst (Dwell.handleAttempt now d ok m s))
           = updateStats d ok (Dwell.testStats s))
    /\ (forall now d ok m s,
           Peak.testStats (fst (Peak.handleAttempt now d ok m s))
           = updateStats d ok (Peak.testStats s)).
Proof.
  intros attempts st. subst st.
  split; [apply totalAttempts_recordAll|].
  split; [apply successfulHits_recordAll|].
  rewrite totalAttempts_recordAll.
  split; [|split; [|split; [|split; [|split]]]].
  - intros P. rewrite accuracy_recordAll; [|destruct attempts; [inversion P|]];
      [|discriminate].
    now rewrite totalAttempts_recordAll.
  - intros E. destruct attempts; [|discriminate]. reflexivity.
  - intros P. rewrite <- averageDeviation_recordAll. field.
    destruct attempts as [|a l]; [inversion P|].
    simpl length. replace (S (length l)) with (length l + 1)%nat by lia.
    apply ofNat_succ_nonzero.
  - intros a. rewrite recordAll_snoc. simpl.
    now rewrite totalAttempts_recordAll.
  - reflexivity.
  - reflexivity.
Qed.

Lemma C4_running_stats_invariant_witness :
  let attempts := [mkAttempt 1 true "Perfect!";
                   mkAttempt 35 false "Wrong pressure!";
                   mkAttempt 100 false "Wrong key!"] in
  accuracy (recordAll attempts) == 100 / 3
  /\ averageDeviation (recordAll attempts) == 136 / 3.
Proof.
  intros attempts.
  destruct (C4_running_stats_invariant attempts)
    as (_ & _ & Hacc & _ & Havg & _).
  split.
  - rewrite Hacc; [vm_compute; reflexivity | vm_compute; lia].
  - rewrite Havg; [vm_compute; reflexivity | vm_compute; lia].
Defined.

(** * The sequence generator *)

Module GeneratorFacts.

Lemma pick_in_range (A : Type) (arr : list A) (r : Q) :
  arr <> [] -> unitInterval r -> exists x, pick arr r = Some x /\ In x arr.
Proof.
  intros NE [R0 R1]. unfold pick.
  set (n := length arr). assert (Hn : (0 < n)%nat).
  { subst n. destruct arr; [contradiction | simpl; lia]. }
  assert (N0 : 0 < ofNat n) by (unfold ofNat, Qlt; simpl; lia).
  set (i := Qfloor (r * ofNat n)).
  assert (I0 : (0 <= i)%Z).
  { change 0%Z with (Qfloor 0). apply Qfloor_resp_le.
    apply Qmult_le_0_compat; [exact R0 | now apply Qlt_le_weak]. }
  assert (I1 : (i < Z.of_nat n)%Z).
  { rewrite Zlt_Qlt. apply Qle_lt_trans with (r * ofNat n).
    - apply Qfloor_le.
    - apply Qlt_le_trans with (1 * ofNat n).
      + now apply Qmult_lt_compat_r.
      + rewrite Qmult_1_l. apply Qle_refl. }
  destruct (Z.ltb_spec i 0) as [|_]; [lia|].
  destruct (nth_error arr (Z.to_nat i)) as [x|] eqn:E.
  - exists x. split; [reflexivity|]. eapply nth_error_In; eauto.
  - apply nth_error_None in E. fold n in E. lia.
Qed.

Lemma HOME_ROW_KEYS_nonempty : HOME_ROW_KEYS <> [].
Proof. discriminate. Qed.

(** With values of [Math.random()], the loop completes and all it pushes
    are valid targets, one per iteration. *)
Lemma generateFrom_valid levels rand :
  levels <> [] -> (forall j, unitInterval (rand j)) ->
  forall n i, exists sequence,
    generateFrom levels rand i n = Some sequence
    /\ length sequence = n
    /\ Forall (validTarget levels) sequence.
Proof.
  intros NE R. induction n as [|n IH]; intros i; cbn [generateFrom].
  - exists []. repeat split. constructor.
  - destruct (pick_in_range _ _ _ HOME_ROW_KEYS_nonempty (R (2 * i)%nat))
      as ([k c] & -> & Ik).
    destruct (pick_in_range _ _ _ NE (R (2 * i + 1)%nat)) as (p & -> & Ip).
    destruct (IH (S i)) as (sequence & -> & L & F).
    eexists. split; [reflexivity|]. split; [simpl; now rewrite L|].
    constructor; [|exact F]. split; assumption.
Qed.

Lemma levels_nonempty levelCount : Peak.levels levelCount <> [].
Proof.
  unfold Peak.levels, Peak.PRESSURE_LEVELS_MAP.
  destruct (levelCount =? 2)%Z; [discriminate|].
  destruct (levelCount =? 3)%Z; discriminate.
Qed.

End GeneratorFacts.

Import GeneratorFacts.

(** C8: with values of [Math.random()] in [0, 1), every generated sequence
    has exactly 20 elements, each with one of the 7 home-row keys and a
    target pressure from the configured levels; the levels are [30, 60, 100]
    for [levelCount = 3] (and for the variant without a level choice) and
    [50, 100] for [levelCount = 2].  Generation also sets the index to 0. *)
Theorem C8_generated_sequence :
  forall rand : nat -> Q,
    (forall j, unitInterval (rand j)) ->
    length HOME_ROW_KEYS = 7%nat
    /\ Peak.levels 3 = [30; 60; 100]
    /\ Peak.levels 2 = [50; 100]
    /\ (forall s : Peak.State,
           let s' := Peak.generateTestSequence rand s in
           length (Peak.testSequence s') = 20%nat
           /\ Forall (validTarget (Peak.levels (Peak.levelCount s)))
                     (Peak.testSequence s')
           /\ Peak.currentIndex s' = 0%nat)
    /\ (forall s : Dwell.State,
           let s' := Dwell.generateTestSequence rand s in
           length (Dwell.testSequence s') = 20%nat
           /\ Forall (validTarget [30; 60; 100]) (Dwell.testSequence s')
           /\ Dwell.currentIndex s' = 0%nat).
Proof.
  intros rand R. repeat (split; [reflexivity|]). split.
  - intros s s'. subst s'. unfold Peak.generateTestSequence.
    destruct (generateFrom_valid (Peak.levels (Peak.levelCount s)) rand
                (levels_nonempty _) R 20%nat 0%nat)
      as (sequence & -> & L & F).
    simpl. auto.
  - intros s s'. subst s'. unfold Dwell.generateTestSequence.
    assert (NE : Dwell.PRESSURE_LEVELS <> []) by discriminate.
    destruct (generateFrom_valid _ rand NE R 20%nat 0%nat)
      as (sequence & -> & L & F).
    simpl. auto.
Qed.

Lemma C8_generated_sequence_witness :
  let s := Peak.mkState 2 [] 0 false None 0 false zeroStats [] in
  let s' := Peak.generateTestSequence (fun _ => 1 # 2) s in
  length (Peak.testSequence s') = 20%nat
  /\ Forall (validTarget [50; 100]) (Peak.testSequence s').
Proof.
  intros s s'.
  destruct (C8_generated_sequence (fun _ => 1 # 2)) as (_ & _ & _ & H & _).
  - intros j. split; [discriminate | reflexivity].
  - destruct (H s) as (L & F & _). split; assumption.
Defined.

(** * The attempt evaluator, dwell variant *)

Module DwellFacts.
Import Dwell.

(** A deadline 3000 ms after [now] keeps the cooldown guard up until then. *)
Lemma cooling_before (now t : Z) :
  (now + 3000 <> 0)%Z -> (t < now + 3000)%Z ->
  cooling t (Some (now + 3000)%Z) = true.
Proof.
  intros Z L. unfold cooling, truthy, valueOf.
  apply Z.eqb_neq in Z. apply Z.ltb_lt in L. now rewrite Z, L.
Qed.

Lemma find_pressed {A : Type} (p : A -> bool) (l : list A) (x : A) :
  In x l -> p x = true -> exists y, find p l = Some y.
Proof.
  intros I P. destruct (find p l) as [y|] eqn:E; [eauto|].
  rewrite (find_none p l E x I) in P. discriminate.
Qed.

Lemma nth_error_inside {A : Type} (l : list A) (i : nat) (x : A) :
  nth_error l i = Some x -> (length l <=? i)%nat = false.
Proof.
  intros E. apply Nat.leb_gt. apply nth_error_Some. now rewrite E.
Qed.

(** Past its three guards, the effect is in the body for [currentTarget]. *)
Ltac enter_effect H :=
  let A := fresh "A" in let N := fresh "N" in let C := fresh "C" in
  destruct H as (A & N & C);
  unfold effect; rewrite A, (nth_error_inside _ _ _ N), C, N;
  cbn [negb orb].

Lemma dwell_effect_inactive now keyData s :
  isTestActive s = false -> effect now keyData s = (s, None).
Proof. intros A. unfold effect. now rewrite A. Qed.

Lemma dwell_effect_cooling now keyData s :
  cooling now (cooldownUntil s) = true -> effect now keyData s = (s, None).
Proof.
  intros C. unfold effect. rewrite C.
  now destruct (negb (isTestActive s) || _).
Qed.

Lemma dwell_effect_wrong_key now keyData s currentTarget k :
  dwellEvaluating now s currentTarget ->
  wrongKeyPress currentTarget keyData = Some k ->
  effect now keyData s = handleAttempt now 100 false "Wrong key!" s.
Proof. intros H W. enter_effect H. now rewrite W. Qed.

Lemma dwell_effect_released now keyData s currentTarget :
  dwellEvaluating now s currentTarget ->
  wrongKeyPress currentTarget keyData = None ->
  correctKeyPress currentTarget keyData = None ->
  effect now keyData s = (setHoldStartTime None s, None).
Proof. intros H W K. enter_effect H. now rewrite W, K. Qed.

Lemma dwell_effect_first_contact now keyData s currentTarget :
  dwellEvaluating now s currentTarget ->
  targetHeld currentTarget keyData ->
  truthy (holdStartTime s) = false ->
  effect now keyData s = (setHoldStartTime (Some now) s, None).
Proof.
  intros H [W K] T. enter_effect H. rewrite W.
  destruct (correctKeyPress currentTarget keyData) as [k|]; [|contradiction].
  rewrite T. now destruct (Qle_bool _ _).
Qed.

Lemma dwell_effect_waiting now keyData s currentTarget t0 :
  dwellEvaluating now s currentTarget ->
  targetHeld currentTarget keyData ->
  holdStartTime s = Some t0 -> t0 <> 0%Z -> (now - t0 < 750)%Z ->
  effect now keyData s = (s, None).
Proof.
  intros H [W K] T Z L. enter_effect H. rewrite W, T.
  destruct (correctKeyPress currentTarget keyData) as [k|]; [|contradiction].
  cbn [truthy valueOf]. apply Z.eqb_neq in Z. rewrite Z.
  apply Z.leb_gt in L. rewrite L. now destruct (Qle_bool _ _).
Qed.

Lemma dwell_effect_expiry now keyData s currentTarget t0 k :
  dwellEvaluating now s currentTarget ->
  wrongKeyPress currentTarget keyData = None ->
  correctKeyPress currentTarget keyData = Some k ->
  holdStartTime s = Some t0 -> t0 <> 0%Z -> (750 <= now - t0)%Z ->
  effect now keyData s
  = handleAttempt now (deviationOf currentTarget k)
      (isSuccess (dwellOutcome currentTarget k))
      (message (dwellOutcome currentTarget k)) s.
Proof.
  intros H W K T Z L. enter_effect H. rewrite W, K, T.
  cbn [truthy valueOf]. apply Z.eqb_neq in Z. rewrite Z.
  apply Z.leb_le in L. rewrite L.
  unfold dwellOutcome, deviationOf. simpl.
  now destruct (Qle_bool _ _).
Qed.

(** While the target is held and the dwell time has not passed, runs of the
    effect change nothing and resolve nothing. *)
Lemma run_waiting currentTarget t0 mids s :
  isTestActive s = true ->
  nth_error (testSequence s) (currentIndex s) = Some currentTarget ->
  cooldownUntil s = None ->
  holdStartTime s = Some t0 -> t0 <> 0%Z ->
  Forall (fun tick => targetHeld currentTarget (snd tick)
                      /\ (fst tick - t0 < 750)%Z) mids ->
  forall ticks, run (mids ++ ticks) s = run ticks s.
Proof.
  intros A N C T Z F ticks. induction F as [|[now kd] mids [H L] _ IH].
  - reflexivity.
  - simpl in *. rewrite (dwell_effect_waiting now kd s currentTarget t0).
    + rewrite IH. now destruct (run ticks s).
    + repeat split; try assumption. now rewrite C.
    + assumption.
    + assumption.
    + assumption.
    + assumption.
Qed.

End DwellFacts.

Import DwellFacts.

(** C1, as stated, fails: the dwell is counted from the hold start the
    component has recorded, and a release reported while the test is paused
    does not clear it.  In [resumedHold] the key was released and pressed
    again during the pause; the first run after the restart, at 10000 ms,
    sees it held at 0.95 and resolves at once as [Wrong pressure!] with
    deviation 35, and the run at 10750 ms, 750 ms later, which sees it held
    at 0.61, resolves nothing. *)
Lemma C1_hold_kept_across_pause_counterexample :
  ~ (forall (s : Dwell.State) (currentTarget : TestSequence.t)
            (t0 : Z) (kd0 : list (KeyData Q))
            (mids : list (Z * list (KeyData Q)))
            (t1 : Z) (kd1 : list (KeyData Q)) (k1 : KeyData Q),
        Dwell.isTestActive s = true ->
        nth_error (Dwell.testSequence s) (Dwell.currentIndex s)
        = Some currentTarget ->
        Dwell.cooldownUntil s = None ->
        t0 <> 0%Z ->
        targetHeld currentTarget kd0 ->
        Forall (fun tick => targetHeld currentTarget (snd tick)
                            /\ (fst tick - t0 < 750)%Z) mids ->
        Dwell.wrongKeyPress currentTarget kd1 = None ->
        Dwell.correctKeyPress currentTarget kd1 = Some k1 ->
        (750 <= t1 - t0)%Z ->
        snd (Dwell.run ((t0, kd0) :: mids ++ [(t1, kd1)]) s)
        = [dwellOutcome currentTarget k1]).
Proof.
  intros H.
  specialize (H resumedHold (TestSequence.mk "f" 9 60)
                10000%Z [mkKeyData 9 0.95 1]
                [(10400%Z, [mkKeyData 9 0.61 1])]
                10750%Z [mkKeyData 9 0.61 1] (mkKeyData 9 0.61 1)
                eq_refl eq_refl eq_refl).
  assert (E : snd (Dwell.run ((10000%Z, [mkKeyData 9 0.95 1])
                              :: [(10400%Z, [mkKeyData 9 0.61 1])]
                              ++ [(10750%Z, [mkKeyData 9 0.61 1])])
                     resumedHold)
              = [mkAttempt (Qabs (0.95 * 100 - 60)) false "Wrong pressure!"])
    by (vm_compute; reflexivity).
  rewrite E in H.
  assert (P : [mkAttempt (Qabs (0.95 * 100 - 60)) false "Wrong pressure!"]
              = [dwellOutcome (TestSequence.mk "f" 9 60) (mkKeyData 9 0.61 1)]).
  { apply H.
    - discriminate.
    - split; [reflexivity | discriminate].
    - repeat constructor. discriminate.
    - reflexivity.
    - reflexivity.
    - discriminate. }
  vm_compute in P. discriminate P.
Qed.

(** C1 (amended): in the dwell variant the hold start is recorded by the
    first run of the effect that sees the target key pressed, and no other
    key, while no hold start is recorded, and it is cleared by every run
    that sees the target key not pressed.  An attempt that starts with no
    hold start recorded, in which every run sees the target key pressed and
    no other key, resolves at the first run at or after [t0 + 750], [t0]
    being the first run, with the analog value sampled by that run:
    deviation [|analogValue * 100 - targetPressure|], success iff the
    deviation is at most 10, message [Perfect!] on success and
    [Wrong pressure!] otherwise; resolving clears the hold start and starts
    the cooldown.  When a hold start [h] is recorded already, the dwell is
    counted from [h]: the attempt resolves the same way at the first run at
    or after [h + 750].  No hold start is recorded after the mount, after a
    reset and after a resolved attempt; but runs while the test is not
    active change nothing, and [pauseTest] and [startTest] keep the hold
    start. *)
Theorem C1_dwell_hold_resolves_at_expiry :
  (forall (s : Dwell.State) (currentTarget : TestSequence.t)
          (t0 : Z) (kd0 : list (KeyData Q))
          (mids : list (Z * list (KeyData Q)))
          (t1 : Z) (kd1 : list (KeyData Q)) (k1 : KeyData Q),
      Dwell.isTestActive s = true ->
      nth_error (Dwell.testSequence s) (Dwell.currentIndex s)
      = Some currentTarget ->
      Dwell.cooldownUntil s = None ->
      Dwell.holdStartTime s = None ->
      t0 <> 0%Z ->
      targetHeld currentTarget kd0 ->
      Forall (fun tick => targetHeld currentTarget (snd tick)
                          /\ (fst tick - t0 < 750)%Z) mids ->
      Dwell.wrongKeyPress currentTarget kd1 = None ->
      Dwell.correctKeyPress currentTarget kd1 = Some k1 ->
      (750 <= t1 - t0)%Z ->
      let a := dwellOutcome currentTarget k1 in
      let final := fst (Dwell.run ((t0, kd0) :: mids ++ [(t1, kd1)]) s) in
      Dwell.effect t0 kd0 s = (Dwell.setHoldStartTime (Some t0) s, None)
      /\ snd (Dwell.run ((t0, kd0) :: mids ++ [(t1, kd1)]) s) = [a]
      /\ deviation a
         = Qabs (analogValue k1 * 100
                 - TestSequence.targetPressure currentTarget)
      /\ (isSuccess a = true <-> deviation a <= 10)
      /\ message a
         = (if isSuccess a then "Perfect!" else "Wrong pressure!")%string
      /\ Dwell.testStats final
         = updateStats (deviation a) (isSuccess a) (Dwell.testStats s)
      /\ Dwell.holdStartTime final = None
      /\ Dwell.cooldownUntil final = Some (t1 + 3000)%Z
      /\ Dwell.timers final = Dwell.timers s ++ [(t1 + 3000)%Z]
      /\ (forall now keyData s',
             dwellEvaluating now s' currentTarget ->
             Dwell.wrongKeyPress currentTarget keyData = None ->
             Dwell.correctKeyPress currentTarget keyData = None ->
             Dwell.effect now keyData s'
             = (Dwell.setHoldStartTime None s', None)))
  /\ (forall (s : Dwell.State) (currentTarget : TestSequence.t) (h : Z)
             (mids : list (Z * list (KeyData Q)))
             (t1 : Z) (kd1 : list (KeyData Q)) (k1 : KeyData Q),
         Dwell.isTestActive s = true ->
         nth_error (Dwell.testSequence s) (Dwell.currentIndex s)
         = Some currentTarget ->
         Dwell.cooldownUntil s = None ->
         Dwell.holdStartTime s = Some h ->
         h <> 0%Z ->
         Forall (fun tick => targetHeld currentTarget (snd tick)
                             /\ (fst tick - h < 750)%Z) mids ->
         Dwell.wrongKeyPress currentTarget kd1 = None ->
         Dwell.correctKeyPress currentTarget kd1 = Some k1 ->
         (750 <= t1 - h)%Z ->
         let a := dwellOutcome currentTarget k1 in
         Dwell.run (mids ++ [(t1, kd1)]) s
         = (fst (Dwell.handleAttempt t1 (deviation a) (isSuccess a)
                   (message a) s), [a]))
  /\ (forall rand, Dwell.holdStartTime (Dwell.mount rand) = None)
  /\ (forall rand s, Dwell.holdStartTime (Dwell.resetTest rand s) = None)
  /\ (forall now d ok m s,
         Dwell.holdStartTime (fst (Dwell.handleAttempt now d ok m s)) = None)
  /\ (forall now keyData s,
         Dwell.isTestActive s = false -> Dwell.effect now keyData s = (s, None))
  /\ (forall connected s,
         Dwell.holdStartTime (Dwell.pauseTest s) = Dwell.holdStartTime s
         /\ Dwell.holdStartTime (Dwell.startTest connected s)
            = Dwell.holdStartTime s).
Proof.
  split; [|split; [|split; [|split; [|split; [|split]]]]].
  - intros s currentTarget t0 kd0 mids t1 kd1 k1 A N C T Z H0 F W1 K1 L a final.
    assert (E0 : dwellEvaluating t0 s currentTarget)
      by (repeat split; try assumption; now rewrite C).
    assert (E1 : dwellEvaluating t1 (Dwell.setHoldStartTime (Some t0) s)
                   currentTarget)
      by (repeat split; try assumption; simpl; now rewrite C).
    assert (T0 : truthy (Dwell.holdStartTime s) = false) by now rewrite T.
    assert (R : Dwell.run ((t0, kd0) :: mids ++ [(t1, kd1)]) s
                = (fst (Dwell.handleAttempt t1 (deviation a) (isSuccess a)
                          (message a) (Dwell.setHoldStartTime (Some t0) s)),
                   [a])).
    { cbn [Dwell.run].
      rewrite (dwell_effect_first_contact t0 kd0 s currentTarget E0 H0 T0).
      rewrite (run_waiting currentTarget t0 mids
                 (Dwell.setHoldStartTime (Some t0) s) A N C eq_refl Z F).
      cbn [Dwell.run].
      rewrite (dwell_effect_expiry t1 kd1 _ currentTarget t0 k1 E1 W1 K1
                 eq_refl Z L).
      reflexivity. }
    subst final. rewrite R. cbn [fst snd].
    split; [exact (dwell_effect_first_contact t0 kd0 s currentTarget E0 H0 T0)|].
    split; [reflexivity|]. split; [reflexivity|].
    split; [apply Qle_bool_iff|]. split; [reflexivity|].
    split; [reflexivity|]. split; [reflexivity|].
    split; [reflexivity|]. split; [reflexivity|].
    intros now keyData s'. apply dwell_effect_released.
  - intros s currentTarget h mids t1 kd1 k1 A N C T Z F W1 K1 L a.
    assert (E1 : dwellEvaluating t1 s currentTarget)
      by (repeat split; try assumption; now rewrite C).
    rewrite (run_waiting currentTarget h mids s A N C T Z F).
    cbn [Dwell.run].
    rewrite (dwell_effect_expiry t1 kd1 s currentTarget h k1 E1 W1 K1 T Z L).
    reflexivity.
  - intros rand. unfold Dwell.mount, Dwell.generateTestSequence.
    now destruct (generateFrom Dwell.PRESSURE_LEVELS rand 0 20).
  - intros rand s. unfold Dwell.resetTest, Dwell.generateTestSequence.
    now destruct (generateFrom Dwell.PRESSURE_LEVELS rand 0 20).
  - reflexivity.
  - intros now keyData s A. now apply dwell_effect_inactive.
  - intros connected s. split; [reflexivity|].
    unfold Dwell.startTest. now destruct connected.
Qed.

(** The scenario of the specification: a test started on a sequence whose
    targets are all [f] (key code 9) at 60, key 9 reported at 0.61 by the
    runs at 1000, 1400 and 1750 ms. *)
Lemma C1_dwell_hold_resolves_at_expiry_witness :
  let s := Dwell.startTest true (Dwell.mount (fun _ => 1 # 2)) in
  let keyData := [mkKeyData 9 0.61 1] in
  snd (Dwell.run [(1000, keyData); (1400, keyData); (1750, keyData)]%Z s)
  = [mkAttempt (Qabs (0.61 * 100 - 60)) true "Perfect!"]
  /\ Qabs (0.61 * 100 - 60) == 1.
Proof.
  intros s keyData. split; [|reflexivity].
  refine (proj1 (proj2
            (proj1 C1_dwell_hold_resolves_at_expiry
                   s (TestSequence.mk "f" 9 60)
                   1000%Z keyData [(1400%Z, keyData)] 1750%Z keyData
                   (mkKeyData 9 0.61 1)
                   eq_refl eq_refl eq_refl eq_refl _ _ _ eq_refl eq_refl _))).
  - discriminate.
  - split; [reflexivity | discriminate].
  - repeat constructor. discriminate.
  - discriminate.
Defined.

(** The scenarios of the specification give the same deviations and the
    same verdicts in binary64 arithmetic: 0.61 against 60 deviates by 1, and
    0.95 against 60 by 35. *)
Module Binary64Facts.
Import Floats.PrimFloat.

(* 0.61 and 0.95 stand for the nearest binary64 values, as in JavaScript. *)
Local Set Warnings "-inexact-float".

Example binary64_scenarios :
  Binary64.deviation 0.61%float 60%float = 1%float
  /\ Binary64.withinRange 0.61%float 60%float = true
  /\ Binary64.deviation 0.95%float 60%float = 35%float
  /\ Binary64.withinRange 0.95%float 60%float = false.
Proof. vm_compute. repeat split. Qed.

End Binary64Facts.

(** The same two scenarios on the model: a hold at 0.95 resolves as
    [Wrong pressure!] with deviation 35. *)
Example dwell_wrong_pressure_scenario :
  let s := Dwell.startTest true (Dwell.mount (fun _ => 1 # 2)) in
  let keyData := [mkKeyData 9 0.95 1] in
  snd (Dwell.run [(1000, keyData); (1400, keyData); (1750, keyData)]%Z s)
  = [mkAttempt (Qabs (0.95 * 100 - 60)) false "Wrong pressure!"]
  /\ Qabs (0.95 * 100 - 60) == 35.
Proof. split; reflexivity. Qed.

(** * The attempt evaluator, peak-on-release variant *)

Module PeakFacts.
Import Peak.

Ltac enter_effect H :=
  let A := fresh "A" in let N := fresh "N" in let C := fresh "C" in
  destruct H as (A & N & C);
  unfold effect; rewrite A, (nth_error_inside _ _ _ N), C, N;
  cbn [negb orb].

Lemma peak_effect_inactive now keyData s :
  isTestActive s = false -> effect now keyData s = (s, None).
Proof. intros A. unfold effect. now rewrite A. Qed.

Lemma peak_effect_cooling now keyData s :
  cooling now (cooldownUntil s) = true -> effect now keyData s = (s, None).
Proof.
  intros C. unfold effect. rewrite C.
  now destruct (negb (isTestActive s) || _).
Qed.

Lemma peak_effect_wrong_key now keyData s currentTarget k :
  peakEvaluating now s currentTarget ->
  otherPressed currentTarget keyData = Some k ->
  effect now keyData s = handleAttempt now 100 false "Wrong key!" s.
Proof. intros H W. enter_effect H. now rewrite W. Qed.

(** A resolved attempt starts a cooldown that lasts 3000 ms. *)
Lemma handleAttempt_cooldown now d ok m s t :
  (now + 3000 <> 0)%Z -> (t < now + 3000)%Z ->
  cooling t (cooldownUntil (fst (handleAttempt now d ok m s))) = true.
Proof.
  intros Z L. now apply cooling_before.
Qed.

(** The timer of a resolved attempt, when it is the oldest pending one,
    advances the index by one and ends the cooldown. *)
Lemma fireTimer_advances s due pending :
  timers s = due :: pending ->
  currentIndex (fireTimer s) = S (currentIndex s)
  /\ cooldownUntil (fireTimer s) = None
  /\ timers (fireTimer s) = pending
  /\ keyHeld (fireTimer s) = keyHeld s
  /\ maxAnalog (fireTimer s) = maxAnalog s.
Proof. intros T. unfold fireTimer. rewrite T. repeat split. Qed.

End PeakFacts.

(** C2: in both variants, when the evaluator is at work on a target (test
    active, index inside the sequence, no cooldown running) and the snapshot
    list holds a key other than the target's with pressed flag 1, the run of
    the effect resolves the attempt at once as [handleAttempt(100, false,
    'Wrong key!')] and starts the cooldown, whatever the snapshot list says
    about the target key and whatever hold is in progress. *)
Theorem C2_wrong_key_has_priority :
  (forall now keyData (s : Dwell.State) currentTarget k,
      dwellEvaluating now s currentTarget ->
      In k keyData ->
      keyCode k <> TestSequence.keyCode currentTarget ->
      isPressed k = 1%Z ->
      Dwell.effect now keyData s
      = Dwell.handleAttempt now 100 false "Wrong key!" s
      /\ snd (Dwell.effect now keyData s)
         = Some (mkAttempt 100 false "Wrong key!")
      /\ Dwell.cooldownUntil (fst (Dwell.effect now keyData s))
         = Some (now + 3000)%Z)
  /\ (forall now keyData (s : Peak.State) currentTarget k,
         peakEvaluating now s currentTarget ->
         In k keyData ->
         keyCode k <> TestSequence.keyCode currentTarget ->
         isPressed k = 1%Z ->
         Peak.effect now keyData s
         = Peak.handleAttempt now 100 false "Wrong key!" s
         /\ snd (Peak.effect now keyData s)
            = Some (mkAttempt 100 false "Wrong key!")
         /\ Peak.cooldownUntil (fst (Peak.effect now keyData s))
            = Some (now + 3000)%Z).
Proof.
  split; intros now keyData s currentTarget k E I K P.
  - destruct (find_pressed
                (fun k => negb (keyCode k =? TestSequence.keyCode currentTarget)%Z
                          && (isPressed k =? 1)%Z) keyData k I) as [w W].
    { apply Z.eqb_neq in K. rewrite K, P. reflexivity. }
    rewrite (DwellFacts.dwell_effect_wrong_key now keyData s currentTarget w E W).
    repeat split.
  - destruct (find_pressed
                (fun k => negb (keyCode k =? TestSequence.keyCode currentTarget)%Z
                          && negb (isPressed k =? 0)%Z) keyData k I) as [w W].
    { apply Z.eqb_neq in K. rewrite K, P. reflexivity. }
    rewrite (PeakFacts.peak_effect_wrong_key now keyData s currentTarget w E W).
    repeat split.
Qed.

(** The scenario of the specification: target [f] at 60, key 22 reported
    at 0.9 while key 9 is untouched (dwell variant); and key 22 reported
    while key 9 is held at 0.61 since 100 ms (peak variant). *)
Lemma C2_wrong_key_has_priority_witness :
  (let s := Dwell.startTest true (Dwell.mount (fun _ => 1 # 2)) in
   snd (Dwell.effect 1000 [mkKeyData 22 0.9 1] s)
   = Some (mkAttempt 100 false "Wrong key!"))
  /\ (let s := fst (Peak.effect 900 [mkKeyData 9 0.61 1]
                          (Peak.startTest true (Peak.mount (fun _ => 1 # 2)))) in
      snd (Peak.effect 1000 [mkKeyData 9 0.61 1; mkKeyData 22 0.9 1] s)
      = Some (mkAttempt 100 false "Wrong key!")).
Proof.
  split; intros s.
  - refine (proj1 (proj2 (proj1 C2_wrong_key_has_priority 1000%Z
                            [mkKeyData 22 0.9 1] s (TestSequence.mk "f" 9 60)
                            (mkKeyData 22 0.9 1) _ _ _ eq_refl))).
    + repeat split.
    + now left.
    + discriminate.
  - refine (proj1 (proj2 (proj2 C2_wrong_key_has_priority 1000%Z
                            [mkKeyData 9 0.61 1; mkKeyData 22 0.9 1] s
                            (TestSequence.mk "f" 9 60)
                            (mkKeyData 22 0.9 1) _ _ _ eq_refl))).
    + repeat split.
    + right. now left.
    + discriminate.
Defined.

(** * Session control: pause and reset *)

Module SessionFacts.

Lemma dwell_reset_clears rand s :
  Dwell.testStats (Dwell.resetTest rand s) = zeroStats
  /\ dwellCleared (Dwell.resetTest rand s).
Proof.
  unfold Dwell.resetTest, Dwell.generateTestSequence, dwellCleared.
  destruct (generateFrom Dwell.PRESSURE_LEVELS rand 0 20); repeat split.
Qed.

Lemma peak_reset_clears rand s :
  Peak.testStats (Peak.resetTest rand s) = zeroStats
  /\ peakCleared (Peak.resetTest rand s).
Proof.
  unfold Peak.resetTest, Peak.generateTestSequence, peakCleared.
  cbn [Peak.levelCount Peak.setKeyHeld Peak.setMaxAnalog Peak.setCooldownUntil
       Peak.setTestStats Peak.setCurrentIndex Peak.setIsTestActive].
  destruct (generateFrom (Peak.levels (Peak.levelCount s)) rand 0 20);
    repeat split.
Qed.

(** Neither reset nor pause touches the pending timers. *)
Lemma dwell_reset_keeps_timers rand s :
  Dwell.timers (Dwell.resetTest rand s) = Dwell.timers s.
Proof.
  unfold Dwell.resetTest, Dwell.generateTestSequence.
  destruct (generateFrom Dwell.PRESSURE_LEVELS rand 0 20); reflexivity.
Qed.

Lemma peak_reset_keeps_timers rand s :
  Peak.timers (Peak.resetTest rand s) = Peak.timers s.
Proof.
  unfold Peak.resetTest, Peak.generateTestSequence.
  cbn [Peak.levelCount Peak.setKeyHeld Peak.setMaxAnalog Peak.setCooldownUntil
       Peak.setTestStats Peak.setCurrentIndex Peak.setIsTestActive].
  destruct (generateFrom (Peak.levels (Peak.levelCount s)) rand 0 20);
    reflexivity.
Qed.

Lemma peak_reset_levelCount rand s :
  Peak.levelCount (Peak.resetTest rand s) = Peak.levelCount s.
Proof.
  unfold Peak.resetTest, Peak.generateTestSequence.
  cbn [Peak.levelCount Peak.setKeyHeld Peak.setMaxAnalog Peak.setCooldownUntil
       Peak.setTestStats Peak.setCurrentIndex Peak.setIsTestActive].
  destruct (generateFrom (Peak.levels (Peak.levelCount s)) rand 0 20);
    reflexivity.
Qed.

Lemma peak_reset_sequence rand s :
  Peak.testSequence (Peak.resetTest rand s)
  = match generateFrom (Peak.levels (Peak.levelCount s)) rand 0 20 with
    | Some sequence => sequence
    | None => Peak.testSequence s
    end.
Proof.
  unfold Peak.resetTest, Peak.generateTestSequence.
  cbn [Peak.levelCount Peak.setKeyHeld Peak.setMaxAnalog Peak.setCooldownUntil
       Peak.setTestStats Peak.setCurrentIndex Peak.setIsTestActive].
  destruct (generateFrom (Peak.levels (Peak.levelCount s)) rand 0 20);
    reflexivity.
Qed.

End SessionFacts.

Import SessionFacts.

(** C9: in both variants, whatever the session state and whatever the two
    random sources, a reset followed by a second reset yields both times the
    zero statistics and a cleared, inactive evaluator (index 0, no hold
    start or held key, no cooldown deadline); the two generated sequences
    can differ. *)
Theorem C9_reset_twice :
  (forall (s : Dwell.State) (rand1 rand2 : nat -> Q),
      let s1 := Dwell.resetTest rand1 s in
      let s2 := Dwell.resetTest rand2 s1 in
      Dwell.testStats s1 = zeroStats /\ dwellCleared s1
      /\ Dwell.testStats s2 = zeroStats /\ dwellCleared s2)
  /\ (forall (s : Peak.State) (rand1 rand2 : nat -> Q),
         let s1 := Peak.resetTest rand1 s in
         let s2 := Peak.resetTest rand2 s1 in
         Peak.testStats s1 = zeroStats /\ peakCleared s1
         /\ Peak.testStats s2 = zeroStats /\ peakCleared s2)
  /\ (exists rand1 rand2 : nat -> Q,
         (forall j, unitInterval (rand1 j))
         /\ (forall j, unitInterval (rand2 j))
         /\ (forall s : Dwell.State,
                Dwell.testSequence (Dwell.resetTest rand1 s)
                <> Dwell.testSequence
                     (Dwell.resetTest rand2 (Dwell.resetTest rand1 s)))
         /\ (forall s : Peak.State,
                Peak.testSequence (Peak.resetTest rand1 s)
                <> Peak.testSequence
                     (Peak.resetTest rand2 (Peak.resetTest rand1 s)))).
Proof.
  split; [|split].
  - intros s rand1 rand2 s1 s2.
    destruct (dwell_reset_clears rand1 s), (dwell_reset_clears rand2 s1). auto.
  - intros s rand1 rand2 s1 s2.
    destruct (peak_reset_clears rand1 s), (peak_reset_clears rand2 s1). auto.
  - exists (fun _ => 0), (fun _ => 1 # 2).
    split; [intros j; split; [discriminate | reflexivity]|].
    split; [intros j; split; [discriminate | reflexivity]|].
    split; intros s.
    + vm_compute. discriminate.
    + rewrite !peak_reset_sequence, peak_reset_levelCount.
      unfold Peak.levels, Peak.PRESSURE_LEVELS_MAP.
      destruct (Peak.levelCount s =? 2)%Z;
        [|destruct (Peak.levelCount s =? 3)%Z]; vm_compute; discriminate.
Qed.

(** C10: in both variants, pausing sets the active flag to false and leaves
    every other cell as it is: the sequence, the index, the statistics, the
    hold start time (dwell) or the tracked peak and the held flag (peak),
    the cooldown deadline, and the pending timers.  While the test is
    paused, a run of the evaluation effect changes nothing either. *)
Theorem C10_pause_changes_only_the_active_flag :
  (forall s : Dwell.State,
      let s' := Dwell.pauseTest s in
      Dwell.isTestActive s' = false
      /\ Dwell.testSequence s' = Dwell.testSequence s
      /\ Dwell.currentIndex s' = Dwell.currentIndex s
      /\ Dwell.testStats s' = Dwell.testStats s
      /\ Dwell.holdStartTime s' = Dwell.holdStartTime s
      /\ Dwell.cooldownUntil s' = Dwell.cooldownUntil s
      /\ Dwell.timers s' = Dwell.timers s
      /\ forall now keyData, Dwell.effect now keyData s' = (s', None))
  /\ (forall s : Peak.State,
         let s' := Peak.pauseTest s in
         Peak.isTestActive s' = false
         /\ Peak.levelCount s' = Peak.levelCount s
         /\ Peak.testSequence s' = Peak.testSequence s
         /\ Peak.currentIndex s' = Peak.currentIndex s
         /\ Peak.testStats s' = Peak.testStats s
         /\ Peak.maxAnalog s' = Peak.maxAnalog s
         /\ Peak.keyHeld s' = Peak.keyHeld s
         /\ Peak.cooldownUntil s' = Peak.cooldownUntil s
         /\ Peak.timers s' = Peak.timers s
         /\ forall now keyData, Peak.effect now keyData s' = (s', None)).
Proof.
  split; intros s s'; repeat (split; [reflexivity|]); intros now keyData.
  - now apply DwellFacts.dwell_effect_inactive.
  - now apply PeakFacts.peak_effect_inactive.
Qed.

(** * Cooldown and the advance timer *)

Module CooldownFacts.

(** Dwell variant: a resolved attempt clears the hold start and starts a
    cooldown of 3000 ms, during which runs of the effect change nothing;
    when its timer fires (no older timer pending) the index moves by one
    and the evaluator is idle again. *)
Lemma dwell_cooldown_then_idle now d ok m s :
  Dwell.timers s = [] ->
  let s1 := fst (Dwell.handleAttempt now d ok m s) in
  Dwell.cooldownUntil s1 = Some (now + 3000)%Z
  /\ Dwell.holdStartTime s1 = None
  /\ (forall t keyData,
         (now + 3000 <> 0)%Z -> (t < now + 3000)%Z ->
         Dwell.effect t keyData s1 = (s1, None))
  /\ Dwell.currentIndex (Dwell.fireTimer s1) = S (Dwell.currentIndex s)
  /\ Dwell.cooldownUntil (Dwell.fireTimer s1) = None
  /\ Dwell.holdStartTime (Dwell.fireTimer s1) = None
  /\ Dwell.timers (Dwell.fireTimer s1) = [].
Proof.
  intros T s1. subst s1. simpl. unfold Dwell.fireTimer. simpl. rewrite T.
  simpl. repeat split.
  intros t keyData Z L. apply DwellFacts.dwell_effect_cooling.
  now apply cooling_before.
Qed.

(** Peak variant: the same holds for the cooldown and the index, but the
    held flag and the tracked peak go through unchanged. *)
Lemma peak_cooldown_then_advance now d ok m s :
  Peak.timers s = [] ->
  let s1 := fst (Peak.handleAttempt now d ok m s) in
  Peak.cooldownUntil s1 = Some (now + 3000)%Z
  /\ (forall t keyData,
         (now + 3000 <> 0)%Z -> (t < now + 3000)%Z ->
         Peak.effect t keyData s1 = (s1, None))
  /\ Peak.currentIndex (Peak.fireTimer s1) = S (Peak.currentIndex s)
  /\ Peak.cooldownUntil (Peak.fireTimer s1) = None
  /\ Peak.keyHeld (Peak.fireTimer s1) = Peak.keyHeld s
  /\ Peak.maxAnalog (Peak.fireTimer s1) = Peak.maxAnalog s.
Proof.
  intros T s1. subst s1. simpl. unfold Peak.fireTimer. simpl. rewrite T.
  simpl. repeat split.
  intros t keyData Z L. apply PeakFacts.peak_effect_cooling.
  now apply cooling_before.
Qed.

End CooldownFacts.

(** C3, on the peak variant: the evaluator does not always return to Idle
    after the cooldown.  The test is started on a sequence that begins with
    the targets [f] then [j], both at 60.  Key 9 is held at 0.6 (run at
    1000 ms), then key 22 is pressed too (run at 1200 ms): the attempt
    resolves as [Wrong key!] and the cooldown runs until 4200 ms; the
    snapshot of 2000 ms, every key released, is ignored.  The wrong-key
    branch returns before the held flag and the peak are cleared, so when
    the timer fires the index is 1 but the evaluator still holds the peak
    0.6 of the previous target; the run that follows (4200 ms, same
    snapshot) resolves the attempt on [j] as a success although key 13 was
    never pressed. *)
Theorem C3_peak_wrong_key_leaves_hold_behind :
  let s0 := Peak.startTest true (Peak.mount randFJ) in
  let released := [mkKeyData 9 0 0; mkKeyData 22 0 0] in
  let s1 := fst (Peak.effect 1000 [mkKeyData 9 0.6 1] s0) in
  let r2 := Peak.effect 1200 [mkKeyData 9 0.6 1; mkKeyData 22 0.9 1] s1 in
  let r3 := Peak.effect 2000 released (fst r2) in
  let s4 := Peak.fireTimer (fst r3) in
  let r5 := Peak.effect 4200 released s4 in
  firstn 2 (Peak.testSequence s0)
  = [TestSequence.mk "f" 9 60; TestSequence.mk "j" 13 60]
  /\ snd r2 = Some (mkAttempt 100 false "Wrong key!")
  /\ Peak.cooldownUntil (fst r2) = Some 4200%Z
  /\ Peak.timers (fst r2) = [4200%Z]
  /\ r3 = (fst r2, None)
  /\ Peak.currentIndex s4 = 1%nat
  /\ Peak.cooldownUntil s4 = None
  /\ Peak.keyHeld s4 = true
  /\ Peak.maxAnalog s4 = 0.6
  /\ snd r5 = Some (mkAttempt (Qabs (0.6 * 100 - 60)) true "Good!")
  /\ successfulHits (Peak.testStats (fst r5)) = 1%nat.
Proof. vm_compute. repeat split. Qed.

(** C5, on the source: neither [resetTest] nor [pauseTest] cancels the
    pending advance timer (the component keeps no handle of it), so a timer
    set before a reset fires after it.  Dwell variant, test started on a
    sequence that begins with [f] then [j]: key 22 is pressed at 1000 ms,
    the attempt resolves and its timer is due at 4000 ms; the test is reset
    at 2000 ms (index 0, statistics zero, timer still pending); when the
    timer fires the index becomes 1 although no attempt was resolved since
    the reset.  The peak variant behaves the same, and so does a pause in
    place of the reset. *)
Theorem C5_timer_survives_reset_and_pause :
  (forall rand s, Dwell.timers (Dwell.resetTest rand s) = Dwell.timers s)
  /\ (forall s, Dwell.timers (Dwell.pauseTest s) = Dwell.timers s)
  /\ (forall rand s, Peak.timers (Peak.resetTest rand s) = Peak.timers s)
  /\ (forall s, Peak.timers (Peak.pauseTest s) = Peak.timers s)
  /\ (let s0 := Dwell.startTest true (Dwell.mount randFJ) in
      let s1 := fst (Dwell.effect 1000 [mkKeyData 22 0.9 1] s0) in
      let s2 := Dwell.resetTest (fun _ => 1 # 2) s1 in
      let s3 := Dwell.fireTimer s2 in
      Dwell.timers s1 = [4000%Z]
      /\ Dwell.currentIndex s2 = 0%nat
      /\ Dwell.testStats s2 = zeroStats
      /\ Dwell.timers s2 = [4000%Z]
      /\ Dwell.currentIndex s3 = 1%nat
      /\ totalAttempts (Dwell.testStats s3) = 0%nat
      /\ Dwell.currentIndex (Dwell.fireTimer (Dwell.pauseTest s1)) = 1%nat)
  /\ (let s0 := Peak.startTest true (Peak.mount randFJ) in
      let s1 := fst (Peak.effect 1000 [mkKeyData 22 0.9 1] s0) in
      let s2 := Peak.resetTest (fun _ => 1 # 2) s1 in
      let s3 := Peak.fireTimer s2 in
      Peak.timers s1 = [4000%Z]
      /\ Peak.currentIndex s2 = 0%nat
      /\ Peak.testStats s2 = zeroStats
      /\ Peak.timers s2 = [4000%Z]
      /\ Peak.currentIndex s3 = 1%nat
      /\ totalAttempts (Peak.testStats s3) = 0%nat
      /\ Peak.currentIndex (Peak.fireTimer (Peak.pauseTest s1)) = 1%nat).
Proof.
  split; [exact dwell_reset_keeps_timers|].
  split; [reflexivity|].
  split; [exact peak_reset_keeps_timers|].
  split; [reflexivity|].
  split; vm_compute; repeat split.
Qed.

(** * Further properties of the decoder *)

Module DecoderMoreFacts.

(** A match at the head of a text is still one when the text goes on. *)
Lemma matchGroup_app s t g r :
  matchGroup s = Some (g, r) -> matchGroup (s ++ t) = Some (g, r ++ t).
Proof.
  intros M. apply matchGroup_sound in M as [W ->].
  rewrite <- app_assoc. now apply matchGroup_groupText.
Qed.

Lemma weave_cons c j0 rest : c :: weave j0 rest = weave (c :: j0) rest.
Proof. reflexivity. Qed.

Lemma weave_group g j0 rest :
  groupText g ++ weave j0 rest = weave [] ((g, j0) :: rest).
Proof. unfold weave. simpl. now rewrite <- app_assoc. Qed.

(** Every payload is a leading fragment and the matched groups, each with
    the fragment that follows it; no fragment holds a match. *)
Lemma matchGlobal_weave payload :
  exists j0 rest,
    payload = weave j0 rest
    /\ matchGlobal j0 = []
    /\ Forall (fun gj => wellFormed (fst gj) = true
                         /\ matchGlobal (snd gj) = []) rest
    /\ matchGlobal payload = map (fun gj => groupText (fst gj)) rest.
Proof.
  remember (length payload) as n eqn:Hn. revert payload Hn.
  induction n as [n IH] using lt_wf_ind. intros [|c s] Hn.
  - exists [], []. simp matchGlobal. repeat split. constructor.
  - rewrite matchGlobal_cons.
    destruct (matchGroup (c :: s)) as [[g r]|] eqn:E.
    + pose proof (matchGroup_length _ _ _ E) as L.
      apply matchGroup_sound in E as [W E].
      destruct (IH (length r)) with (payload := r)
        as (j0 & rest & -> & J & F & M); [lia | reflexivity |].
      exists [], ((g, j0) :: rest).
      rewrite E, weave_group.
      split; [reflexivity|]. split; [now simp matchGlobal|]. split.
      * constructor; [split; assumption | exact F].
      * simpl. now rewrite M.
    + destruct (IH (length s)) with (payload := s)
        as (j0 & rest & -> & J & F & M); [simpl in Hn; lia | reflexivity |].
      exists (c :: j0), rest. rewrite weave_cons.
      split; [reflexivity|]. split; [|split].
      * rewrite matchGlobal_cons.
        destruct (matchGroup (c :: j0)) as [[g r]|] eqn:E'; [|exact J].
        apply (matchGroup_app _
                 (concat (map (fun gj => groupText (fst gj) ++ snd gj) rest)))
          in E'.
        change ((c :: j0) ++ concat (map (fun gj => groupText (fst gj) ++ snd gj) rest))
          with (c :: weave j0 rest) in E'.
        rewrite E in E'. discriminate E'.
      * exact F.
      * exact M.
Qed.

Lemma parseInt_nonneg ds : (0 <= parseInt ds)%Z.
Proof.
  assert (G : forall l acc, (0 <= acc)%Z ->
            (0 <= fold_left (fun a c => 10 * a + digitValue c) l acc)%Z).
  { induction l as [|c l IH]; intros acc A; cbn [fold_left]; [exact A|].
    apply IH. unfold digitValue.
    pose proof (Nat2Z.is_nonneg (nat_of_ascii c - 48)). lia. }
  unfold parseInt. apply G. lia.
Qed.

Lemma onmessage_empty_iff (num : Type) (parseFloat : list ascii -> num)
  (message : string) :
  onmessage parseFloat message [] = []
  <-> matchGlobal (chars message) = [].
Proof.
  unfold chars. rewrite onmessage_unfold.
  pose proof (decode_length _ parseFloat (list_ascii_of_string message)) as L.
  destruct (matchGlobal (list_ascii_of_string message)) as [|m ms].
  - split; reflexivity.
  - split; [|discriminate]. intros Z. rewrite Z in L. discriminate L.
Qed.

Lemma onmessage_nonempty (num : Type) (parseFloat : list ascii -> num)
  (message : string) (keyData : list (KeyData num)) :
  keyData <> [] -> onmessage parseFloat message keyData <> [].
Proof.
  intros NE. rewrite onmessage_unfold.
  pose proof (decode_length _ parseFloat (list_ascii_of_string message)) as L.
  destruct (matchGlobal (list_ascii_of_string message)) as [|m ms];
    [exact NE|].
  intros Z. rewrite Z in L. discriminate L.
Qed.

End DecoderMoreFacts.

Import DecoderMoreFacts.

(** X1: decoding never invents data.  Every payload is, in order, a leading
    fragment and then groups [(digits:text:digits)], each followed by a
    fragment; no fragment holds a match, and the snapshots decoded are
    exactly the readings of these groups, in the order of the payload. *)
Theorem decode_reads_the_groups_of_the_payload :
  forall (num : Type) (parseFloat : list ascii -> num) (payload : list ascii),
  exists j0 rest,
    payload = weave j0 rest
    /\ matchGlobal j0 = []
    /\ Forall (fun gj => wellFormed (fst gj) = true
                         /\ matchGlobal (snd gj) = []) rest
    /\ decode parseFloat payload
       = map (fun gj => toKeyData parseFloat (fst gj)) rest.
Proof.
  intros num parseFloat payload.
  destruct (matchGlobal_weave payload) as (j0 & rest & E & J & F & M).
  exists j0, rest. repeat split; try assumption.
  unfold decode. rewrite M.
  rewrite <- (map_map fst groupText), <- (map_map fst (toKeyData parseFloat)).
  apply parsedKeys_groups.
  clear -F. induction F as [|gj rest [W _] _ IH]; simpl; constructor; auto.
Qed.

(** X2: messages alone never empty the snapshot list.  From the empty list
    of the start, the list stays empty exactly as long as no message holds a
    match; once non-empty it stays non-empty whatever is received. *)
Theorem messages_never_empty_the_snapshots :
  forall (num : Type) (parseFloat : list ascii -> num)
         (messages : list string),
    (receiveAll parseFloat messages [] = []
     <-> Forall (fun m => matchGlobal (chars m) = []) messages)
    /\ (forall keyData,
           keyData <> [] -> receiveAll parseFloat messages keyData <> []).
Proof.
  intros num parseFloat messages.
  assert (N : forall ms keyData,
             keyData <> [] -> receiveAll parseFloat ms keyData <> []).
  { induction ms as [|m ms IH]; intros keyData NE; [exact NE|].
    apply IH. now apply onmessage_nonempty. }
  split; [|apply N].
  induction messages as [|m ms IH]; simpl.
  - split; [constructor | reflexivity].
  - unfold receiveAll in *. simpl.
    destruct (onmessage parseFloat m []) as [|k kd] eqn:E.
    + rewrite IH. apply onmessage_empty_iff in E.
      split; [now constructor | now inversion 1].
    + split.
      * intros Z. exfalso. apply (N ms (k :: kd)); [discriminate | exact Z].
      * inversion 1 as [|? ? M _]; subst.
        apply (onmessage_empty_iff _ parseFloat) in M.
        rewrite M in E. discriminate E.
Qed.

Lemma messages_never_empty_the_snapshots_witness :
  receiveAll decimalValue ["(9:0.61:1)"; ""; "(9:0.61"]%string []
  <> [].
Proof.
  destruct (messages_never_empty_the_snapshots _ decimalValue
              [""; "(9:0.61"]%string) as [_ H].
  apply (H (onmessage decimalValue "(9:0.61:1)" [])).
  vm_compute. discriminate.
Defined.

(** X3: a decoded snapshot never has a negative key code or a negative
    pressed flag. *)
Theorem decoded_codes_and_flags_are_not_negative :
  forall (num : Type) (parseFloat : list ascii -> num) (payload : list ascii),
    Forall (fun k => (0 <= keyCode k)%Z /\ (0 <= isPressed k)%Z)
           (decode parseFloat payload).
Proof.
  intros num parseFloat payload. unfold decode.
  destruct (matchGlobal_groups payload) as (gs & F & ->).
  rewrite (parsedKeys_groups _ parseFloat gs F).
  apply Forall_map. clear F.
  induction gs as [|[[k a] p] gs IH]; constructor; [|exact IH].
  simpl. split; apply parseInt_nonneg.
Qed.

(** * The connection of the hook *)

Module ConnectionFacts.
Import Connection.

Lemma length_update (A : Type) (i : nat) (x : A) (l : list A) :
  length (update i x l) = length l.
Proof.
  revert i. induction l as [|y l IH]; intros [|i]; simpl; auto.
Qed.

Lemma nth_error_update (A : Type) (i : nat) (x y : A) (l : list A) :
  nth_error l i = Some y -> nth_error (update i x l) i = Some x.
Proof.
  revert i. induction l as [|z l IH]; intros [|i]; simpl;
    try discriminate; auto.
Qed.

Lemma nth_error_length (A : Type) (l : list A) (x : A) :
  nth_error (l ++ [x]) (length l) = Some x.
Proof. induction l; simpl; auto. Qed.

(** A close event on a socket that is not closed yet sets the status and
    arms a timer whose handle is kept. *)
Lemma closed_arms_timer (num : Type) (h : State num) i r :
  nth_error (sockets h) i = Some r -> r <> CLOSED ->
  closed i h
  = mkState (keyData h) disconnected (update i CLOSED (sockets h)) (ws h)
            (Some (nextHandle h)) (pending h ++ [nextHandle h])
            (S (nextHandle h)).
Proof.
  intros N C. unfold closed. rewrite N. destruct r; try reflexivity.
  contradiction.
Qed.

(** A timer that is pending fires: unless the current socket is open, the
    hook connects. *)
Lemma timeout_connects (num : Type) (h : State num) t :
  In t (pending h) -> isOpen (readyState h) = false ->
  timeout t true h
  = mkState (keyData h) connecting (sockets h ++ [CONNECTING])
            (Some (length (sockets h))) (reconnectTimeoutRef h)
            (remove Nat.eq_dec t (pending h)) (nextHandle h).
Proof.
  intros I O. unfold timeout.
  destruct (in_dec Nat.eq_dec t (pending h)) as [_|N]; [|contradiction].
  unfold connect, readyState in *. cbn [ws sockets]. rewrite O. reflexivity.
Qed.

Lemma timeout_not_pending (num : Type) (h : State num) t c :
  ~ In t (pending h) -> timeout t c h = h.
Proof.
  intros N. unfold timeout.
  destruct (in_dec Nat.eq_dec t (pending h)); [contradiction | reflexivity].
Qed.

End ConnectionFacts.

Import ConnectionFacts.

(** X4: the hook retries after a close.  When the current socket, not yet
    closed, is closed, the status becomes [disconnected] and a timer is
    armed; when that timer fires the hook connects again: the status is
    [connecting] and [ws.current] is a new socket, the snapshots being
    kept.  While the current socket is open, neither [connect] nor a
    reconnect timer creates a socket or changes the status. *)
Theorem hook_reconnects_after_close :
  forall (num : Type) (h : Connection.State num) (i : nat)
         (r : Connection.ReadyState),
    Connection.ws h = Some i ->
    nth_error (Connection.sockets h) i = Some r ->
    r <> Connection.CLOSED ->
    let h1 := Connection.closed i h in
    let h2 := Connection.timeout (Connection.nextHandle h) true h1 in
    Connection.connectionStatus h1 = Connection.disconnected
    /\ In (Connection.nextHandle h) (Connection.pending h1)
    /\ Connection.connectionStatus h2 = Connection.connecting
    /\ Connection.ws h2 = Some (length (Connection.sockets h))
    /\ nth_error (Connection.sockets h2) (length (Connection.sockets h))
       = Some Connection.CONNECTING
    /\ Connection.keyData h2 = Connection.keyData h
    /\ (forall (h' : Connection.State num) t c,
           Connection.isOpen (Connection.readyState h') = true ->
           Connection.connect c h' = h'
           /\ Connection.sockets (Connection.timeout t c h')
              = Connection.sockets h'
           /\ Connection.connectionStatus (Connection.timeout t c h')
              = Connection.connectionStatus h'
           /\ Connection.ws (Connection.timeout t c h') = Connection.ws h').
Proof.
  intros num h i r W N C h1 h2. subst h1 h2.
  rewrite (closed_arms_timer num h i r N C).
  rewrite timeout_connects.
  - cbn [Connection.connectionStatus Connection.pending Connection.ws
         Connection.sockets Connection.keyData].
    rewrite length_update.
    split; [reflexivity|]. split; [apply in_or_app; right; now left|].
    split; [reflexivity|]. split; [reflexivity|].
    split.
    { rewrite <- (length_update _ i Connection.CLOSED (Connection.sockets h)).
      apply nth_error_length. }
    split; [reflexivity|].
    intros h' t c O. unfold Connection.connect, Connection.timeout.
    rewrite O. split; [reflexivity|].
    destruct (in_dec Nat.eq_dec t (Connection.pending h')); [|auto].
    unfold Connection.readyState in *.
    cbn [Connection.ws Connection.sockets]. rewrite O. auto.
  - cbn [Connection.pending]. apply in_or_app. right. now left.
  - unfold Connection.readyState. cbn [Connection.ws Connection.sockets].
    rewrite W, (nth_error_update _ i Connection.CLOSED r _ N). reflexivity.
Qed.

Lemma hook_reconnects_after_close_witness :
  let h := Connection.opened 0
             (Connection.connect true (@Connection.initial Q)) in
  let h2 := Connection.timeout 1 true (Connection.closed 0 h) in
  Connection.connectionStatus h = Connection.connected
  /\ Connection.connectionStatus h2 = Connection.connecting
  /\ Connection.ws h2 = Some 1%nat.
Proof.
  intros h h2. split; [reflexivity|].
  destruct (hook_reconnects_after_close Q h 0%nat Connection.OPEN
              eq_refl eq_refl) as (_ & _ & S & W & _).
  - discriminate.
  - split; [exact S | exact W].
Defined.

(** X5: [disconnect] empties the snapshots, sets the status to
    [disconnected], forgets the socket and starts closing it; but the close
    event of that socket arms the reconnect timer again, and when it fires
    the hook connects to a new socket. *)
Theorem disconnect_is_followed_by_a_reconnect :
  forall (num : Type) (h : Connection.State num) (i : nat)
         (r : Connection.ReadyState),
    Connection.ws h = Some i ->
    nth_error (Connection.sockets h) i = Some r ->
    r = Connection.OPEN \/ r = Connection.CONNECTING ->
    let h1 := Connection.disconnect h in
    let h2 := Connection.closed i h1 in
    let h3 := Connection.timeout (Connection.nextHandle h) true h2 in
    Connection.keyData h1 = []
    /\ Connection.connectionStatus h1 = Connection.disconnected
    /\ Connection.ws h1 = None
    /\ nth_error (Connection.sockets h1) i = Some Connection.CLOSING
    /\ Connection.connectionStatus h3 = Connection.connecting
    /\ Connection.ws h3 = Some (length (Connection.sockets h))
    /\ nth_error (Connection.sockets h3) (length (Connection.sockets h))
       = Some Connection.CONNECTING.
Proof.
  intros num h i r W N R h1 h2 h3.
  assert (S1 : Connection.sockets h1
               = Connection.update i Connection.CLOSING (Connection.sockets h)).
  { subst h1. unfold Connection.disconnect. cbn [Connection.sockets].
    rewrite W, N. now destruct R as [-> | ->]. }
  assert (N1 : nth_error (Connection.sockets h1) i = Some Connection.CLOSING).
  { rewrite S1. eapply nth_error_update; eassumption. }
  assert (L1 : length (Connection.sockets h1) = length (Connection.sockets h)).
  { rewrite S1. apply length_update. }
  repeat (split; [reflexivity || exact N1|]).
  subst h3 h2.
  rewrite (closed_arms_timer num h1 i Connection.CLOSING N1)
    by discriminate.
  change (Connection.nextHandle h1) with (Connection.nextHandle h).
  rewrite timeout_connects.
  - cbn [Connection.connectionStatus Connection.ws Connection.sockets].
    rewrite length_update, L1.
    repeat split.
    rewrite <- L1,
      <- (length_update _ i Connection.CLOSED (Connection.sockets h1)).
    apply nth_error_length.
  - cbn [Connection.pending]. apply in_or_app. right. now left.
  - reflexivity.
Qed.

Lemma disconnect_is_followed_by_a_reconnect_witness :
  let h := Connection.opened 0
             (Connection.connect true (@Connection.initial Q)) in
  let h3 := Connection.timeout 1 true
              (Connection.closed 0 (Connection.disconnect h)) in
  Connection.connectionStatus h3 = Connection.connecting
  /\ Connection.ws h3 = Some 1%nat.
Proof.
  intros h h3.
  destruct (disconnect_is_followed_by_a_reconnect Q h 0%nat Connection.OPEN
              eq_refl eq_refl (or_introl eq_refl))
    as (_ & _ & _ & _ & S & W & _).
  split; [exact S | exact W].
Defined.

(** X6: a [disconnect] during the wait for a retry stops the retry.  When
    the current socket has been closed and the timer this armed is the only
    one pending, [disconnect] clears it: afterwards no timer can fire, a
    further close event of that socket does nothing, and the hook stays
    [disconnected] with no socket. *)
Theorem disconnect_during_the_wait_stops_the_retry :
  forall (num : Type) (h : Connection.State num) (i : nat)
         (r : Connection.ReadyState),
    Connection.ws h = Some i ->
    nth_error (Connection.sockets h) i = Some r ->
    r <> Connection.CLOSED ->
    Connection.pending h = [] ->
    Connection.nextHandle h <> 0%nat ->
    let h2 := Connection.disconnect (Connection.closed i h) in
    Connection.pending h2 = []
    /\ Connection.connectionStatus h2 = Connection.disconnected
    /\ Connection.ws h2 = None
    /\ Connection.keyData h2 = []
    /\ (forall t c, Connection.timeout t c h2 = h2)
    /\ Connection.closed i h2 = h2.
Proof.
  intros num h i r W N C P Z h2. subst h2.
  rewrite (closed_arms_timer num h i r N C).
  assert (N' : nth_error (Connection.update i Connection.CLOSED
                            (Connection.sockets h)) i
               = Some Connection.CLOSED)
    by (eapply nth_error_update; eassumption).
  unfold Connection.disconnect.
  cbn [Connection.reconnectTimeoutRef Connection.pending Connection.ws
       Connection.sockets Connection.keyData Connection.nextHandle].
  rewrite W, N', P. apply Nat.eqb_neq in Z. rewrite Z.
  cbn [app remove Connection.close].
  destruct (Nat.eq_dec (Connection.nextHandle h) (Connection.nextHandle h))
    as [_|F]; [|contradiction].
  cbn [Connection.connectionStatus Connection.pending Connection.ws
       Connection.keyData].
  do 4 (split; [reflexivity|]). split.
  - intros t c. now apply timeout_not_pending.
  - unfold Connection.closed. cbn [Connection.sockets].
    assert (U : nth_error
                  (Connection.update i Connection.CLOSED
                     (Connection.update i Connection.CLOSED
                        (Connection.sockets h))) i
                = Some Connection.CLOSED)
      by (eapply nth_error_update; eassumption).
    now rewrite U.
Qed.

Lemma disconnect_during_the_wait_stops_the_retry_witness :
  let h := Connection.opened 0
             (Connection.connect true (@Connection.initial Q)) in
  let h2 := Connection.disconnect (Connection.closed 0 h) in
  Connection.timeout 1 true h2 = h2
  /\ Connection.connectionStatus h2 = Connection.disconnected.
Proof.
  intros h h2.
  destruct (disconnect_during_the_wait_stops_the_retry Q h 0%nat
              Connection.OPEN eq_refl eq_refl)
    as (_ & S & _ & _ & T & _).
  - discriminate.
  - reflexivity.
  - discriminate.
  - split; [apply T | exact S].
Defined.

(** * The key shown and the verdict *)

Module KeyFacts.

Lemma find_pressed_first (code : Z) (keyData : list (KeyData Q)) (k : KeyData Q) :
  find (fun x => (keyCode x =? code)%Z) keyData = Some k ->
  isPressed k = 1%Z ->
  find (fun x => (keyCode x =? code)%Z && (isPressed x =? 1)%Z) keyData
  = Some k.
Proof.
  intros F P. induction keyData as [|x l IH]; simpl in *; [discriminate|].
  destruct (keyCode x =? code)%Z.
  - injection F as ->. now rewrite P.
  - simpl. auto.
Qed.

Lemma find_absent (code : Z) (keyData : list (KeyData Q)) :
  find (fun x => (keyCode x =? code)%Z) keyData = None ->
  find (fun x => (keyCode x =? code)%Z && (isPressed x =? 1)%Z) keyData
  = None.
Proof.
  induction keyData as [|x l IH]; simpl; [reflexivity|].
  destruct (keyCode x =? code)%Z; [discriminate | simpl; auto].
Qed.

End KeyFacts.

(** X7: the key the component shows agrees with the evaluator.  When the
    first snapshot of the target's key is pressed, it is the sample the
    dwell evaluator reads, and the key is shown in the state [success]
    exactly when that sample would resolve as a success, [error] otherwise;
    when no snapshot has the target's key, the key is shown as [target] and
    the evaluator sees no press. *)
Theorem shown_key_state_is_the_verdict :
  forall (currentTarget : TestSequence.t) (keyData : list (KeyData Q)),
    (forall k,
        KeyboardKey.getCurrentKeyPress (TestSequence.keyCode currentTarget)
                                       keyData = Some k ->
        isPressed k = 1%Z ->
        Dwell.correctKeyPress currentTarget keyData = Some k
        /\ KeyboardKey.targetKeyState currentTarget keyData
           = (if isSuccess (dwellOutcome currentTarget k)
              then "success" else "error")%string)
    /\ (KeyboardKey.getCurrentKeyPress (TestSequence.keyCode currentTarget)
                                       keyData = None ->
        Dwell.correctKeyPress currentTarget keyData = None
        /\ KeyboardKey.targetKeyState currentTarget keyData = "target"%string).
Proof.
  intros currentTarget keyData. split.
  - intros k F P. split.
    + now apply KeyFacts.find_pressed_first.
    + unfold KeyboardKey.targetKeyState, KeyboardKey.getKeyState.
      rewrite F, P. reflexivity.
  - intros F. split.
    + now apply KeyFacts.find_absent.
    + unfold KeyboardKey.targetKeyState. now rewrite F.
Qed.

Lemma shown_key_state_is_the_verdict_witness :
  KeyboardKey.targetKeyState (TestSequence.mk "f" 9 60)
                             [mkKeyData 22 0 0; mkKeyData 9 0.61 1]
  = "success"%string.
Proof.
  exact (proj2 (proj1 (shown_key_state_is_the_verdict
                         (TestSequence.mk "f" 9 60)
                         [mkKeyData 22 0 0; mkKeyData 9 0.61 1])
                      (mkKeyData 9 0.61 1) eq_refl eq_refl)).
Defined.

(** * What a run of an evaluator accounts for *)

Module EffectFacts.

Lemma runEvents_cons {State Event Out : Type}
  (step : Event -> State -> State * option Out) e events s :
  runEvents step (e :: events) s
  = (fst (runEvents step events (fst (step e s))),
     match snd (step e s) with
     | Some a => a :: snd (runEvents step events (fst (step e s)))
     | None => snd (runEvents step events (fst (step e s)))
     end).
Proof.
  cbn [runEvents]. destruct (step e s) as [s1 out]. cbn [fst snd].
  now destruct (runEvents step events s1).
Qed.

Section DwellEffect.
Import Dwell.

(** What a run of the effect does to the statistics, the index and the
    timers. *)
Lemma dwell_effect_accounts now keyData s :
  currentIndex (fst (effect now keyData s)) = currentIndex s
  /\ match snd (effect now keyData s) with
     | Some a =>
         0 <= deviation a
         /\ testStats (fst (effect now keyData s))
            = updateStats (deviation a) (isSuccess a) (testStats s)
         /\ timers (fst (effect now keyData s))
            = timers s ++ [(now + 3000)%Z]
         /\ cooldownUntil (fst (effect now keyData s)) = Some (now + 3000)%Z
         /\ holdStartTime (fst (effect now keyData s)) = None
     | None =>
         testStats (fst (effect now keyData s)) = testStats s
         /\ timers (fst (effect now keyData s)) = timers s
         /\ cooldownUntil (fst (effect now keyData s)) = cooldownUntil s
     end.
Proof.
  unfold effect.
  destruct (negb (isTestActive s)
            || (length (testSequence s) <=? currentIndex s)%nat);
    [repeat split|].
  destruct (cooling now (cooldownUntil s)); [repeat split|].
  destruct (nth_error (testSequence s) (currentIndex s)) as [currentTarget|];
    [|repeat split].
  cbv zeta.
  destruct (wrongKeyPress currentTarget keyData).
  { unfold handleAttempt. cbn [fst snd deviation]. repeat split. discriminate. }
  destruct (correctKeyPress currentTarget keyData) as [k|]; [|repeat split].
  destruct (Qle_bool _ _);
    (destruct (negb (truthy (holdStartTime s))); [repeat split|]);
    (destruct (750 <=? now - valueOf (holdStartTime s))%Z; [|repeat split]);
    unfold handleAttempt; cbn [fst snd deviation]; repeat split;
    apply Qabs_nonneg.
Qed.

End DwellEffect.

Section PeakEffect.
Import Peak.

Lemma peak_effect_accounts now keyData s :
  currentIndex (fst (effect now keyData s)) = currentIndex s
  /\ match snd (effect now keyData s) with
     | Some a =>
         0 <= deviation a
         /\ testStats (fst (effect now keyData s))
            = updateStats (deviation a) (isSuccess a) (testStats s)
         /\ timers (fst (effect now keyData s))
            = timers s ++ [(now + 3000)%Z]
         /\ cooldownUntil (fst (effect now keyData s)) = Some (now + 3000)%Z
     | None =>
         testStats (fst (effect now keyData s)) = testStats s
         /\ timers (fst (effect now keyData s)) = timers s
         /\ cooldownUntil (fst (effect now keyData s)) = cooldownUntil s
     end.
Proof.
  unfold effect.
  destruct (negb (isTestActive s)
            || (length (testSequence s) <=? currentIndex s)%nat);
    [repeat split|].
  destruct (cooling now (cooldownUntil s)); [repeat split|].
  destruct (nth_error (testSequence s) (currentIndex s)) as [currentTarget|];
    [|repeat split].
  cbv zeta.
  destruct (otherPressed currentTarget keyData).
  { unfold handleAttempt. cbn [fst snd deviation]. repeat split. discriminate. }
  assert (R : forall r,
             r = (if keyHeld s
                  then let (s', a) :=
                         handleAttempt now
                           (Qabs (maxAnalog s * 100
                                  - TestSequence.targetPressure currentTarget))
                           (Qle_bool
                              (Qabs (maxAnalog s * 100
                                     - TestSequence.targetPressure currentTarget))
                              10)
                           (if Qle_bool
                                 (Qabs (maxAnalog s * 100
                                        - TestSequence.targetPressure
                                            currentTarget)) 10
                            then "Good!" else "Missed target") s in
                       (setMaxAnalog 0 (setKeyHeld false s'), a)
                  else (s, None)) ->
             currentIndex (fst r) = currentIndex s
             /\ match snd r with
                | Some a =>
                    0 <= deviation a
                    /\ testStats (fst r)
                       = updateStats (deviation a) (isSuccess a) (testStats s)
                    /\ timers (fst r) = timers s ++ [(now + 3000)%Z]
                    /\ cooldownUntil (fst r) = Some (now + 3000)%Z
                | None =>
                    testStats (fst r) = testStats s
                    /\ timers (fst r) = timers s
                    /\ cooldownUntil (fst r) = cooldownUntil s
                end).
  { intros r ->. destruct (keyHeld s); [|repeat split].
    unfold handleAttempt. cbn [fst snd deviation]. repeat split.
    apply Qabs_nonneg. }
  destruct (keyEvent currentTarget keyData) as [k|]; [|now apply R].
  destruct (negb (isPressed k =? 0)%Z); [repeat split | now apply R].
Qed.

End PeakEffect.

End EffectFacts.

Import EffectFacts.

(** * Holds, releases and the cooldown *)

Module HoldFacts.
Import PeakFacts.

Lemma instant_run_cons tick ticks s :
  Instant.run (tick :: ticks) s
  = (fst (Instant.run ticks (fst (Instant.effect (fst tick) (snd tick) s))),
     match snd (Instant.effect (fst tick) (snd tick) s) with
     | Some a =>
         a :: snd (Instant.run ticks
                     (fst (Instant.effect (fst tick) (snd tick) s)))
     | None =>
         snd (Instant.run ticks (fst (Instant.effect (fst tick) (snd tick) s)))
     end).
Proof.
  unfold Instant.run.
  exact (runEvents_cons (fun t => Instant.effect (fst t) (snd t)) tick ticks s).
Qed.

Lemma peak_run_cons tick ticks s :
  PeakSession.run (tick :: ticks) s
  = (fst (PeakSession.run ticks (fst (Peak.effect (fst tick) (snd tick) s))),
     match snd (Peak.effect (fst tick) (snd tick) s) with
     | Some a =>
         a :: snd (PeakSession.run ticks
                     (fst (Peak.effect (fst tick) (snd tick) s)))
     | None =>
         snd (PeakSession.run ticks (fst (Peak.effect (fst tick) (snd tick) s)))
     end).
Proof.
  unfold PeakSession.run.
  exact (runEvents_cons (fun t => Peak.effect (fst t) (snd t)) tick ticks s).
Qed.

(** In the first variant, a run that sees the target pressed scores. *)
Lemma instant_effect_pressed now keyData s currentTarget k :
  Instant.isTestActive s = true ->
  nth_error (Instant.testSequence s) (Instant.currentIndex s)
  = Some currentTarget ->
  Dwell.correctKeyPress currentTarget keyData = Some k ->
  Instant.effect now keyData s
  = (Instant.mkState (Instant.testSequence s) (Instant.currentIndex s)
       (Instant.isTestActive s)
       (updateStats (deviationOf currentTarget k)
          (Qle_bool (deviationOf currentTarget k) 10) (Instant.testStats s))
       (Instant.attempts s ++ [deviationOf currentTarget k])
       (Instant.timers s ++ [(now + 500)%Z]),
     Some (mkAttempt (deviationOf currentTarget k)
             (Qle_bool (deviationOf currentTarget k) 10)
             (if Qle_bool (deviationOf currentTarget k) 10
              then "Perfect!" else "Miss"))).
Proof.
  intros A N K. unfold Instant.effect.
  rewrite A, (nth_error_inside _ _ _ N), N. cbn [negb orb].
  unfold Dwell.correctKeyPress in K. rewrite K. reflexivity.
Qed.

Lemma dwell_run_silent now keyData ticks s s1 :
  Dwell.effect now keyData s = (s1, None) ->
  Dwell.run ((now, keyData) :: ticks) s = Dwell.run ticks s1.
Proof.
  intros E. cbn [Dwell.run]. rewrite E. now destruct (Dwell.run ticks s1).
Qed.

Lemma dwell_setHoldStartTime_twice v w s :
  Dwell.setHoldStartTime v (Dwell.setHoldStartTime w s)
  = Dwell.setHoldStartTime v s.
Proof. reflexivity. Qed.

(** While a cooldown runs, runs of the effect change and resolve nothing. *)
Lemma dwell_run_cooling deadline ticks s :
  Dwell.cooldownUntil s = Some deadline -> deadline <> 0%Z ->
  Forall (fun tick => (fst tick < deadline)%Z) ticks ->
  Dwell.run ticks s = (s, []).
Proof.
  intros C Z F. induction F as [|[now kd] ticks L _ IH]; [reflexivity|].
  cbn [Dwell.run]. rewrite dwell_effect_cooling, IH; [reflexivity|].
  rewrite C. unfold cooling, truthy, valueOf.
  apply Z.eqb_neq in Z. apply Z.ltb_lt in L. cbn [fst] in L. now rewrite Z, L.
Qed.

Lemma peak_run_cooling deadline ticks s :
  Peak.cooldownUntil s = Some deadline -> deadline <> 0%Z ->
  Forall (fun tick => (fst tick < deadline)%Z) ticks ->
  PeakSession.run ticks s = (s, []).
Proof.
  intros C Z F. induction F as [|[now kd] ticks L _ IH]; [reflexivity|].
  rewrite peak_run_cons. cbn [fst snd].
  rewrite peak_effect_cooling; [cbn [fst snd]; now rewrite IH|].
  rewrite C. unfold cooling, truthy, valueOf.
  apply Z.eqb_neq in Z. apply Z.ltb_lt in L. cbn [fst] in L. now rewrite Z, L.
Qed.

(** The tracked peak is at least the value it started from and at least
    every sample. *)
Lemma peakOf_bounds currentTarget holds m0 :
  m0 <= peakOf currentTarget m0 holds
  /\ Forall (fun tick => sampleOf currentTarget (snd tick)
                         <= peakOf currentTarget m0 holds) holds.
Proof.
  revert m0. induction holds as [|tick holds IH]; intros m0.
  - split; [apply Qle_refl | constructor].
  - unfold peakOf in *. cbn [fold_left].
    destruct (IH (Qmax m0 (sampleOf currentTarget (snd tick)))) as [L F].
    split; [|constructor; [|exact F]].
    + eapply Qle_trans; [apply Q.le_max_l | exact L].
    + eapply Qle_trans; [apply Q.le_max_r | exact L].
Qed.

(** Runs that see the target held raise the peak and resolve nothing. *)
Lemma peak_run_held currentTarget holds s :
  Peak.isTestActive s = true ->
  nth_error (Peak.testSequence s) (Peak.currentIndex s) = Some currentTarget ->
  Peak.cooldownUntil s = None ->
  holds <> [] ->
  Forall (fun tick => peakHeld currentTarget (snd tick)) holds ->
  PeakSession.run holds s
  = (Peak.setMaxAnalog (peakOf currentTarget (Peak.maxAnalog s) holds)
       (Peak.setKeyHeld true s), []).
Proof.
  intros A N C NE F. revert s A N C NE.
  induction F as [|[now kd] holds [O (k & K & P)] F IH]; intros s A N C NE;
    [contradiction|].
  rewrite peak_run_cons. cbn [fst snd] in *.
  assert (E : Peak.effect now kd s
              = (Peak.setMaxAnalog (Qmax (Peak.maxAnalog s) (analogValue k))
                   (Peak.setKeyHeld true s), None)).
  { unfold Peak.effect. rewrite A, (nth_error_inside _ _ _ N), C, N.
    cbn [negb orb cooling truthy andb]. cbv zeta. rewrite O, K.
    apply Z.eqb_neq in P. now rewrite P. }
  rewrite E. cbn [fst snd].
  assert (V : sampleOf currentTarget kd = analogValue k)
    by (unfold sampleOf; now rewrite K).
  unfold peakOf. cbn [fold_left snd]. rewrite V.
  destruct holds as [|tick' holds'].
  - reflexivity.
  - rewrite IH; [reflexivity | exact A | exact N | exact C | discriminate].
Qed.

End HoldFacts.

Import HoldFacts.

(** X12: the first variant has no cooldown.  While the test is active on a
    target, every run of its effect that sees the target key pressed scores
    one more attempt on that same target and sets one more timer of 500 ms;
    the index does not move until a timer fires. *)
Theorem instant_scores_every_pressed_snapshot :
  forall (s : Instant.State) (currentTarget : TestSequence.t)
         (ticks : list (Z * list (KeyData Q))),
    Instant.isTestActive s = true ->
    nth_error (Instant.testSequence s) (Instant.currentIndex s)
    = Some currentTarget ->
    Forall (fun tick => Dwell.correctKeyPress currentTarget (snd tick) <> None)
           ticks ->
    let r := Instant.run ticks s in
    length (snd r) = length ticks
    /\ Instant.currentIndex (fst r) = Instant.currentIndex s
    /\ Instant.timers (fst r)
       = Instant.timers s ++ map (fun tick => (fst tick + 500)%Z) ticks
    /\ totalAttempts (Instant.testStats (fst r))
       = (totalAttempts (Instant.testStats s) + length ticks)%nat.
Proof.
  intros s currentTarget ticks A N F. revert s A N.
  induction F as [|[now kd] ticks K _ IH]; intros s A N r; subst r.
  - cbn. rewrite app_nil_r. repeat split. lia.
  - rewrite instant_run_cons. cbn [fst snd] in *.
    destruct (Dwell.correctKeyPress currentTarget kd) as [k|] eqn:E;
      [|contradiction].
    rewrite (instant_effect_pressed now kd s currentTarget k A N E).
    cbn [fst snd].
    match goal with
    | |- context [Instant.run ticks ?s1] =>
        destruct (IH s1 A N) as (L & I & T & S)
    end.
    cbn [Instant.currentIndex Instant.timers Instant.testStats totalAttempts
         updateStats] in I, T, S.
    cbn [length map fst]. rewrite L, I, T, S.
    rewrite <- app_assoc. repeat split. lia.
Qed.

Lemma instant_scores_every_pressed_snapshot_witness :
  let s := Instant.startTest true (Instant.mount (fun _ => 1 # 2)) in
  let keyData := [mkKeyData 9 0.61 1] in
  let r := Instant.run [(1000, keyData); (1010, keyData); (1020, keyData)]%Z s in
  length (snd r) = 3%nat /\ Instant.currentIndex (fst r) = 0%nat.
Proof.
  intros s keyData r.
  destruct (instant_scores_every_pressed_snapshot s (TestSequence.mk "f" 9 60)
              [(1000, keyData); (1010, keyData); (1020, keyData)]%Z
              eq_refl eq_refl) as (L & I & _).
  - repeat constructor; discriminate.
  - split; [exact L | exact I].
Defined.

(** X13: nothing happens during the cooldown.  In the dwell and the peak
    variant, once a run of the effect has resolved an attempt at time
    [now], the runs before [now + 3000], whatever the snapshots, leave the
    state as it is and resolve nothing. *)
Theorem cooldown_ignores_every_snapshot :
  (forall s now keyData a ticks,
      snd (Dwell.effect now keyData s) = Some a ->
      (now + 3000 <> 0)%Z ->
      Forall (fun tick => (fst tick < now + 3000)%Z) ticks ->
      Dwell.run ticks (fst (Dwell.effect now keyData s))
      = (fst (Dwell.effect now keyData s), []))
  /\ (forall s now keyData a ticks,
         snd (Peak.effect now keyData s) = Some a ->
         (now + 3000 <> 0)%Z ->
         Forall (fun tick => (fst tick < now + 3000)%Z) ticks ->
         PeakSession.run ticks (fst (Peak.effect now keyData s))
         = (fst (Peak.effect now keyData s), [])).
Proof.
  split; intros s now keyData a ticks E Z F.
  - apply (dwell_run_cooling (now + 3000)%Z); [|exact Z | exact F].
    pose proof (dwell_effect_accounts now keyData s) as [_ H].
    rewrite E in H. apply H.
  - apply (peak_run_cooling (now + 3000)%Z); [|exact Z | exact F].
    pose proof (peak_effect_accounts now keyData s) as [_ H].
    rewrite E in H. apply H.
Qed.

Lemma cooldown_ignores_every_snapshot_witness :
  let s := Dwell.startTest true (Dwell.mount (fun _ => 1 # 2)) in
  let s1 := fst (Dwell.effect 1000 [mkKeyData 22 0.9 1] s) in
  let held := [mkKeyData 9 0.61 1] in
  Dwell.run [(1500, held); (3999, held)]%Z s1 = (s1, []).
Proof.
  intros s s1 held.
  refine (proj1 cooldown_ignores_every_snapshot s 1000%Z
            [mkKeyData 22 0.9 1] (mkAttempt 100 false "Wrong key!")
            [(1500, held); (3999, held)]%Z eq_refl _ _).
  - discriminate.
  - repeat constructor.
Defined.

(** X14: a hold interrupted by a release starts over.  In the dwell
    variant, after a first contact at [t0], a run that sees every key
    released, and a new contact at [t2], a run less than 750 ms after [t2]
    resolves nothing, however long ago [t0] was: the hold start is [t2].
    The attempt resolves at the first run 750 ms or more after [t2]. *)
Theorem interrupted_hold_starts_over :
  forall (s : Dwell.State) (currentTarget : TestSequence.t)
         (t0 tr t2 t : Z) (kd0 kdr kd2 kd : list (KeyData Q)),
    Dwell.isTestActive s = true ->
    nth_error (Dwell.testSequence s) (Dwell.currentIndex s)
    = Some currentTarget ->
    Dwell.cooldownUntil s = None ->
    Dwell.holdStartTime s = None ->
    t2 <> 0%Z ->
    targetHeld currentTarget kd0 ->
    allReleased currentTarget kdr ->
    targetHeld currentTarget kd2 ->
    targetHeld currentTarget kd ->
    (t - t2 < 750)%Z ->
    let r := Dwell.run [(t0, kd0); (tr, kdr); (t2, kd2); (t, kd)] s in
    snd r = []
    /\ fst r = Dwell.setHoldStartTime (Some t2) s
    /\ (forall t' kd' k',
           Dwell.wrongKeyPress currentTarget kd' = None ->
           Dwell.correctKeyPress currentTarget kd' = Some k' ->
           (750 <= t' - t2)%Z ->
           snd (Dwell.effect t' kd' (fst r))
           = Some (dwellOutcome currentTarget k')).
Proof.
  intros s currentTarget t0 tr t2 t kd0 kdr kd2 kd A N C T Z2 H0 [Wr Kr] H2 H L r.
  assert (E : forall now v, dwellEvaluating now (Dwell.setHoldStartTime v s)
                                            currentTarget).
  { intros now v. repeat split; try assumption. cbn. now rewrite C. }
  assert (R : r = (Dwell.setHoldStartTime (Some t2) s, [])).
  { subst r.
    rewrite (dwell_run_silent t0 kd0 _ s (Dwell.setHoldStartTime (Some t0) s)).
    2:{ apply (dwell_effect_first_contact t0 kd0 s currentTarget);
          [|exact H0 | now rewrite T].
        repeat split; try assumption. now rewrite C. }
    rewrite (dwell_run_silent tr kdr _ _ (Dwell.setHoldStartTime None s)).
    2:{ rewrite <- (dwell_setHoldStartTime_twice None (Some t0) s).
        exact (dwell_effect_released tr kdr _ currentTarget (E tr (Some t0)) Wr
                 Kr). }
    rewrite (dwell_run_silent t2 kd2 _ _ (Dwell.setHoldStartTime (Some t2) s)).
    2:{ rewrite <- (dwell_setHoldStartTime_twice (Some t2) None s).
        exact (dwell_effect_first_contact t2 kd2 _ currentTarget (E t2 None)
                 H2 eq_refl). }
    rewrite (dwell_run_silent t kd _ _ (Dwell.setHoldStartTime (Some t2) s)).
    2:{ exact (dwell_effect_waiting t kd _ currentTarget t2 (E t (Some t2)) H
                 eq_refl Z2 L). }
    reflexivity. }
  rewrite R. cbn [fst snd]. repeat split.
  intros t' kd' k' W' K' L'.
  now rewrite (dwell_effect_expiry t' kd' _ currentTarget t2 k'
                 (E t' (Some t2)) W' K' eq_refl Z2 L').
Qed.

Lemma interrupted_hold_starts_over_witness :
  let s := Dwell.startTest true (Dwell.mount (fun _ => 1 # 2)) in
  let held := [mkKeyData 9 0.61 1] in
  let released := [mkKeyData 9 0 0] in
  snd (Dwell.run [(1000, held); (1400, released); (1500, held);
                  (2000, held)]%Z s)
  = [].
Proof.
  intros s held released.
  refine (proj1 (interrupted_hold_starts_over s (TestSequence.mk "f" 9 60)
                   1000 1400 1500 2000 held [mkKeyData 9 0 0] held held
                   eq_refl eq_refl eq_refl eq_refl _ _ _ _ _ _)).
  - discriminate.
  - split; [reflexivity | discriminate].
  - split; reflexivity.
  - split; [reflexivity | discriminate].
  - split; [reflexivity | discriminate].
  - reflexivity.
Defined.

Module ReleaseFacts.
Import PeakFacts.

Lemma peak_run_app ticks1 ticks2 s :
  PeakSession.run (ticks1 ++ ticks2) s
  = (fst (PeakSession.run ticks2 (fst (PeakSession.run ticks1 s))),
     snd (PeakSession.run ticks1 s)
     ++ snd (PeakSession.run ticks2 (fst (PeakSession.run ticks1 s)))).
Proof.
  revert s. induction ticks1 as [|tick ticks1 IH]; intros s.
  - cbn [app]. change (PeakSession.run [] s) with (s, @nil Attempt).
    cbn [fst snd app]. now destruct (PeakSession.run ticks2 s).
  - cbn [app]. rewrite !peak_run_cons, IH. cbn [fst snd].
    now destruct (snd (Peak.effect (fst tick) (snd tick) s)).
Qed.

(** A run that sees every key released, after a hold. *)
Lemma peak_effect_release now keyData s currentTarget :
  Peak.isTestActive s = true ->
  nth_error (Peak.testSequence s) (Peak.currentIndex s) = Some currentTarget ->
  Peak.cooldownUntil s = None ->
  Peak.keyHeld s = true ->
  peakReleased currentTarget keyData ->
  Peak.effect now keyData s
  = (let d := Qabs (Peak.maxAnalog s * 100
                    - TestSequence.targetPressure currentTarget) in
     (Peak.setMaxAnalog 0
        (Peak.setKeyHeld false
           (fst (Peak.handleAttempt now d (Qle_bool d 10)
                   (if Qle_bool d 10 then "Good!" else "Missed target") s))),
      Some (mkAttempt d (Qle_bool d 10)
              (if Qle_bool d 10 then "Good!" else "Missed target")))).
Proof.
  intros A N C H [O K]. unfold Peak.effect.
  rewrite A, (nth_error_inside _ _ _ N), C, N, H, O.
  cbn [negb orb cooling truthy andb]. cbv zeta.
  destruct (Peak.keyEvent currentTarget keyData) as [k|].
  - rewrite K. reflexivity.
  - reflexivity.
Qed.

End ReleaseFacts.

Import ReleaseFacts.

(** X15: the peak variant scores the highest value of the hold.  From an
    evaluating state, runs that see the target pressed followed by a run
    that sees every key released resolve exactly one attempt, at the
    release; its deviation is taken from the highest of the value tracked
    before and the samples of the hold, so no sample of the hold lies above
    the value scored.  The release clears the hold and starts the
    cooldown. *)
Theorem release_scores_the_peak_of_the_hold :
  forall (s : Peak.State) (currentTarget : TestSequence.t)
         (holds : list (Z * list (KeyData Q))) (t1 : Z)
         (kd1 : list (KeyData Q)),
    Peak.isTestActive s = true ->
    nth_error (Peak.testSequence s) (Peak.currentIndex s)
    = Some currentTarget ->
    Peak.cooldownUntil s = None ->
    holds <> [] ->
    Forall (fun tick => peakHeld currentTarget (snd tick)) holds ->
    peakReleased currentTarget kd1 ->
    let peak := peakOf currentTarget (Peak.maxAnalog s) holds in
    let deviation :=
      Qabs (peak * 100 - TestSequence.targetPressure currentTarget) in
    let r := PeakSession.run (holds ++ [(t1, kd1)]) s in
    snd r = [mkAttempt deviation (Qle_bool deviation 10)
               (if Qle_bool deviation 10 then "Good!" else "Missed target")]
    /\ Peak.keyHeld (fst r) = false
    /\ Peak.maxAnalog (fst r) = 0
    /\ Peak.cooldownUntil (fst r) = Some (t1 + 3000)%Z
    /\ Peak.timers (fst r) = Peak.timers s ++ [(t1 + 3000)%Z]
    /\ Peak.maxAnalog s <= peak
    /\ Forall (fun tick => sampleOf currentTarget (snd tick) <= peak) holds.
Proof.
  intros s currentTarget holds t1 kd1 A N C NE F R peak deviation r.
  destruct (peakOf_bounds currentTarget holds (Peak.maxAnalog s)) as [B1 B2].
  subst r deviation peak. rewrite peak_run_app.
  rewrite (peak_run_held currentTarget holds s A N C NE F).
  cbn [fst snd app]. rewrite peak_run_cons. cbn [fst snd].
  rewrite (peak_effect_release t1 kd1
             (Peak.setMaxAnalog (peakOf currentTarget (Peak.maxAnalog s) holds)
                (Peak.setKeyHeld true s)) currentTarget A N C eq_refl R).
  cbn -[Qabs Qle_bool Qmult Qminus peakOf]. repeat split; assumption.
Qed.

Lemma release_scores_the_peak_of_the_hold_witness :
  let s := Peak.startTest true (Peak.mount (fun _ => 1 # 2)) in
  let low := [mkKeyData 9 0.3 1] in
  let high := [mkKeyData 9 0.62 1] in
  let released := [mkKeyData 9 0 0] in
  snd (PeakSession.run
         ([(1000, low); (1010, high); (1020, low)] ++ [(1030, released)])%Z s)
  = [mkAttempt (Qabs (Qmax (Qmax (Qmax 0 0.3) 0.62) 0.3 * 100 - 60))
       true "Good!"].
Proof.
  intros s low high released.
  refine (proj1 (release_scores_the_peak_of_the_hold s
                   (TestSequence.mk "f" 9 60)
                   [(1000, low); (1010, high); (1020, low)]%Z 1030%Z released
                   eq_refl eq_refl eq_refl _ _ _)).
  - discriminate.
  - assert (Hl : peakHeld (TestSequence.mk "f" 9 60) low).
    { split; [reflexivity|]. exists (mkKeyData 9 0.3 1).
      split; [reflexivity | discriminate]. }
    assert (Hh : peakHeld (TestSequence.mk "f" 9 60) high).
    { split; [reflexivity|]. exists (mkKeyData 9 0.62 1).
      split; [reflexivity | discriminate]. }
    apply Forall_cons; [exact Hl|]. apply Forall_cons; [exact Hh|].
    apply Forall_cons; [exact Hl|]. apply Forall_nil.
  - split; reflexivity.
Defined.

(** * The draws of the generator *)

Module DrawFacts.

(** [pick] reads the element whose band the scaled draw falls in. *)
Lemma pick_band (A : Type) (arr : list A) (r : Q) (k : nat) :
  band r (length arr) k -> pick arr r = nth_error arr k.
Proof.
  intros [L U]. unfold pick.
  assert (E : Qfloor (r * ofNat (length arr)) = Z.of_nat k).
  { apply Z.le_antisymm.
    - apply Z.lt_succ_r. rewrite Zlt_Qlt.
      eapply Qle_lt_trans; [apply Qfloor_le | exact U].
    - change (Z.of_nat k) with (Z.of_nat k). rewrite <- (Qfloor_Z (Z.of_nat k)).
      now apply Qfloor_resp_le. }
  cbv zeta. rewrite E.
  destruct (Z.ltb_spec (Z.of_nat k) 0) as [|_]; [lia|].
  now rewrite Nat2Z.id.
Qed.

(** A negative scaled draw reads outside the array. *)
Lemma pick_negative (A : Type) (arr : list A) (r : Q) :
  r * ofNat (length arr) < 0 -> pick arr r = None.
Proof.
  intros L. unfold pick. cbv zeta.
  destruct (Z.ltb_spec (Qfloor (r * ofNat (length arr))) 0) as [|G];
    [reflexivity|].
  exfalso. apply (Qlt_irrefl 0).
  eapply Qle_lt_trans; [|exact L].
  eapply Qle_trans; [|apply Qfloor_le].
  change 0 with (inject_Z 0). rewrite <- Zle_Qle. exact G.
Qed.

End DrawFacts.

Import DrawFacts.

(** X16: target [j] of a generated sequence is read from the draws [2j] and
    [2j+1] of [Math.random()] alone.  When the loop starting at iteration
    [i] completes, and the draw [2(i+j)] scaled by 7 falls in the band of
    index [a] and the draw [2(i+j)+1] scaled by the number of levels in the
    band of index [b], element [j] of the sequence has the [a]-th home-row
    key, with its code, and the [b]-th level. *)
Theorem target_is_read_from_its_two_draws :
  forall (levels : list Q) (rand : nat -> Q) (n i j a b : nat)
         (sequence : list TestSequence.t),
    generateFrom levels rand i n = Some sequence ->
    (j < n)%nat ->
    band (rand (2 * (i + j))%nat) (length HOME_ROW_KEYS) a ->
    band (rand (2 * (i + j) + 1)%nat) (length levels) b ->
    exists randomKey randomPressure,
      nth_error HOME_ROW_KEYS a = Some randomKey
      /\ nth_error levels b = Some randomPressure
      /\ nth_error sequence j
         = Some (TestSequence.mk (fst randomKey) (snd randomKey)
                   randomPressure).
Proof.
  intros levels rand n. induction n as [|n IH];
    intros i j a b sequence G J Ba Bb; [lia|].
  cbn [generateFrom] in G.
  destruct (pick HOME_ROW_KEYS (rand (2 * i)%nat)) as [randomKey|] eqn:K;
    [|discriminate].
  destruct (pick levels (rand (2 * i + 1)%nat)) as [randomPressure|] eqn:P;
    [|discriminate].
  destruct (generateFrom levels rand (S i) n) as [rest|] eqn:R;
    [|discriminate].
  injection G as <-.
  destruct j as [|j].
  - rewrite Nat.add_0_r in Ba, Bb.
    rewrite (pick_band _ _ _ _ Ba) in K. rewrite (pick_band _ _ _ _ Bb) in P.
    exists randomKey, randomPressure. repeat split; assumption.
  - replace (i + S j)%nat with (S i + j)%nat in Ba, Bb by lia.
    destruct (IH (S i) j a b rest R ltac:(lia) Ba Bb)
      as (key' & p' & Ka & Pb & E).
    exists key', p'. repeat split; assumption.
Qed.

Lemma target_is_read_from_its_two_draws_witness :
  exists sequence,
    generateFrom [30; 60; 100] (fun _ => 1 # 2) 0 20 = Some sequence
    /\ nth_error sequence 5 = Some (TestSequence.mk "f" 9 60).
Proof.
  destruct (generateFrom [30; 60; 100] (fun _ => 1 # 2) 0 20)
    as [sequence|] eqn:G; [|discriminate G].
  exists sequence. split; [reflexivity|].
  destruct (target_is_read_from_its_two_draws [30; 60; 100] (fun _ => 1 # 2)
              20 0 5 3 1 sequence G)
    as (randomKey & randomPressure & K & P & E).
  - lia.
  - split; [discriminate | reflexivity].
  - split; [discriminate | reflexivity].
  - injection K as <-. injection P as <-. exact E.
Defined.

(** X17: a click on a level button restarts the sequence and nothing else.
    Choosing a level count other than the current one, with draws of
    [Math.random()] in [0, 1), stores the count, generates 20 targets at the
    levels of that count and sets the index to 0; the statistics, the
    active flag, the cooldown, the tracked hold and the pending timers stay
    as they were, so a timer pending at the click moves the index of the
    new sequence to 1. *)
Theorem choosing_levels_restarts_the_sequence_only :
  forall (rand : nat -> Q) (count : Z) (s : Peak.State),
    (forall j, unitInterval (rand j)) ->
    count <> Peak.levelCount s ->
    let s' := PeakLevels.selectLevels count rand s in
    Peak.levelCount s' = count
    /\ length (Peak.testSequence s') = 20%nat
    /\ Forall (validTarget (Peak.levels count)) (Peak.testSequence s')
    /\ Peak.currentIndex s' = 0%nat
    /\ Peak.testStats s' = Peak.testStats s
    /\ Peak.isTestActive s' = Peak.isTestActive s
    /\ Peak.cooldownUntil s' = Peak.cooldownUntil s
    /\ Peak.maxAnalog s' = Peak.maxAnalog s
    /\ Peak.keyHeld s' = Peak.keyHeld s
    /\ Peak.timers s' = Peak.timers s
    /\ (Peak.timers s <> [] ->
        Peak.currentIndex (Peak.fireTimer s') = 1%nat
        /\ Peak.testSequence (Peak.fireTimer s') = Peak.testSequence s').
Proof.
  intros rand count s R D s'. subst s'. unfold PeakLevels.selectLevels.
  apply Z.eqb_neq in D. rewrite D. unfold Peak.generateTestSequence.
  cbn [Peak.levelCount PeakLevels.setLevelCount].
  destruct (generateFrom_valid (Peak.levels count) rand
              (levels_nonempty count) R 20%nat 0%nat)
    as (sequence & -> & L & F).
  cbn. repeat (split; [first [reflexivity | assumption]|]).
  intros T. unfold Peak.fireTimer. cbn.
  destruct (Peak.timers s); [contradiction|]. split; reflexivity.
Qed.

Lemma choosing_levels_restarts_the_sequence_only_witness :
  let s := Peak.startTest true (Peak.mount (fun _ => 1 # 2)) in
  let s' := PeakLevels.selectLevels 2 (fun _ => 1 # 4) s in
  Peak.levelCount s' = 2%Z
  /\ Forall (validTarget [50; 100]) (Peak.testSequence s')
  /\ Peak.isTestActive s' = true.
Proof.
  intros s s'.
  destruct (choosing_levels_restarts_the_sequence_only (fun _ => 1 # 4) 2 s)
    as (C & _ & F & _ & _ & A & _).
  - intros j. split; [discriminate | reflexivity].
  - discriminate.
  - split; [exact C | split; [exact F | exact A]].
Defined.

(** * Arithmetic on numbers that need not be finite *)

Module JsFacts.

Lemma ofNat_nonneg n : 0 <= ofNat n.
Proof. unfold ofNat, Qle. simpl. lia. Qed.

Lemma ofNat_succ_pos n : 0 < ofNat (n + 1).
Proof. unfold ofNat, Qlt. simpl. lia. Qed.

Lemma ofNat_succ_eqb_zero n : Qeq_bool (ofNat (n + 1)) 0 = false.
Proof.
  destruct (Qeq_bool (ofNat (n + 1)) 0) eqn:E; [|reflexivity].
  apply Qeq_bool_eq in E. pose proof (ofNat_succ_pos n) as P.
  rewrite E in P. discriminate P.
Qed.

Lemma sign_ofNat_succ n : Js.sign (ofNat (n + 1)) = Gt.
Proof. unfold Js.sign. apply Qgt_alt. apply ofNat_succ_pos. Qed.

Lemma sign_ofNat n : Js.sign (ofNat n) <> Lt.
Proof.
  unfold Js.sign. intros L. apply Qlt_alt in L.
  apply (Qlt_irrefl 0). eapply Qle_lt_trans; [apply ofNat_nonneg | exact L].
Qed.

Lemma notNegative_abs x : notNegative (Js.abs x).
Proof. destruct x; cbn [Js.abs notNegative]; auto. apply Qabs_nonneg. Qed.

Lemma notNegative_mul_ofNat x n :
  notNegative x -> notNegative (Js.mul x (Js.ofNat n)).
Proof.
  destruct x as [q| | |]; unfold Js.ofNat; cbn [Js.mul notNegative].
  - intros P. apply Qmult_le_0_compat; [exact P | apply ofNat_nonneg].
  - intros _. pose proof (sign_ofNat n) as S.
    destruct (Js.sign (ofNat n)); cbn [notNegative]; auto.
  - intros [].
  - auto.
Qed.

Lemma notNegative_add x y :
  notNegative x -> notNegative y -> notNegative (Js.add x y).
Proof.
  destruct x as [a| | |], y as [b| | |]; cbn [Js.add notNegative]; auto;
    try contradiction.
  intros A B. replace 0 with (0 + 0) by reflexivity.
  now apply Qplus_le_compat.
Qed.

Lemma notNegative_div_succ x n :
  notNegative x -> notNegative (Js.div x (Js.ofNat (n + 1))).
Proof.
  destruct x as [q| | |]; unfold Js.ofNat; cbn [Js.div notNegative].
  - intros P. rewrite ofNat_succ_eqb_zero. cbn [notNegative].
    apply Qle_shift_div_l; [apply ofNat_succ_pos|]. now rewrite Qmult_0_l.
  - intros _. now rewrite sign_ofNat_succ.
  - intros [].
  - auto.
Qed.

Lemma notNegative_round x : notNegative x -> notNegative (Js.round x).
Proof.
  destruct x as [q| | |]; cbn [Js.round notNegative]; auto. intros P.
  change 0 with (inject_Z 0). rewrite <- Zle_Qle.
  change 0%Z with (Qfloor (0 + (1 # 2))). apply Qfloor_resp_le.
  apply Qplus_le_compat; [exact P | apply Qle_refl].
Qed.

(** The accuracy after an update is a finite number from 0 to 100. *)
Lemma accuracy_update d ok st :
  (Js.successfulHits st <= Js.totalAttempts st)%nat ->
  exists a, Js.accuracy (Js.updateStats d ok st) = Js.Finite a
            /\ 0 <= a /\ a <= 100.
Proof.
  intros H. unfold Js.updateStats. cbn [Js.accuracy].
  set (h := (Js.successfulHits st + (if ok then 1 else 0))%nat).
  assert (Hh : (h <= Js.totalAttempts st + 1)%nat)
    by (subst h; destruct ok; lia).
  unfold Js.ofNat, Js.div. rewrite ofNat_succ_eqb_zero. cbn [Js.mul].
  eexists. split; [reflexivity|].
  pose proof (ofNat_succ_pos (Js.totalAttempts st)) as P.
  split.
  - apply Qmult_le_0_compat; [|discriminate].
    apply Qle_shift_div_l; [exact P|]. rewrite Qmult_0_l. apply ofNat_nonneg.
  - apply Qle_trans with (1 * 100); [|discriminate].
    apply Qmult_le_compat_r; [|discriminate].
    apply Qle_shift_div_r; [exact P|]. rewrite Qmult_1_l.
    unfold ofNat. rewrite <- Zle_Qle. lia.
Qed.

Lemma round_percent a :
  0 <= a -> a <= 100 ->
  exists z, Js.round (Js.Finite a) = Js.Finite (inject_Z z)
            /\ (0 <= z <= 100)%Z.
Proof.
  intros L U. cbn [Js.round]. eexists. split; [reflexivity|]. split.
  - change 0%Z with (Qfloor (0 + (1 # 2))). apply Qfloor_resp_le.
    apply Qplus_le_compat; [exact L | apply Qle_refl].
  - change 100%Z with (Qfloor (100 + (1 # 2))). apply Qfloor_resp_le.
    apply Qplus_le_compat; [exact U | apply Qle_refl].
Qed.

Lemma inRange_zero : inRange Js.zeroStats.
Proof.
  unfold inRange. simpl. split; [lia|]. split.
  - exists 0. repeat split; discriminate.
  - split; [|split; discriminate].
    exists 0%Z. split; [reflexivity | lia].
Qed.

Lemma inRange_update d ok st :
  notNegative d -> inRange st -> inRange (Js.updateStats d ok st).
Proof.
  intros D (H & _ & _ & A & _).
  destruct (accuracy_update d ok st H) as (a & E & L & U).
  assert (N : notNegative (Js.averageDeviation (Js.updateStats d ok st))).
  { unfold Js.updateStats. cbn [Js.averageDeviation].
    apply notNegative_div_succ, notNegative_add; [|exact D].
    now apply notNegative_mul_ofNat. }
  unfold inRange. split; [|split; [|split; [|split]]].
  - unfold Js.updateStats. cbn [Js.successfulHits Js.totalAttempts].
    destruct ok; lia.
  - exists a. auto.
  - rewrite E. now apply round_percent.
  - exact N.
  - now apply notNegative_round.
Qed.

Lemma inRange_recordFrom attempts : forall st,
  inRange st ->
  Forall (fun a => notNegative (Js.deviation a)) attempts ->
  inRange (recordFrom st attempts).
Proof.
  induction attempts as [|a l IH]; intros st R F; [exact R|].
  inversion F as [|? ? D F']; subst. cbn [recordFrom fold_left].
  apply IH; [|exact F']. now apply inRange_update.
Qed.

Lemma recorded_inRange st : recorded st -> inRange st.
Proof.
  intros (l & -> & F). apply inRange_recordFrom; [apply inRange_zero | exact F].
Qed.

Lemma recordFrom_snoc st l a :
  recordFrom st (l ++ [a])
  = Js.updateStats (Js.deviation a) (Js.isSuccess a) (recordFrom st l).
Proof. unfold recordFrom. now rewrite fold_left_app. Qed.

(** Once [NaN], the average deviation stays [NaN] under updates. *)
Lemma averageDeviation_NaN d ok st :
  Js.averageDeviation st = Js.NaN ->
  Js.averageDeviation (Js.updateStats d ok st) = Js.NaN.
Proof.
  intros E. unfold Js.updateStats. cbn [Js.averageDeviation]. rewrite E.
  now destruct d.
Qed.

(** A [NaN] deviation makes the average deviation [NaN]. *)
Lemma averageDeviation_of_NaN ok st :
  Js.averageDeviation (Js.updateStats Js.NaN ok st) = Js.NaN.
Proof.
  unfold Js.updateStats. cbn [Js.averageDeviation].
  now destruct (Js.mul (Js.averageDeviation st) (Js.ofNat (Js.totalAttempts st))).
Qed.

Lemma ofNat_succ n : ofNat (n + 1) == ofNat n + 1.
Proof.
  unfold ofNat. rewrite Nat2Z.inj_add, inject_Z_plus. reflexivity.
Qed.

(** The deviation of a value from 0 to 1 from a percentage is a
    percentage. *)
Lemma within_deviation v t :
  within 0 1 v -> 0 <= t -> t <= 100 ->
  within 0 100 (Js.abs (Js.sub (Js.mul v (Js.Finite 100)) (Js.Finite t))).
Proof.
  intros (q & -> & L & U) T0 T1. cbn [Js.mul Js.sub Js.neg Js.add Js.abs].
  eexists. split; [reflexivity|]. split; [apply Qabs_nonneg|].
  apply Qabs_Qle_condition. split; lra.
Qed.

Lemma within_max x y : within 0 1 x -> within 0 1 y -> within 0 1 (Js.max x y).
Proof.
  intros (a & -> & La & Ua) (b & -> & Lb & Ub). cbn [Js.max].
  eexists. split; [reflexivity|].
  destruct (Q.max_spec a b) as [[_ E]|[_ E]]; rewrite E; now split.
Qed.

(** The running mean of percentages is a percentage. *)
Lemma within_update d ok st :
  within 0 100 d -> within 0 100 (Js.averageDeviation st) ->
  within 0 100 (Js.averageDeviation (Js.updateStats d ok st)).
Proof.
  intros (q & -> & Lq & Uq) (a & E & La & Ua).
  unfold Js.updateStats. cbn [Js.averageDeviation].
  rewrite E. unfold Js.ofNat. cbn [Js.mul Js.add Js.div].
  rewrite ofNat_succ_eqb_zero. eexists. split; [reflexivity|].
  pose proof (ofNat_succ_pos (Js.totalAttempts st)) as P.
  pose proof (ofNat_nonneg (Js.totalAttempts st)) as N.
  assert (M0 : 0 <= a * ofNat (Js.totalAttempts st))
    by now apply Qmult_le_0_compat.
  assert (M1 : a * ofNat (Js.totalAttempts st)
               <= 100 * ofNat (Js.totalAttempts st))
    by now apply Qmult_le_compat_r.
  split.
  - apply Qle_shift_div_l; [exact P|]. lra.
  - apply Qle_shift_div_r; [exact P|]. rewrite ofNat_succ. lra.
Qed.

Lemma pick_In (A : Type) (arr : list A) (r : Q) (x : A) :
  pick arr r = Some x -> In x arr.
Proof.
  unfold pick. cbv zeta.
  destruct (Qfloor (r * ofNat (length arr)) <? 0)%Z; [discriminate|].
  apply nth_error_In.
Qed.

(** Every target the generator pushes has a pressure of [levels]. *)
Lemma generateFrom_targets levels rand n : forall i sequence,
  generateFrom levels rand i n = Some sequence ->
  Forall (fun t => In (TestSequence.targetPressure t) levels) sequence.
Proof.
  induction n as [|n IH]; intros i sequence G; cbn [generateFrom] in G.
  - injection G as <-. constructor.
  - destruct (pick HOME_ROW_KEYS (rand (2 * i)%nat)) as [randomKey|];
      [|discriminate].
    destruct (pick levels (rand (2 * i + 1)%nat)) as [randomPressure|] eqn:P;
      [|discriminate].
    destruct (generateFrom levels rand (S i) n) as [rest|] eqn:R;
      [|discriminate].
    injection G as <-. constructor; [|now apply (IH (S i))].
    cbn. now apply pick_In in P.
Qed.

Lemma levels_are_percentages count p :
  In p (Peak.levels count) -> 0 <= p /\ p <= 100.
Proof.
  unfold Peak.levels, Peak.PRESSURE_LEVELS_MAP.
  destruct (count =? 2)%Z; [|destruct (count =? 3)%Z]; cbn [In];
    intros H; repeat (destruct H as [<-|H]); try contradiction;
    split; discriminate.
Qed.

Lemma generateFrom_targetsInRange levels rand i n sequence :
  (forall p, In p levels -> 0 <= p /\ p <= 100) ->
  generateFrom levels rand i n = Some sequence -> targetsInRange sequence.
Proof.
  intros L G. apply generateFrom_targets in G.
  unfold targetsInRange. eapply Forall_impl; [|exact G].
  intros t I. now apply L.
Qed.

Lemma within_zero_percent : within 0 100 (Js.Finite 0).
Proof. exists 0. repeat split; discriminate. Qed.

Lemma within_zero_unit : within 0 1 (Js.Finite 0).
Proof. exists 0. repeat split; discriminate. Qed.

Lemma within_wrong_key : within 0 100 (Js.Finite 100).
Proof. exists 100. repeat split; discriminate. Qed.

Lemma same_refl x : same x x.
Proof. destruct x; simpl; auto. apply Qeq_refl. Qed.




End JsFacts.

Import JsFacts.

(** * Invariants of a session *)

Section Sessions.

Variables State Event : Type.
Variable step : Event -> State -> State * option Js.Attempt.
Variable isReset : Event -> bool.
Variable restarts : Event -> bool.
Variable stats : State -> Js.TestStats.
Variable index : State -> nat.
Variable waiting : State -> nat.
Variable finished : State -> Prop.
Variable active : State -> bool.
Variable admissible : Event -> Prop.
Variable invariant : State -> Prop.

(** A reset zeroes the statistics and resolves nothing; any other event
    records the attempt it resolves, or leaves the statistics alone. *)
Hypothesis step_stats : forall e s,
  if isReset e
  then stats (fst (step e s)) = Js.zeroStats /\ snd (step e s) = None
  else match snd (step e s) with
       | Some a =>
           notNegative (Js.deviation a)
           /\ stats (fst (step e s))
              = Js.updateStats (Js.deviation a) (Js.isSuccess a) (stats s)
       | None => stats (fst (step e s)) = stats s
       end.

(** But for the events that restart the sequence, the index and the number
    of pending timers add up to one more exactly when an attempt is
    resolved. *)
Hypothesis step_timers : forall e s,
  restarts e = false ->
  (index (fst (step e s)) + waiting (fst (step e s))
   = index s + waiting s
     + (match snd (step e s) with Some _ => 1 | None => 0 end))%nat.

(** But for the events that restart the sequence, a finished test stays
    finished, is not active, and nothing is resolved. *)
Hypothesis step_finished : forall e s,
  restarts e = false -> finished s ->
  snd (step e s) = None
  /\ stats (fst (step e s)) = stats s
  /\ finished (fst (step e s))
  /\ active (fst (step e s)) = false.

(** Events that are well-behaved keep a well-behaved state so. *)
Hypothesis step_invariant : forall e s,
  admissible e -> invariant s -> invariant (fst (step e s)).

Lemma session_recorded events s :
  recorded (stats s) -> recorded (stats (fst (runEvents step events s))).
Proof.
  revert s. induction events as [|e events IH]; intros s R; [exact R|].
  rewrite runEvents_cons. cbn [fst]. apply IH.
  pose proof (step_stats e s) as H. destruct (isReset e).
  - destruct H as [-> _]. exists []. split; [reflexivity | constructor].
  - destruct (snd (step e s)) as [a|]; [|now rewrite H].
    destruct H as [D ->]. destruct R as (l & -> & F).
    exists (l ++ [a]). split; [now rewrite recordFrom_snoc|].
    apply Forall_app. split; [exact F | now constructor].
Qed.

Lemma session_stats events s :
  without isReset events ->
  stats (fst (runEvents step events s))
  = recordFrom (stats s) (snd (runEvents step events s)).
Proof.
  unfold without. revert s. induction events as [|e events IH]; intros s N.
  - reflexivity.
  - cbn [forallb] in N. apply andb_prop in N as [Ne N].
    apply negb_true_iff in Ne.
    rewrite runEvents_cons. cbn [fst snd].
    pose proof (step_stats e s) as H. rewrite Ne in H.
    rewrite (IH (fst (step e s)) N).
    destruct (snd (step e s)) as [a|].
    + destruct H as [_ ->]. reflexivity.
    + now rewrite H.
Qed.

Lemma session_timers events s :
  without restarts events ->
  (index (fst (runEvents step events s))
   + waiting (fst (runEvents step events s))
   = index s + waiting s + length (snd (runEvents step events s)))%nat.
Proof.
  unfold without. revert s. induction events as [|e events IH]; intros s N.
  - simpl. lia.
  - cbn [forallb] in N. apply andb_prop in N as [Ne N].
    apply negb_true_iff in Ne.
    rewrite runEvents_cons. cbn [fst snd].
    pose proof (step_timers e s Ne) as H.
    rewrite (IH (fst (step e s)) N), H.
    destruct (snd (step e s)); simpl; lia.
Qed.

Lemma session_finished events s :
  without restarts events -> finished s ->
  snd (runEvents step events s) = []
  /\ stats (fst (runEvents step events s)) = stats s
  /\ finished (fst (runEvents step events s))
  /\ (events <> [] -> active (fst (runEvents step events s)) = false).
Proof.
  unfold without. revert s. induction events as [|e events IH]; intros s N F.
  - cbn. repeat split; [exact F | congruence].
  - cbn [forallb] in N. apply andb_true_iff in N as [Ne N].
    apply negb_true_iff in Ne.
    destruct (step_finished e s Ne F) as (O & S & F1 & A1).
    destruct (IH (fst (step e s)) N F1) as (O' & S' & F' & A').
    rewrite runEvents_cons. cbn [fst snd]. rewrite O, O', S', S.
    repeat split; [exact F'|]. intros _.
    destruct events as [|e' events']; [exact A1 | apply A'; discriminate].
Qed.

Lemma session_invariant events s :
  Forall admissible events -> invariant s ->
  invariant (fst (runEvents step events s)).
Proof.
  intros F. revert s. induction F as [|e events E _ IH]; intros s S.
  - exact S.
  - rewrite runEvents_cons. cbn [fst]. apply IH. now apply step_invariant.
Qed.

End Sessions.

(** * The dwell component along a session *)

Module DwellComponentFacts.
Import DwellComponent.

Lemma dwellc_completionEffect_frame s :
  testStats (completionEffect s) = testStats s
  /\ currentIndex (completionEffect s) = currentIndex s
  /\ timers (completionEffect s) = timers s
  /\ testSequence (completionEffect s) = testSequence s.
Proof.
  unfold completionEffect.
  destruct ((length (testSequence s) <=? currentIndex s)%nat && isTestActive s);
    repeat split.
Qed.

Lemma dwellc_completionEffect_finished s :
  (length (testSequence s) <= currentIndex s)%nat ->
  isTestActive (completionEffect s) = false.
Proof.
  intros F. apply Nat.leb_le in F. unfold completionEffect. rewrite F.
  destruct (isTestActive s) eqn:A; cbn; [reflexivity | exact A].
Qed.

(** What a run of the effect does to the statistics, the index and the
    timers. *)
Lemma dwellc_effect_accounts now keyData s :
  currentIndex (fst (effect now keyData s)) = currentIndex s
  /\ testSequence (fst (effect now keyData s)) = testSequence s
  /\ match snd (effect now keyData s) with
     | Some a =>
         notNegative (Js.deviation a)
         /\ (unitSnapshots keyData -> targetsInRange (testSequence s) ->
             within 0 100 (Js.deviation a))
         /\ testStats (fst (effect now keyData s))
            = Js.updateStats (Js.deviation a) (Js.isSuccess a) (testStats s)
         /\ timers (fst (effect now keyData s))
            = timers s ++ [(now + 3000)%Z]
     | None =>
         testStats (fst (effect now keyData s)) = testStats s
         /\ timers (fst (effect now keyData s)) = timers s
     end.
Proof.
  unfold effect.
  destruct (negb (isTestActive s)
            || (length (testSequence s) <=? currentIndex s)%nat);
    [repeat split|].
  destruct (cooling now (cooldownUntil s)); [repeat split|].
  destruct (nth_error (testSequence s) (currentIndex s)) as [currentTarget|]
    eqn:N; [|repeat split].
  cbv zeta.
  destruct (wrongKeyPress currentTarget keyData).
  { unfold handleAttempt. cbn [fst snd Js.deviation Js.isSuccess].
    split; [reflexivity|]. split; [reflexivity|].
    split; [discriminate|]. split; [intros _ _; apply within_wrong_key|].
    split; reflexivity. }
  destruct (correctKeyPress currentTarget keyData) as [k|] eqn:K;
    [|repeat split].
  assert (F : unitSnapshots keyData -> targetsInRange (testSequence s) ->
              within 0 100
                (Js.abs (Js.sub (Js.mul (analogValue k) (Js.Finite 100))
                           (Js.Finite
                              (TestSequence.targetPressure currentTarget))))).
  { intros U T. apply nth_error_In in N.
    pose proof (proj1 (Forall_forall _ _) T _ N) as [T0 T1].
    apply within_deviation; [|exact T0 | exact T1].
    apply find_some in K as [I _].
    exact (proj1 (Forall_forall _ _) U k I). }
  destruct (Js.leb _ _);
    (destruct (negb (truthy (holdStartTime s))); [repeat split|]);
    (destruct (750 <=? now - valueOf (holdStartTime s))%Z; [|repeat split]);
    unfold handleAttempt; cbn [fst snd Js.deviation Js.isSuccess];
    (split; [reflexivity|]); (split; [reflexivity|]);
    (split; [apply notNegative_abs|]); (split; [exact F|]);
    split; reflexivity.
Qed.

Lemma dwellc_fireTimer_accounts s :
  testStats (fireTimer s) = testStats s
  /\ testSequence (fireTimer s) = testSequence s
  /\ (currentIndex s <= currentIndex (fireTimer s))%nat
  /\ (currentIndex (fireTimer s) + length (timers (fireTimer s))
      = currentIndex s + length (timers s))%nat.
Proof.
  unfold fireTimer. destruct (timers s) as [|t pending] eqn:T.
  - rewrite T. repeat split; lia.
  - cbn. repeat split; lia.
Qed.

Lemma dwellc_reset_stats rand s : testStats (resetTest rand s) = Js.zeroStats.
Proof.
  unfold resetTest, generateTestSequence.
  now destruct (generateFrom PRESSURE_LEVELS rand 0 20).
Qed.

Lemma dwellc_mount_stats rand : testStats (mount rand) = Js.zeroStats.
Proof.
  unfold mount, generateTestSequence.
  now destruct (generateFrom PRESSURE_LEVELS rand 0 20).
Qed.

Lemma dwellc_step_stats e s :
  if isReset e
  then testStats (fst (step e s)) = Js.zeroStats /\ snd (step e s) = None
  else match snd (step e s) with
       | Some a =>
           notNegative (Js.deviation a)
           /\ testStats (fst (step e s))
              = Js.updateStats (Js.deviation a) (Js.isSuccess a) (testStats s)
       | None => testStats (fst (step e s)) = testStats s
       end.
Proof.
  destruct e as [now keyData| |connected| |rand]; cbn [isReset step].
  - pose proof (dwellc_effect_accounts now keyData s) as (_ & _ & H).
    destruct (effect now keyData s) as [s' [a|]]; cbn [fst snd] in *;
      rewrite (proj1 (dwellc_completionEffect_frame s')); intuition.
  - cbn [fst snd]. rewrite (proj1 (dwellc_completionEffect_frame _)).
    apply dwellc_fireTimer_accounts.
  - cbn [fst snd]. rewrite (proj1 (dwellc_completionEffect_frame _)).
    unfold startTest. now destruct connected.
  - cbn [fst snd]. now rewrite (proj1 (dwellc_completionEffect_frame _)).
  - cbn [fst snd]. rewrite (proj1 (dwellc_completionEffect_frame _)).
    split; [apply dwellc_reset_stats | reflexivity].
Qed.

Lemma dwellc_step_timers e s :
  isReset e = false ->
  (currentIndex (fst (step e s)) + length (timers (fst (step e s)))
   = currentIndex s + length (timers s)
     + (match snd (step e s) with Some _ => 1 | None => 0 end))%nat.
Proof.
  destruct e as [now keyData| |connected| |rand]; cbn [isReset step];
    try discriminate; intros _.
  - pose proof (dwellc_effect_accounts now keyData s) as (I & _ & H).
    destruct (effect now keyData s) as [s' [a|]]; cbn [fst snd] in *;
      destruct (dwellc_completionEffect_frame s') as (_ & -> & -> & _).
    + destruct H as (_ & _ & _ & ->). rewrite I, length_app. simpl. lia.
    + destruct H as (_ & ->). rewrite I. lia.
  - cbn [fst snd].
    destruct (dwellc_completionEffect_frame (fireTimer s))
      as (_ & -> & -> & _).
    destruct (dwellc_fireTimer_accounts s) as (_ & _ & _ & ->). lia.
  - cbn [fst snd].
    destruct (dwellc_completionEffect_frame (startTest connected s))
      as (_ & -> & -> & _).
    unfold startTest. destruct connected; simpl; lia.
  - cbn [fst snd].
    destruct (dwellc_completionEffect_frame (pauseTest s))
      as (_ & -> & -> & _).
    simpl. lia.
Qed.

Lemma dwellc_step_finished e s :
  isReset e = false ->
  (length (testSequence s) <= currentIndex s)%nat ->
  snd (step e s) = None
  /\ testStats (fst (step e s)) = testStats s
  /\ (length (testSequence (fst (step e s)))
      <= currentIndex (fst (step e s)))%nat
  /\ isTestActive (fst (step e s)) = false.
Proof.
  intros R F. pose proof (proj2 (Nat.leb_le _ _) F) as B.
  destruct e as [now keyData| |connected| |rand]; [| | | |discriminate];
    cbn [step].
  - assert (E : effect now keyData s = (s, None)).
    { unfold effect. rewrite B, orb_true_r. reflexivity. }
    rewrite E. cbn [fst snd].
    destruct (dwellc_completionEffect_frame s) as (-> & -> & _ & ->).
    repeat split; [exact F | now apply dwellc_completionEffect_finished].
  - cbn [fst snd].
    destruct (dwellc_fireTimer_accounts s) as (S & Q & I & _).
    destruct (dwellc_completionEffect_frame (fireTimer s))
      as (-> & -> & _ & ->).
    rewrite S, Q. repeat split; [lia|].
    apply dwellc_completionEffect_finished. rewrite Q. lia.
  - cbn [fst snd].
    destruct (dwellc_completionEffect_frame (startTest connected s))
      as (-> & -> & _ & ->).
    assert (K : testStats (startTest connected s) = testStats s
                /\ testSequence (startTest connected s) = testSequence s
                /\ currentIndex (startTest connected s) = currentIndex s)
      by (unfold startTest; destruct connected; repeat split).
    destruct K as (K1 & K2 & K3). rewrite K1, K2, K3.
    repeat split; [exact F|].
    apply dwellc_completionEffect_finished. now rewrite K2, K3.
  - cbn [fst snd].
    destruct (dwellc_completionEffect_frame (pauseTest s))
      as (-> & -> & _ & ->).
    repeat split; [exact F|].
    now apply dwellc_completionEffect_finished.
Qed.

Lemma dwellc_generate_targets rand s :
  targetsInRange (testSequence s) ->
  targetsInRange (testSequence (generateTestSequence rand s)).
Proof.
  intros T. unfold generateTestSequence.
  destruct (generateFrom PRESSURE_LEVELS rand 0 20) as [sequence|] eqn:G;
    [|exact T].
  exact (generateFrom_targetsInRange _ _ _ _ _ (levels_are_percentages 3) G).
Qed.

Lemma dwellc_mount_percent rand : dwellPercentState (mount rand).
Proof.
  split.
  - rewrite dwellc_mount_stats. apply within_zero_percent.
  - apply dwellc_generate_targets. constructor.
Qed.

Lemma dwellc_step_percent e s :
  dwellUnit e -> dwellPercentState s -> dwellPercentState (fst (step e s)).
Proof.
  unfold dwellPercentState. intros E [S T].
  destruct e as [now keyData| |connected| |rand]; cbn [step].
  - pose proof (dwellc_effect_accounts now keyData s) as (_ & Q & A).
    destruct (effect now keyData s) as [s' [a|]]; cbn [fst snd] in *;
      destruct (dwellc_completionEffect_frame s') as (-> & _ & _ & ->);
      rewrite Q; (split; [|exact T]).
    + destruct A as (_ & D & -> & _).
      apply within_update; [now apply D | exact S].
    + destruct A as [-> _]. exact S.
  - cbn [fst].
    destruct (dwellc_completionEffect_frame (fireTimer s))
      as (-> & _ & _ & ->).
    destruct (dwellc_fireTimer_accounts s) as (-> & -> & _). now split.
  - cbn [fst].
    destruct (dwellc_completionEffect_frame (startTest connected s))
      as (-> & _ & _ & ->).
    unfold startTest. destruct connected; now split.
  - cbn [fst].
    destruct (dwellc_completionEffect_frame (pauseTest s))
      as (-> & _ & _ & ->).
    now split.
  - cbn [fst].
    destruct (dwellc_completionEffect_frame (resetTest rand s))
      as (-> & _ & _ & ->).
    rewrite dwellc_reset_stats. split; [apply within_zero_percent|].
    unfold resetTest. now apply dwellc_generate_targets.
Qed.

End DwellComponentFacts.

(** * The peak-on-release component along a session *)

Module PeakComponentFacts.
Import PeakComponent.

Lemma peakc_completionEffect_frame s :
  testStats (completionEffect s) = testStats s
  /\ currentIndex (completionEffect s) = currentIndex s
  /\ timers (completionEffect s) = timers s
  /\ testSequence (completionEffect s) = testSequence s
  /\ maxAnalog (completionEffect s) = maxAnalog s.
Proof.
  unfold completionEffect.
  destruct ((length (testSequence s) <=? currentIndex s)%nat && isTestActive s);
    repeat split.
Qed.

Lemma peakc_completionEffect_finished s :
  (length (testSequence s) <= currentIndex s)%nat ->
  isTestActive (completionEffect s) = false.
Proof.
  intros F. apply Nat.leb_le in F. unfold completionEffect. rewrite F.
  destruct (isTestActive s) eqn:A; cbn; [reflexivity | exact A].
Qed.

Lemma peakAccounts_idle now keyData s : peakAccounts now keyData s (s, None).
Proof. unfold peakAccounts. cbn [fst snd]. repeat split. assumption. Qed.

Lemma peakc_effect_accounts now keyData s :
  peakAccounts now keyData s (effect now keyData s).
Proof.
  unfold effect.
  destruct (negb (isTestActive s)
            || (length (testSequence s) <=? currentIndex s)%nat);
    [apply peakAccounts_idle|].
  destruct (cooling now (cooldownUntil s)); [apply peakAccounts_idle|].
  destruct (nth_error (testSequence s) (currentIndex s)) as [currentTarget|]
    eqn:N; [|apply peakAccounts_idle].
  cbv zeta.
  destruct (otherPressed currentTarget keyData).
  { unfold handleAttempt, peakAccounts.
    cbn [fst snd Js.deviation Js.isSuccess].
    split; [reflexivity|]. split; [reflexivity|].
    split; [intros _ _ M; split; [exact M | apply within_wrong_key]|].
    split; [discriminate|]. split; reflexivity. }
  assert (R : peakAccounts now keyData s
                (if keyHeld s
                 then let (s', a) :=
                        handleAttempt now
                          (Js.abs (Js.sub (Js.mul (maxAnalog s) (Js.Finite 100))
                                     (Js.Finite
                                        (TestSequence.targetPressure
                                           currentTarget))))
                          (Js.leb
                             (Js.abs
                                (Js.sub (Js.mul (maxAnalog s) (Js.Finite 100))
                                   (Js.Finite
                                      (TestSequence.targetPressure
                                         currentTarget))))
                             (Js.Finite 10))
                          (if Js.leb
                                (Js.abs
                                   (Js.sub
                                      (Js.mul (maxAnalog s) (Js.Finite 100))
                                      (Js.Finite
                                         (TestSequence.targetPressure
                                            currentTarget))))
                                (Js.Finite 10)
                           then "Good!" else "Missed target") s in
                      (setMaxAnalog (Js.Finite 0) (setKeyHeld false s'), a)
                 else (s, None))).
  { destruct (keyHeld s); [|apply peakAccounts_idle].
    unfold handleAttempt, peakAccounts.
    cbn [fst snd Js.deviation Js.isSuccess].
    split; [reflexivity|]. split; [reflexivity|].
    split; [|split; [apply notNegative_abs | split; reflexivity]].
    intros _ T M. split; [apply within_zero_unit|].
    apply nth_error_In in N.
    pose proof (proj1 (Forall_forall _ _) T _ N) as [T0 T1].
    now apply within_deviation. }
  destruct (keyEvent currentTarget keyData) as [k|] eqn:K; [|exact R].
  destruct (negb (isPressed k =? 0)%Z); [|exact R].
  unfold peakAccounts. cbn [fst snd].
  split; [reflexivity|]. split; [reflexivity|].
  split; [|split; reflexivity].
  intros F _ M. split; [|exact I].
  apply within_max; [exact M|].
  apply find_some in K as [I _].
  exact (proj1 (Forall_forall _ _) F k I).
Qed.

Lemma peakc_fireTimer_accounts s :
  testStats (fireTimer s) = testStats s
  /\ testSequence (fireTimer s) = testSequence s
  /\ maxAnalog (fireTimer s) = maxAnalog s
  /\ (currentIndex s <= currentIndex (fireTimer s))%nat
  /\ (currentIndex (fireTimer s) + length (timers (fireTimer s))
      = currentIndex s + length (timers s))%nat.
Proof.
  unfold fireTimer. destruct (timers s) as [|t pending] eqn:T.
  - rewrite T. repeat split; lia.
  - cbn. repeat split; lia.
Qed.

Lemma peakc_reset_stats rand s :
  testStats (resetTest rand s) = Js.zeroStats
  /\ maxAnalog (resetTest rand s) = Js.Finite 0.
Proof.
  unfold resetTest, generateTestSequence.
  cbn [levelCount setKeyHeld setMaxAnalog setCooldownUntil setTestStats
       setCurrentIndex setIsTestActive].
  now destruct (generateFrom (Peak.levels (levelCount s)) rand 0 20).
Qed.

Lemma peakc_mount_stats rand :
  testStats (mount rand) = Js.zeroStats
  /\ maxAnalog (mount rand) = Js.Finite 0.
Proof.
  unfold mount, generateTestSequence.
  now destruct (generateFrom (Peak.levels (levelCount initial)) rand 0 20).
Qed.

(** A click on a level button leaves the statistics and the tracked peak
    as they are. *)
Lemma peakc_selectLevels_frame count rand s :
  testStats (selectLevels count rand s) = testStats s
  /\ maxAnalog (selectLevels count rand s) = maxAnalog s
  /\ timers (selectLevels count rand s) = timers s.
Proof.
  unfold selectLevels. destruct (count =? levelCount s)%Z; [repeat split|].
  unfold generateTestSequence. cbn [levelCount setLevelCount].
  now destruct (generateFrom (Peak.levels count) rand 0 20).
Qed.

Lemma peakc_step_stats e s :
  if isReset e
  then testStats (fst (step e s)) = Js.zeroStats /\ snd (step e s) = None
  else match snd (step e s) with
       | Some a =>
           notNegative (Js.deviation a)
           /\ testStats (fst (step e s))
              = Js.updateStats (Js.deviation a) (Js.isSuccess a) (testStats s)
       | None => testStats (fst (step e s)) = testStats s
       end.
Proof.
  destruct e as [now keyData| |connected| |rand|count rand];
    cbn [isReset step].
  - pose proof (peakc_effect_accounts now keyData s) as (_ & _ & _ & H).
    destruct (effect now keyData s) as [s' [a|]]; cbn [fst snd] in *;
      rewrite (proj1 (peakc_completionEffect_frame s')); intuition.
  - cbn [fst snd]. rewrite (proj1 (peakc_completionEffect_frame _)).
    apply peakc_fireTimer_accounts.
  - cbn [fst snd]. rewrite (proj1 (peakc_completionEffect_frame _)).
    unfold startTest. now destruct connected.
  - cbn [fst snd]. now rewrite (proj1 (peakc_completionEffect_frame _)).
  - cbn [fst snd]. rewrite (proj1 (peakc_completionEffect_frame _)).
    split; [apply peakc_reset_stats | reflexivity].
  - cbn [fst snd]. rewrite (proj1 (peakc_completionEffect_frame _)).
    apply peakc_selectLevels_frame.
Qed.

Lemma peakc_step_timers e s :
  restarts e = false ->
  (currentIndex (fst (step e s)) + length (timers (fst (step e s)))
   = currentIndex s + length (timers s)
     + (match snd (step e s) with Some _ => 1 | None => 0 end))%nat.
Proof.
  destruct e as [now keyData| |connected| |rand|count rand];
    cbn [restarts step]; try discriminate; intros _.
  - pose proof (peakc_effect_accounts now keyData s) as (I & _ & _ & H).
    destruct (effect now keyData s) as [s' [a|]]; cbn [fst snd] in *;
      destruct (peakc_completionEffect_frame s') as (_ & -> & -> & _).
    + destruct H as (_ & _ & ->). rewrite I, length_app. simpl. lia.
    + destruct H as (_ & ->). rewrite I. lia.
  - cbn [fst snd].
    destruct (peakc_completionEffect_frame (fireTimer s))
      as (_ & -> & -> & _).
    destruct (peakc_fireTimer_accounts s) as (_ & _ & _ & _ & ->). lia.
  - cbn [fst snd].
    destruct (peakc_completionEffect_frame (startTest connected s))
      as (_ & -> & -> & _).
    unfold startTest. destruct connected; simpl; lia.
  - cbn [fst snd].
    destruct (peakc_completionEffect_frame (pauseTest s))
      as (_ & -> & -> & _).
    simpl. lia.
Qed.

Lemma peakc_step_finished e s :
  restarts e = false ->
  (length (testSequence s) <= currentIndex s)%nat ->
  snd (step e s) = None
  /\ testStats (fst (step e s)) = testStats s
  /\ (length (testSequence (fst (step e s)))
      <= currentIndex (fst (step e s)))%nat
  /\ isTestActive (fst (step e s)) = false.
Proof.
  intros R F. pose proof (proj2 (Nat.leb_le _ _) F) as B.
  destruct e as [now keyData| |connected| |rand|count rand];
    try discriminate; cbn [step].
  - assert (E : effect now keyData s = (s, None)).
    { unfold effect. rewrite B, orb_true_r. reflexivity. }
    rewrite E. cbn [fst snd].
    destruct (peakc_completionEffect_frame s) as (-> & -> & _ & -> & _).
    repeat split; [exact F | now apply peakc_completionEffect_finished].
  - cbn [fst snd].
    destruct (peakc_fireTimer_accounts s) as (S & Q & _ & I & _).
    destruct (peakc_completionEffect_frame (fireTimer s))
      as (-> & -> & _ & -> & _).
    rewrite S, Q. repeat split; [lia|].
    apply peakc_completionEffect_finished. rewrite Q. lia.
  - cbn [fst snd].
    destruct (peakc_completionEffect_frame (startTest connected s))
      as (-> & -> & _ & -> & _).
    assert (K : testStats (startTest connected s) = testStats s
                /\ testSequence (startTest connected s) = testSequence s
                /\ currentIndex (startTest connected s) = currentIndex s)
      by (unfold startTest; destruct connected; repeat split).
    destruct K as (K1 & K2 & K3). rewrite K1, K2, K3.
    repeat split; [exact F|].
    apply peakc_completionEffect_finished. now rewrite K2, K3.
  - cbn [fst snd].
    destruct (peakc_completionEffect_frame (pauseTest s))
      as (-> & -> & _ & -> & _).
    repeat split; [exact F|].
    now apply peakc_completionEffect_finished.
Qed.

Lemma peakc_generate_targets rand s :
  targetsInRange (testSequence s) ->
  targetsInRange (testSequence (generateTestSequence rand s)).
Proof.
  intros T. unfold generateTestSequence.
  destruct (generateFrom (Peak.levels (levelCount s)) rand 0 20)
    as [sequence|] eqn:G; [|exact T].
  exact (generateFrom_targetsInRange _ _ _ _ _
           (levels_are_percentages (levelCount s)) G).
Qed.

Lemma peakc_mount_percent rand : peakPercentState (mount rand).
Proof.
  unfold peakPercentState. destruct (peakc_mount_stats rand) as [-> ->].
  split; [apply within_zero_percent|]. split; [|apply within_zero_unit].
  apply peakc_generate_targets. constructor.
Qed.

Lemma peakc_step_percent e s :
  peakUnit e -> peakPercentState s -> peakPercentState (fst (step e s)).
Proof.
  unfold peakPercentState. intros E (S & T & M).
  destruct e as [now keyData| |connected| |rand|count rand]; cbn [step].
  - pose proof (peakc_effect_accounts now keyData s) as (_ & Q & D & A).
    specialize (D E T M).
    destruct (effect now keyData s) as [s' [a|]]; cbn [fst snd] in *;
      destruct (peakc_completionEffect_frame s') as (-> & _ & _ & -> & ->);
      rewrite Q; destruct D as [M' D];
      (split; [|split; [exact T | exact M']]).
    + destruct A as (_ & -> & _). now apply within_update.
    + destruct A as [-> _]. exact S.
  - cbn [fst].
    destruct (peakc_completionEffect_frame (fireTimer s))
      as (-> & _ & _ & -> & ->).
    destruct (peakc_fireTimer_accounts s) as (-> & -> & -> & _).
    now repeat split.
  - cbn [fst].
    destruct (peakc_completionEffect_frame (startTest connected s))
      as (-> & _ & _ & -> & ->).
    unfold startTest. destruct connected; now repeat split.
  - cbn [fst].
    destruct (peakc_completionEffect_frame (pauseTest s))
      as (-> & _ & _ & -> & ->).
    now repeat split.
  - cbn [fst].
    destruct (peakc_completionEffect_frame (resetTest rand s))
      as (-> & _ & _ & -> & ->).
    destruct (peakc_reset_stats rand s) as [-> ->].
    split; [apply within_zero_percent|]. split; [|apply within_zero_unit].
    unfold resetTest. now apply peakc_generate_targets.
  - cbn [fst].
    destruct (peakc_completionEffect_frame (selectLevels count rand s))
      as (-> & _ & _ & -> & ->).
    destruct (peakc_selectLevels_frame count rand s) as (-> & -> & _).
    split; [exact S|]. split; [|exact M].
    unfold selectLevels. destruct (count =? levelCount s)%Z; [exact T|].
    now apply peakc_generate_targets.
Qed.

End PeakComponentFacts.

(** * The first component along a session *)

Module InstantComponentFacts.
Import InstantComponent.

Lemma instantc_completionEffect_frame s :
  testStats (completionEffect s) = testStats s
  /\ currentIndex (completionEffect s) = currentIndex s
  /\ timers (completionEffect s) = timers s
  /\ testSequence (completionEffect s) = testSequence s
  /\ attempts (completionEffect s) = attempts s.
Proof.
  unfold completionEffect.
  destruct ((length (testSequence s) <=? currentIndex s)%nat && isTestActive s);
    repeat split.
Qed.

Lemma instantc_completionEffect_finished s :
  (length (testSequence s) <= currentIndex s)%nat ->
  isTestActive (completionEffect s) = false.
Proof.
  intros F. apply Nat.leb_le in F. unfold completionEffect. rewrite F.
  destruct (isTestActive s) eqn:A; cbn; [reflexivity | exact A].
Qed.

Lemma instantc_effect_accounts now keyData s :
  match snd (effect now keyData s) with
  | Some a =>
      notNegative (Js.deviation a)
      /\ (unitSnapshots keyData -> targetsInRange (testSequence s) ->
          within 0 100 (Js.deviation a))
      /\ currentIndex (fst (effect now keyData s)) = currentIndex s
      /\ testSequence (fst (effect now keyData s)) = testSequence s
      /\ testStats (fst (effect now keyData s))
         = Js.updateStats (Js.deviation a) (Js.isSuccess a) (testStats s)
      /\ timers (fst (effect now keyData s)) = timers s ++ [(now + 500)%Z]
      /\ attempts (fst (effect now keyData s))
         = attempts s ++ [Js.deviation a]
  | None => fst (effect now keyData s) = s
  end.
Proof.
  unfold effect.
  destruct (negb (isTestActive s)
            || (length (testSequence s) <=? currentIndex s)%nat);
    [reflexivity|].
  destruct (nth_error (testSequence s) (currentIndex s)) as [currentTarget|]
    eqn:N; [|reflexivity].
  destruct (find _ keyData) as [keyPress|] eqn:K; [|reflexivity].
  cbv zeta. cbn [fst snd Js.deviation Js.isSuccess currentIndex testSequence
                 testStats timers attempts].
  split; [apply notNegative_abs|]. split; [|repeat split].
  intros U T. apply nth_error_In in N.
  pose proof (proj1 (Forall_forall _ _) T _ N) as [T0 T1].
  apply within_deviation; [|exact T0 | exact T1].
  apply find_some in K as [I _].
  exact (proj1 (Forall_forall _ _) U keyPress I).
Qed.

Lemma instantc_fireTimer_accounts s :
  testStats (fireTimer s) = testStats s
  /\ testSequence (fireTimer s) = testSequence s
  /\ attempts (fireTimer s) = attempts s
  /\ (currentIndex s <= currentIndex (fireTimer s))%nat
  /\ (currentIndex (fireTimer s) + length (timers (fireTimer s))
      = currentIndex s + length (timers s))%nat.
Proof.
  unfold fireTimer. destruct (timers s) as [|t pending] eqn:T.
  - rewrite T. repeat split; lia.
  - cbn. repeat split; lia.
Qed.

Lemma instantc_reset_clears rand s :
  testStats (resetTest rand s) = Js.zeroStats
  /\ attempts (resetTest rand s) = [].
Proof.
  unfold resetTest, generateTestSequence.
  now destruct (generateFrom PRESSURE_LEVELS rand 0 20).
Qed.

Lemma instantc_mount_clears rand :
  testStats (mount rand) = Js.zeroStats /\ attempts (mount rand) = [].
Proof.
  unfold mount, generateTestSequence.
  now destruct (generateFrom PRESSURE_LEVELS rand 0 20).
Qed.

Lemma instantc_step_stats e s :
  if isReset e
  then testStats (fst (step e s)) = Js.zeroStats /\ snd (step e s) = None
  else match snd (step e s) with
       | Some a =>
           notNegative (Js.deviation a)
           /\ testStats (fst (step e s))
              = Js.updateStats (Js.deviation a) (Js.isSuccess a) (testStats s)
       | None => testStats (fst (step e s)) = testStats s
       end.
Proof.
  destruct e as [now keyData| |connected| |rand]; cbn [isReset step].
  - pose proof (instantc_effect_accounts now keyData s) as H.
    destruct (effect now keyData s) as [s' [a|]]; cbn [fst snd] in *;
      rewrite (proj1 (instantc_completionEffect_frame s')).
    + destruct H as (D & _ & _ & _ & -> & _). now split.
    + now rewrite H.
  - cbn [fst snd]. rewrite (proj1 (instantc_completionEffect_frame _)).
    apply instantc_fireTimer_accounts.
  - cbn [fst snd]. rewrite (proj1 (instantc_completionEffect_frame _)).
    unfold startTest. now destruct connected.
  - cbn [fst snd]. now rewrite (proj1 (instantc_completionEffect_frame _)).
  - cbn [fst snd]. rewrite (proj1 (instantc_completionEffect_frame _)).
    split; [apply instantc_reset_clears | reflexivity].
Qed.

Lemma instantc_step_timers e s :
  isReset e = false ->
  (currentIndex (fst (step e s)) + length (timers (fst (step e s)))
   = currentIndex s + length (timers s)
     + (match snd (step e s) with Some _ => 1 | None => 0 end))%nat.
Proof.
  destruct e as [now keyData| |connected| |rand]; cbn [isReset step];
    try discriminate; intros _.
  - pose proof (instantc_effect_accounts now keyData s) as H.
    destruct (effect now keyData s) as [s' [a|]]; cbn [fst snd] in *;
      destruct (instantc_completionEffect_frame s') as (_ & -> & -> & _).
    + destruct H as (_ & _ & -> & _ & _ & -> & _). rewrite length_app.
      simpl. lia.
    + rewrite H. lia.
  - cbn [fst snd].
    destruct (instantc_completionEffect_frame (fireTimer s))
      as (_ & -> & -> & _).
    destruct (instantc_fireTimer_accounts s) as (_ & _ & _ & _ & ->). lia.
  - cbn [fst snd].
    destruct (instantc_completionEffect_frame (startTest connected s))
      as (_ & -> & -> & _).
    unfold startTest. destruct connected; simpl; lia.
  - cbn [fst snd].
    destruct (instantc_completionEffect_frame (pauseTest s))
      as (_ & -> & -> & _).
    simpl. lia.
Qed.

Lemma instantc_step_finished e s :
  isReset e = false ->
  (length (testSequence s) <= currentIndex s)%nat ->
  snd (step e s) = None
  /\ testStats (fst (step e s)) = testStats s
  /\ (length (testSequence (fst (step e s)))
      <= currentIndex (fst (step e s)))%nat
  /\ isTestActive (fst (step e s)) = false.
Proof.
  intros R F. pose proof (proj2 (Nat.leb_le _ _) F) as B.
  destruct e as [now keyData| |connected| |rand]; [| | | |discriminate];
    cbn [step].
  - assert (E : effect now keyData s = (s, None)).
    { unfold effect. rewrite B, orb_true_r. reflexivity. }
    rewrite E. cbn [fst snd].
    destruct (instantc_completionEffect_frame s) as (-> & -> & _ & -> & _).
    repeat split; [exact F | now apply instantc_completionEffect_finished].
  - cbn [fst snd].
    destruct (instantc_fireTimer_accounts s) as (S & Q & _ & I & _).
    destruct (instantc_completionEffect_frame (fireTimer s))
      as (-> & -> & _ & -> & _).
    rewrite S, Q. repeat split; [lia|].
    apply instantc_completionEffect_finished. rewrite Q. lia.
  - cbn [fst snd].
    destruct (instantc_completionEffect_frame (startTest connected s))
      as (-> & -> & _ & -> & _).
    assert (K : testStats (startTest connected s) = testStats s
                /\ testSequence (startTest connected s) = testSequence s
                /\ currentIndex (startTest connected s) = currentIndex s)
      by (unfold startTest; destruct connected; repeat split).
    destruct K as (K1 & K2 & K3). rewrite K1, K2, K3.
    repeat split; [exact F|].
    apply instantc_completionEffect_finished. now rewrite K2, K3.
  - cbn [fst snd].
    destruct (instantc_completionEffect_frame (pauseTest s))
      as (-> & -> & _ & -> & _).
    repeat split; [exact F|].
    now apply instantc_completionEffect_finished.
Qed.

Lemma instantc_generate_targets rand s :
  targetsInRange (testSequence s) ->
  targetsInRange (testSequence (generateTestSequence rand s)).
Proof.
  intros T. unfold generateTestSequence.
  destruct (generateFrom PRESSURE_LEVELS rand 0 20) as [sequence|] eqn:G;
    [|exact T].
  exact (generateFrom_targetsInRange _ _ _ _ _ (levels_are_percentages 3) G).
Qed.

Lemma instantc_mount_percent rand : instantPercentState (mount rand).
Proof.
  split.
  - rewrite (proj1 (instantc_mount_clears rand)). apply within_zero_percent.
  - apply instantc_generate_targets. constructor.
Qed.

Lemma instantc_step_percent e s :
  instantUnit e -> instantPercentState s ->
  instantPercentState (fst (step e s)).
Proof.
  unfold instantPercentState. intros E [S T].
  destruct e as [now keyData| |connected| |rand]; cbn [step].
  - pose proof (instantc_effect_accounts now keyData s) as A.
    destruct (effect now keyData s) as [s' [a|]]; cbn [fst snd] in *;
      destruct (instantc_completionEffect_frame s')
        as (-> & _ & _ & -> & _).
    + destruct A as (_ & D & _ & -> & -> & _).
      split; [|exact T]. apply within_update; [now apply D | exact S].
    + rewrite A. now split.
  - cbn [fst].
    destruct (instantc_completionEffect_frame (fireTimer s))
      as (-> & _ & _ & -> & _).
    destruct (instantc_fireTimer_accounts s) as (-> & -> & _). now split.
  - cbn [fst].
    destruct (instantc_completionEffect_frame (startTest connected s))
      as (-> & _ & _ & -> & _).
    unfold startTest. destruct connected; now split.
  - cbn [fst].
    destruct (instantc_completionEffect_frame (pauseTest s))
      as (-> & _ & _ & -> & _).
    now split.
  - cbn [fst].
    destruct (instantc_completionEffect_frame (resetTest rand s))
      as (-> & _ & _ & -> & _).
    rewrite (proj1 (instantc_reset_clears rand s)).
    split; [apply within_zero_percent|].
    unfold resetTest. now apply instantc_generate_targets.
Qed.


End InstantComponentFacts.

(** * The components on finite numbers

    On snapshots and cells that hold finite numbers, a run of the effect of
    a component is the run of the evaluator of the same variant: [Dwell],
    [Peak] or [Instant]. *)

Module FiniteFacts.

Lemma find_liftKey (p : Z -> Z -> bool) keyData :
  find (fun k : KeyData Js.Number => p (keyCode k) (isPressed k))
       (map liftKey keyData)
  = option_map liftKey
      (find (fun k : KeyData Q => p (keyCode k) (isPressed k)) keyData).
Proof.
  induction keyData as [|k l IH]; [reflexivity|].
  cbn [map find]. cbn [liftKey keyCode isPressed].
  destruct (p (keyCode k) (isPressed k)); [reflexivity | exact IH].
Qed.

Lemma liftStats_update d ok st :
  Js.updateStats (Js.Finite d) ok (liftStats st)
  = liftStats (updateStats d ok st).
Proof.
  unfold Js.updateStats, updateStats, liftStats.
  cbn [Js.totalAttempts Js.successfulHits Js.averageDeviation
       totalAttempts successfulHits averageDeviation accuracy].
  unfold Js.ofNat. cbn [Js.mul Js.add Js.div].
  rewrite !ofNat_succ_eqb_zero. reflexivity.
Qed.

Lemma dwell_component_on_finite now keyData s :
  DwellComponent.effect now (map liftKey keyData) (liftDwell s)
  = liftResult liftDwell (Dwell.effect now keyData s).
Proof.
  unfold DwellComponent.effect, Dwell.effect, liftResult.
  cbn [liftDwell DwellComponent.isTestActive DwellComponent.testSequence
       DwellComponent.currentIndex DwellComponent.cooldownUntil
       DwellComponent.holdStartTime].
  destruct (negb (Dwell.isTestActive s)
            || (length (Dwell.testSequence s) <=? Dwell.currentIndex s)%nat);
    [reflexivity|].
  destruct (cooling now (Dwell.cooldownUntil s)); [reflexivity|].
  destruct (nth_error (Dwell.testSequence s) (Dwell.currentIndex s))
    as [currentTarget|]; [|reflexivity].
  cbv zeta. unfold DwellComponent.wrongKeyPress, DwellComponent.correctKeyPress,
    Dwell.wrongKeyPress, Dwell.correctKeyPress.
  rewrite (find_liftKey
             (fun c f => negb (c =? TestSequence.keyCode currentTarget)%Z
                         && (f =? 1)%Z)),
          (find_liftKey
             (fun c f => (c =? TestSequence.keyCode currentTarget)%Z
                         && (f =? 1)%Z)).
  destruct (find _ keyData) as [w|].
  { unfold DwellComponent.handleAttempt, Dwell.handleAttempt.
    cbn [option_map fst snd]. unfold liftDwell at 1.
    cbn. rewrite liftStats_update. reflexivity. }
  cbn [option_map].
  destruct (find _ keyData) as [k|]; [|reflexivity].
  cbn [option_map liftKey analogValue Js.mul Js.sub Js.neg Js.add Js.abs
       Js.leb].
  destruct (Qle_bool _ _);
    (destruct (negb (truthy (Dwell.holdStartTime s))); [reflexivity|]);
    (destruct (750 <=? now - valueOf (Dwell.holdStartTime s))%Z;
       [|reflexivity]);
    unfold DwellComponent.handleAttempt, Dwell.handleAttempt;
    cbn; rewrite liftStats_update; reflexivity.
Qed.

Lemma peak_component_on_finite now keyData s :
  PeakComponent.effect now (map liftKey keyData) (liftPeak s)
  = liftResult liftPeak (Peak.effect now keyData s).
Proof.
  unfold PeakComponent.effect, Peak.effect, liftResult.
  cbn [liftPeak PeakComponent.isTestActive PeakComponent.testSequence
       PeakComponent.currentIndex PeakComponent.cooldownUntil
       PeakComponent.keyHeld PeakComponent.maxAnalog].
  destruct (negb (Peak.isTestActive s)
            || (length (Peak.testSequence s) <=? Peak.currentIndex s)%nat);
    [reflexivity|].
  destruct (cooling now (Peak.cooldownUntil s)); [reflexivity|].
  destruct (nth_error (Peak.testSequence s) (Peak.currentIndex s))
    as [currentTarget|]; [|reflexivity].
  cbv zeta. unfold PeakComponent.otherPressed, PeakComponent.keyEvent,
    Peak.otherPressed, Peak.keyEvent.
  rewrite (find_liftKey
             (fun c f => negb (c =? TestSequence.keyCode currentTarget)%Z
                         && negb (f =? 0)%Z)),
          (find_liftKey
             (fun c _ => (c =? TestSequence.keyCode currentTarget)%Z)).
  destruct (find _ keyData) as [w|].
  { unfold PeakComponent.handleAttempt, Peak.handleAttempt.
    cbn. rewrite liftStats_update. reflexivity. }
  cbn [option_map].
  assert (R : (if Peak.keyHeld s
               then let (s', a) :=
                      PeakComponent.handleAttempt now
                        (Js.abs
                           (Js.sub
                              (Js.mul (Js.Finite (Peak.maxAnalog s))
                                 (Js.Finite 100))
                              (Js.Finite
                                 (TestSequence.targetPressure currentTarget))))
                        (Js.leb
                           (Js.abs
                              (Js.sub
                                 (Js.mul (Js.Finite (Peak.maxAnalog s))
                                    (Js.Finite 100))
                                 (Js.Finite
                                    (TestSequence.targetPressure
                                       currentTarget))))
                           (Js.Finite 10))
                        (if Js.leb
                              (Js.abs
                                 (Js.sub
                                    (Js.mul (Js.Finite (Peak.maxAnalog s))
                                       (Js.Finite 100))
                                    (Js.Finite
                                       (TestSequence.targetPressure
                                          currentTarget))))
                              (Js.Finite 10)
                         then "Good!" else "Missed target")%string
                        (liftPeak s) in
                    (PeakComponent.setMaxAnalog (Js.Finite 0)
                       (PeakComponent.setKeyHeld false s'), a)
               else (liftPeak s, None))
              = (liftPeak
                   (fst (if Peak.keyHeld s
                         then let (s', a) :=
                                Peak.handleAttempt now
                                  (Qabs (Peak.maxAnalog s * 100
                                         - TestSequence.targetPressure
                                             currentTarget))
                                  (Qle_bool
                                     (Qabs (Peak.maxAnalog s * 100
                                            - TestSequence.targetPressure
                                                currentTarget)) 10)
                                  (if Qle_bool
                                        (Qabs (Peak.maxAnalog s * 100
                                               - TestSequence.targetPressure
                                                   currentTarget)) 10
                                   then "Good!" else "Missed target")%string
                                  s in
                              (Peak.setMaxAnalog 0 (Peak.setKeyHeld false s'),
                               a)
                         else (s, None))),
                 option_map liftAttempt
                   (snd (if Peak.keyHeld s
                         then let (s', a) :=
                                Peak.handleAttempt now
                                  (Qabs (Peak.maxAnalog s * 100
                                         - TestSequence.targetPressure
                                             currentTarget))
                                  (Qle_bool
                                     (Qabs (Peak.maxAnalog s * 100
                                            - TestSequence.targetPressure
                                                currentTarget)) 10)
                                  (if Qle_bool
                                        (Qabs (Peak.maxAnalog s * 100
                                               - TestSequence.targetPressure
                                                   currentTarget)) 10
                                   then "Good!" else "Missed target")%string
                                  s in
                              (Peak.setMaxAnalog 0 (Peak.setKeyHeld false s'),
                               a)
                         else (s, None))))).
  { destruct (Peak.keyHeld s) eqn:H; [|reflexivity].
    unfold PeakComponent.handleAttempt, Peak.handleAttempt.
    cbn [Js.mul Js.sub Js.neg Js.add Js.abs Js.leb].
    cbn -[Qabs Qle_bool Qmult Qminus Qplus Qopp updateStats Js.updateStats].
    rewrite liftStats_update. reflexivity. }
  destruct (find _ keyData) as [k|]; [|exact R].
  cbn [option_map liftKey isPressed analogValue].
  destruct (negb (isPressed k =? 0)%Z); [reflexivity | exact R].
Qed.

Lemma instant_component_on_finite now keyData s :
  InstantComponent.effect now (map liftKey keyData) (liftInstant s)
  = liftResult liftInstant (Instant.effect now keyData s).
Proof.
  unfold InstantComponent.effect, Instant.effect, liftResult.
  cbn [liftInstant InstantComponent.isTestActive InstantComponent.testSequence
       InstantComponent.currentIndex].
  destruct (negb (Instant.isTestActive s)
            || (length (Instant.testSequence s) <=? Instant.currentIndex s)%nat);
    [reflexivity|].
  destruct (nth_error (Instant.testSequence s) (Instant.currentIndex s))
    as [currentTarget|]; [|reflexivity].
  rewrite (find_liftKey
             (fun c f => (c =? TestSequence.keyCode currentTarget)%Z
                         && (f =? 1)%Z)).
  destruct (find _ keyData) as [keyPress|]; [|reflexivity].
  cbn [option_map liftKey analogValue]. cbv zeta.
  cbn [Js.mul Js.sub Js.neg Js.add Js.abs Js.leb].
  unfold liftInstant.
  cbn [fst snd option_map liftAttempt deviation isSuccess message
       Instant.testSequence Instant.currentIndex Instant.isTestActive
       Instant.testStats Instant.attempts Instant.timers
       InstantComponent.testSequence InstantComponent.currentIndex
       InstantComponent.isTestActive InstantComponent.testStats
       InstantComponent.attempts InstantComponent.timers].
  rewrite liftStats_update, map_app. reflexivity.
Qed.

End FiniteFacts.

Import DwellComponentFacts PeakComponentFacts InstantComponentFacts.

(** * Statistics, index and timers along a session *)

(** X8: the statistics are those of the attempts resolved.  In the three
    components, over any events without a reset, the statistics at the end
    are the statistics at the start with the attempts resolved on the way
    recorded in order; from the mounted component, resets included, they
    are always the statistics of some list of attempts recorded from zero,
    none with a negative deviation.  The snapshots may carry any number,
    [NaN] included, and in the peak component the events include the clicks
    on the level buttons. *)
Theorem session_statistics_follow_the_attempts :
  (forall s events,
      without DwellComponent.isReset events ->
      DwellComponent.testStats (fst (DwellComponent.session events s))
      = recordFrom (DwellComponent.testStats s)
          (snd (DwellComponent.session events s)))
  /\ (forall s events,
         without PeakComponent.isReset events ->
         PeakComponent.testStats (fst (PeakComponent.session events s))
         = recordFrom (PeakComponent.testStats s)
             (snd (PeakComponent.session events s)))
  /\ (forall s events,
         without InstantComponent.isReset events ->
         InstantComponent.testStats (fst (InstantComponent.session events s))
         = recordFrom (InstantComponent.testStats s)
             (snd (InstantComponent.session events s)))
  /\ (forall rand events,
         recorded (DwellComponent.testStats
                     (fst (DwellComponent.session events
                             (DwellComponent.mount rand)))))
  /\ (forall rand events,
         recorded (PeakComponent.testStats
                     (fst (PeakComponent.session events
                             (PeakComponent.mount rand)))))
  /\ (forall rand events,
         recorded (InstantComponent.testStats
                     (fst (InstantComponent.session events
                             (InstantComponent.mount rand))))).
Proof.
  assert (Z : recorded Js.zeroStats)
    by (exists []; split; [reflexivity | constructor]).
  split; [|split; [|split; [|split; [|split]]]].
  - intros s events N.
    exact (session_stats _ _ DwellComponent.step DwellComponent.isReset
             DwellComponent.testStats dwellc_step_stats events s N).
  - intros s events N.
    exact (session_stats _ _ PeakComponent.step PeakComponent.isReset
             PeakComponent.testStats peakc_step_stats events s N).
  - intros s events N.
    exact (session_stats _ _ InstantComponent.step InstantComponent.isReset
             InstantComponent.testStats instantc_step_stats events s N).
  - intros rand events.
    apply (session_recorded _ _ DwellComponent.step DwellComponent.isReset
             DwellComponent.testStats dwellc_step_stats).
    now rewrite dwellc_mount_stats.
  - intros rand events.
    apply (session_recorded _ _ PeakComponent.step PeakComponent.isReset
             PeakComponent.testStats peakc_step_stats).
    now rewrite (proj1 (peakc_mount_stats rand)).
  - intros rand events.
    apply (session_recorded _ _ InstantComponent.step InstantComponent.isReset
             InstantComponent.testStats instantc_step_stats).
    now rewrite (proj1 (instantc_mount_clears rand)).
Qed.

(** A dwell session: the test is started, a wrong key resolves the first
    attempt, its timer fires, and a click on the start button follows. *)
Lemma session_statistics_follow_the_attempts_witness :
  let events := [DwellComponent.Start true;
                 DwellComponent.Run 1000 [mkKeyData 22 (Js.Finite 0.9) 1];
                 DwellComponent.TimerFires;
                 DwellComponent.Start true] in
  let r := DwellComponent.session events
             (DwellComponent.mount (fun _ => 1 # 2)) in
  DwellComponent.testStats (fst r) = recordFrom Js.zeroStats (snd r)
  /\ snd r = [Js.mkAttempt (Js.Finite 100) false "Wrong key!"].
Proof.
  intros events r. split; [|reflexivity].
  exact (proj1 session_statistics_follow_the_attempts
           (DwellComponent.mount (fun _ => 1 # 2)) events eq_refl).
Defined.

(** X9: the statistics cards stay in range.  In the three components,
    after any events from the mounted component, whatever numbers the
    snapshots carry, the successes do not exceed the attempts, the accuracy
    is a finite number between 0 and 100 and is shown as an integer from 0
    to 100, and the average deviation, also when rounded, is not negative:
    it is a finite number from 0 on, the positive infinity, or [NaN].  When
    the analog values of all snapshots are numbers from 0 to 1, the average
    deviation is a finite number from 0 to 100.  A deviation that is [NaN]
    makes the average deviation [NaN], and further attempts leave it so. *)
Theorem statistics_cards_stay_in_range :
  (forall st : Js.TestStats,
      ((exists rand events,
           st = DwellComponent.testStats
                  (fst (DwellComponent.session events
                          (DwellComponent.mount rand))))
       \/ (exists rand events,
              st = PeakComponent.testStats
                     (fst (PeakComponent.session events
                             (PeakComponent.mount rand))))
       \/ (exists rand events,
              st = InstantComponent.testStats
                     (fst (InstantComponent.session events
                             (InstantComponent.mount rand))))) ->
      (Js.successfulHits st <= Js.totalAttempts st)%nat
      /\ (exists a, Js.accuracy st = Js.Finite a /\ 0 <= a /\ a <= 100)
      /\ (exists z, Js.round (Js.accuracy st) = Js.Finite (inject_Z z)
                    /\ (0 <= z <= 100)%Z)
      /\ notNegative (Js.averageDeviation st)
      /\ notNegative (Js.round (Js.averageDeviation st)))
  /\ (forall rand events,
         Forall dwellUnit events ->
         within 0 100
           (Js.averageDeviation
              (DwellComponent.testStats
                 (fst (DwellComponent.session events
                         (DwellComponent.mount rand))))))
  /\ (forall rand events,
         Forall peakUnit events ->
         within 0 100
           (Js.averageDeviation
              (PeakComponent.testStats
                 (fst (PeakComponent.session events
                         (PeakComponent.mount rand))))))
  /\ (forall rand events,
         Forall instantUnit events ->
         within 0 100
           (Js.averageDeviation
              (InstantComponent.testStats
                 (fst (InstantComponent.session events
                         (InstantComponent.mount rand))))))
  /\ (forall ok st,
         Js.averageDeviation (Js.updateStats Js.NaN ok st) = Js.NaN)
  /\ (forall d ok st,
         Js.averageDeviation st = Js.NaN ->
         Js.averageDeviation (Js.updateStats d ok st) = Js.NaN).
Proof.
  assert (Z : recorded Js.zeroStats)
    by (exists []; split; [reflexivity | constructor]).
  split; [|split; [|split; [|split; [|split]]]].
  - intros st [(rand & events & ->) | [(rand & events & ->)
                                      | (rand & events & ->)]];
      apply recorded_inRange.
    + apply (session_recorded _ _ DwellComponent.step DwellComponent.isReset
               DwellComponent.testStats dwellc_step_stats).
      now rewrite dwellc_mount_stats.
    + apply (session_recorded _ _ PeakComponent.step PeakComponent.isReset
               PeakComponent.testStats peakc_step_stats).
      now rewrite (proj1 (peakc_mount_stats rand)).
    + apply (session_recorded _ _ InstantComponent.step
               InstantComponent.isReset InstantComponent.testStats
               instantc_step_stats).
      now rewrite (proj1 (instantc_mount_clears rand)).
  - intros rand events F.
    exact (proj1 (session_invariant _ _ DwellComponent.step dwellUnit
                    dwellPercentState dwellc_step_percent events _ F
                    (dwellc_mount_percent rand))).
  - intros rand events F.
    exact (proj1 (session_invariant _ _ PeakComponent.step peakUnit
                    peakPercentState peakc_step_percent events _ F
                    (peakc_mount_percent rand))).
  - intros rand events F.
    exact (proj1 (session_invariant _ _ InstantComponent.step instantUnit
                    instantPercentState instantc_step_percent events _ F
                    (instantc_mount_percent rand))).
  - intros ok st. apply averageDeviation_of_NaN.
  - intros d ok st. apply averageDeviation_NaN.
Qed.

(** A dwell session in which the hook has passed on [NaN] for the analog
    value of the target key: after the dwell time the attempt is recorded
    with the deviation [NaN], and the average deviation is [NaN]. *)
Lemma statistics_cards_stay_in_range_witness :
  let held := [mkKeyData 9 Js.NaN 1] in
  let events := [DwellComponent.Start true;
                 DwellComponent.Run 1000 held;
                 DwellComponent.Run 1750 held] in
  let st := DwellComponent.testStats
              (fst (DwellComponent.session events
                      (DwellComponent.mount (fun _ => 1 # 2)))) in
  Js.averageDeviation st = Js.NaN
  /\ Js.totalAttempts st = 1%nat
  /\ notNegative (Js.averageDeviation st)
  /\ exists a, Js.accuracy st = Js.Finite a /\ 0 <= a /\ a <= 100.
Proof.
  intros held events st.
  split; [reflexivity|]. split; [reflexivity|].
  destruct (proj1 statistics_cards_stay_in_range st) as (_ & A & _ & N & _).
  - left. exists (fun _ => 1 # 2), events. reflexivity.
  - split; [exact N | exact A].
Defined.

(** X10: every resolved attempt advances the index once.  In the three
    components, over any events that do not restart the sequence (a reset
    and, in the peak component, a click on a level button put the index
    back to 0), the index plus the number of pending timers grows by
    exactly the number of attempts resolved: each attempt sets one timer,
    and each timer that fires moves the index by one. *)
Theorem index_and_timers_count_the_attempts :
  (forall s events,
      without DwellComponent.isReset events ->
      let r := DwellComponent.session events s in
      (DwellComponent.currentIndex (fst r)
       + length (DwellComponent.timers (fst r))
       = DwellComponent.currentIndex s + length (DwellComponent.timers s)
         + length (snd r))%nat)
  /\ (forall s events,
         without PeakComponent.restarts events ->
         let r := PeakComponent.session events s in
         (PeakComponent.currentIndex (fst r)
          + length (PeakComponent.timers (fst r))
          = PeakComponent.currentIndex s + length (PeakComponent.timers s)
            + length (snd r))%nat)
  /\ (forall s events,
         without InstantComponent.isReset events ->
         let r := InstantComponent.session events s in
         (InstantComponent.currentIndex (fst r)
          + length (InstantComponent.timers (fst r))
          = InstantComponent.currentIndex s
            + length (InstantComponent.timers s) + length (snd r))%nat).
Proof.
  split; [|split]; intros s events N r; subst r.
  - exact (session_timers _ _ DwellComponent.step DwellComponent.isReset
             DwellComponent.currentIndex
             (fun s => length (DwellComponent.timers s))
             dwellc_step_timers events s N).
  - exact (session_timers _ _ PeakComponent.step PeakComponent.restarts
             PeakComponent.currentIndex
             (fun s => length (PeakComponent.timers s))
             peakc_step_timers events s N).
  - exact (session_timers _ _ InstantComponent.step InstantComponent.isReset
             InstantComponent.currentIndex
             (fun s => length (InstantComponent.timers s))
             instantc_step_timers events s N).
Qed.

Lemma index_and_timers_count_the_attempts_witness :
  let events := [PeakComponent.Start true;
                 PeakComponent.Run 1000 [mkKeyData 9 (Js.Finite 0.6) 1];
                 PeakComponent.Run 1500 [mkKeyData 9 (Js.Finite 0) 0];
                 PeakComponent.TimerFires] in
  let r := PeakComponent.session events
             (PeakComponent.mount (fun _ => 1 # 2)) in
  (PeakComponent.currentIndex (fst r) + length (PeakComponent.timers (fst r))
   = 0 + 0 + length (snd r))%nat
  /\ PeakComponent.currentIndex (fst r) = 1%nat.
Proof.
  intros events r. split; [|reflexivity].
  exact (proj1 (proj2 index_and_timers_count_the_attempts)
           (PeakComponent.mount (fun _ => 1 # 2)) events eq_refl).
Defined.


(** X18: a finished test stays finished until the sequence is restarted.
    In the three components, once the index has reached the end of the
    sequence, no events other than those that restart the sequence (a reset
    and, in the peak component, a click on a level button) resolve an
    attempt or change the statistics, the index stays at or beyond the end,
    and after any such event the test is not active: [Start] does not
    restart a finished test. *)
Theorem finished_test_stays_finished :
  (forall s events,
      without DwellComponent.isReset events ->
      (length (DwellComponent.testSequence s)
       <= DwellComponent.currentIndex s)%nat ->
      let r := DwellComponent.session events s in
      snd r = []
      /\ DwellComponent.testStats (fst r) = DwellComponent.testStats s
      /\ (length (DwellComponent.testSequence (fst r))
          <= DwellComponent.currentIndex (fst r))%nat
      /\ (events <> [] -> DwellComponent.isTestActive (fst r) = false))
  /\ (forall s events,
         without PeakComponent.restarts events ->
         (length (PeakComponent.testSequence s)
          <= PeakComponent.currentIndex s)%nat ->
         let r := PeakComponent.session events s in
         snd r = []
         /\ PeakComponent.testStats (fst r) = PeakComponent.testStats s
         /\ (length (PeakComponent.testSequence (fst r))
             <= PeakComponent.currentIndex (fst r))%nat
         /\ (events <> [] -> PeakComponent.isTestActive (fst r) = false))
  /\ (forall s events,
         without InstantComponent.isReset events ->
         (length (InstantComponent.testSequence s)
          <= InstantComponent.currentIndex s)%nat ->
         let r := InstantComponent.session events s in
         snd r = []
         /\ InstantComponent.testStats (fst r) = InstantComponent.testStats s
         /\ (length (InstantComponent.testSequence (fst r))
             <= InstantComponent.currentIndex (fst r))%nat
         /\ (events <> [] -> InstantComponent.isTestActive (fst r) = false)).
Proof.
  split; [|split]; intros s events N F r; subst r.
  - exact (session_finished _ _ DwellComponent.step DwellComponent.isReset
             DwellComponent.testStats
             (fun s => (length (DwellComponent.testSequence s)
                        <= DwellComponent.currentIndex s)%nat)
             DwellComponent.isTestActive dwellc_step_finished
             events s N F).
  - exact (session_finished _ _ PeakComponent.step PeakComponent.restarts
             PeakComponent.testStats
             (fun s => (length (PeakComponent.testSequence s)
                        <= PeakComponent.currentIndex s)%nat)
             PeakComponent.isTestActive peakc_step_finished
             events s N F).
  - exact (session_finished _ _ InstantComponent.step InstantComponent.isReset
             InstantComponent.testStats
             (fun s => (length (InstantComponent.testSequence s)
                        <= InstantComponent.currentIndex s)%nat)
             InstantComponent.isTestActive instantc_step_finished
             events s N F).
Qed.

Lemma finished_test_stays_finished_witness :
  let s := DwellComponent.setCurrentIndex 20
             (DwellComponent.mount (fun _ => 1 # 2)) in
  let held := [mkKeyData 9 (Js.Finite 0.61) 1] in
  let events := [DwellComponent.Start true; DwellComponent.Run 1000 held;
                 DwellComponent.Run 2000 held] in
  snd (DwellComponent.session events s) = []
  /\ DwellComponent.isTestActive (fst (DwellComponent.session events s))
     = false.
Proof.
  intros s held events.
  destruct (proj1 finished_test_stays_finished s events eq_refl)
    as (O & _ & _ & A).
  - apply Nat.leb_le. reflexivity.
  - split; [exact O | apply A; discriminate].
Defined.
